(** * HealerGuide utility scripts: [scraper.py] and [ios/scripts/fix-test-target.py]

    A shallow embedding of the two scripts and the proofs of their
    specified behaviour.

    - Python [str] values are lists of characters ([list ascii]); the
      operators the scripts use on them ([in], [find], slicing, [+]) are
      written out in [Module Py].
      A character is a byte of the UTF-8 encoding: the operations used
      (substring test, search, insertion where a match was found) give on
      bytes what they give on code points.
    - Code that awaits the browser, touches the file system, draws random
      identifiers or prints runs in a small state-and-exception monad
      ([Module Eff]); [try]/[except], [break] and [continue] are explicit.
    - The [dict] built by the scraper is a [gmap] keyed by the anchor text.
    - What lies outside the model.  An error is an [Exception], the kind
      [except Exception] catches: cancellation and interrupts are not
      modelled, nor are the launch and the closing of the browser, which
      the scraper awaits outside its [try].  The file system gives, for
      each path that can be opened and decoded, the text [read()] returns:
      a manifest that exists but cannot be read or written, and the
      line endings of its bytes, are not modelled.  Statements that a run
      returns are statements within these bounds. *)

From Stdlib Require Import Ascii String List ZArith Lia Bool DecimalString.
From stdpp Require Import base option list gmap strings.

Local Open Scope list_scope.

Abbreviation text := (list ascii).

(** A Python string literal. *)
Definition lit (s : string) : text := list_ascii_of_string s.
Arguments lit : simpl never.

(* ------------------------------------------------------------------ *)
(** ** Python string operations used by the scripts *)
(* ------------------------------------------------------------------ *)
Module Py.

(** [s.startswith(p)] *)
Fixpoint startswith (p s : text) : bool :=
  match p, s with
  | [], _ => true
  | _ :: _, [] => false
  | a :: p', b :: s' => if Ascii.eqb a b then startswith p' s' else false
  end.

(** [sub in s] *)
Fixpoint str_in (sub s : text) : bool :=
  startswith sub s ||
  match s with
  | [] => false
  | _ :: s' => str_in sub s'
  end.

(** [s.find(sub)]: index of the first occurrence, [-1] when there is none. *)
Fixpoint find_from (sub s : text) (i : nat) : Z :=
  if startswith sub s then Z.of_nat i
  else match s with
       | [] => (-1)%Z
       | _ :: s' => find_from sub s' (S i)
       end.

Definition find (s sub : text) : Z := find_from sub s 0.

(** Slice bounds: a negative index counts from the end, and every index
    is clamped to [0 .. len]. *)
Definition bound (i : Z) (len : nat) : nat :=
  if (i <? 0)%Z then Z.to_nat (Z.max 0 (Z.of_nat len + i))
  else Z.to_nat (Z.min i (Z.of_nat len)).

(** [s[:i]] *)
Definition slice_to (s : text) (i : Z) : text := take (bound i (length s)) s.

(** [s[i:]] *)
Definition slice_from (s : text) (i : Z) : text := drop (bound i (length s)) s.

(** [s.upper()], on ASCII letters. *)
Definition upper_char (c : ascii) : ascii :=
  let n := nat_of_ascii c in
  if (97 <=? n)%nat && (n <=? 122)%nat then ascii_of_nat (n - 32) else c.

Definition upper (s : text) : text := map upper_char s.

(** [s.replace(c, '')] for a one-character [c]. *)
Definition remove_all (c : ascii) (s : text) : text :=
  filter (fun x => x <> c) s.

(** [c in s] for a character [c]. *)
Definition has_char (c : ascii) (s : text) : bool := existsb (Ascii.eqb c) s.

(** [any(name in s for name in names)] *)
Definition any_in (names : list text) (s : text) : bool :=
  existsb (fun name => str_in name s) names.

End Py.

(* ------------------------------------------------------------------ *)
(** ** State and exceptions *)
(* ------------------------------------------------------------------ *)
Module Eff.

(** What awaiting or calling something gives: a value, or a raised
    exception (carried as its message). *)
Inductive outcome (A : Type) : Type :=
| Ok (a : A)
| Raise (e : text).
Arguments Ok {A} a.
Arguments Raise {A} e.

Section Monad.
Context {S : Type}.

Definition M (A : Type) : Type := S -> outcome A * S.

Definition ret {A} (a : A) : M A := fun s => (Ok a, s).

Definition bind {A B} (k : A -> M B) (m : M A) : M B :=
  fun s => match m s with
           | (Ok a, s') => k a s'
           | (Raise e, s') => (Raise e, s')
           end.

Definition get : M S := fun s => (Ok s, s).
Definition modify (f : S -> S) : M unit := fun s => (Ok tt, f s).

(** [await x] where [x] is what the outside world answers. *)
Definition await {A} (o : outcome A) : M A := fun s => (o, s).

(** [try: body / except Exception as e: handler e].  A [Raise] stands for
    an exception of class [Exception]: those the handler catches. *)
Definition try_except {A} (body : M A) (handler : text -> M A) : M A :=
  fun s => match body s with
           | (Ok a, s') => (Ok a, s')
           | (Raise e, s') => handler e s'
           end.
End Monad.

Arguments M : clear implicits.

(** [m] keeps the invariant [I] of the state, whether it returns or raises. *)
Definition preserves {S A} (I : S -> Prop) (m : M S A) : Prop :=
  forall s, I s -> I (m s).2.

(** [m] returns a value from every state. *)
Definition never_raises {S A} (m : M S A) : Prop :=
  forall s, exists a, (m s).1 = Ok a.

#[global] Instance M_ret {S} : MRet (M S) := @ret S.
#[global] Instance M_bind {S} : MBind (M S) := @bind S.

(** How an iteration of a [for] body ends. *)
Inductive flow : Type := Next | Break.

End Eff.

Import Eff.


Section Loops.
Context {S A : Type}.

(** [for x in xs: body x], where the body may [break]. *)
Fixpoint for_in (xs : list A) (body : A -> M S flow) : M S unit :=
  match xs with
  | [] => mret tt
  | x :: rest =>
      f ← body x;
      match f with
      | Break => mret tt
      | Next => for_in rest body
      end
  end.

(** [for x in xs: v = body x v], a loop that rebinds a local variable. *)
Fixpoint for_fold {V : Type} (xs : list A) (body : A -> V -> M S V) (v : V) : M S V :=
  match xs with
  | [] => mret v
  | x :: rest => v' ← body x v; for_fold rest body v'
  end.
End Loops.

(** Characters written by escape or by code in the scripts' literals. *)
Definition dquote : ascii := ascii_of_nat 34.
Definition newline : ascii := ascii_of_nat 10.
Definition tab : ascii := ascii_of_nat 9.

(** [str(n)] for a non-negative integer. *)
Definition str_of_nat (n : nat) : text :=
  lit (NilEmpty.string_of_uint (Nat.to_uint n)).

(* ------------------------------------------------------------------ *)
(** ** [scraper.py] *)
(* ------------------------------------------------------------------ *)
Module Scraper.

(** *** The browser, as the script sees it *)

(** An element handle returned by [query_selector_all]: what awaiting
    [inner_text()] and [get_attribute(name)] on it gives. *)
Record ElementHandle : Type := {
  inner_text : outcome text;
  get_attribute : text -> outcome (option text)
}.

(** The page object after it was asked to load a URL: what awaiting
    [goto], [content()] and [query_selector_all(selector)] gives. *)
Record Page : Type := {
  goto : outcome unit;
  content : outcome text;
  query_selector_all : text -> outcome (list ElementHandle)
}.

(** The outside world: every URL with the page behaviour behind it. *)
Definition Browser : Type := text -> Page.

(** *** The script's data *)

(** A value of [dungeons_data]: [{'url': href, 'source': url}]. *)
Record DungeonRecord : Type := {
  url : option text;
  source : text
}.

Inductive event : Type :=
| Navigate (u : text)                         (* page.goto(u) was called *)
| Stdout (line : text)                        (* print(line) *)
| StdoutJson (d : gmap text DungeonRecord)    (* print(json.dumps(d, indent=2)) *)
| CloseBrowser.                               (* browser.close() *)

Record St : Type := {
  dungeons_data : gmap text DungeonRecord;
  log : list event
}.

Definition emit (e : event) : M St unit :=
  modify (fun st => {| dungeons_data := dungeons_data st; log := log st ++ [e] |}).

Definition print (line : text) : M St unit := emit (Stdout line).

(** [dungeons_data[k] = r] *)
Definition setitem (k : text) (r : DungeonRecord) : M St unit :=
  modify (fun st => {| dungeons_data := <[k := r]> (dungeons_data st); log := log st |}).

Definition wowhead : text := lit "https://www.wowhead.com/guides/dungeons".
Definition icy_veins : text := lit "https://www.icy-veins.com/wow/".
Definition wowpedia : text := lit "https://wowpedia.fandom.com/wiki/Dungeon".

Definition sources : list text := [wowhead; icy_veins; wowpedia].

Definition names : list text :=
  [ lit "Ara-Kara"; lit "Dawnbreaker"; lit "Eco-Dome";
    lit "Operation"; lit "Priory"; lit "Tazavesh" ].

(** The CSS selector [a[href*="dungeon"]]. *)
Definition dungeon_selector : text :=
  lit "a[href*=" ++ [dquote] ++ lit "dungeon" ++ [dquote] ++ lit "]".

Section Run.
Variable browser : Browser.

(** Body of [for link in dungeon_links[:5]]. *)
Definition visit_link (u : text) (link : ElementHandle) : M St flow :=
  text ← await (inner_text link);
  href ← await (get_attribute link (lit "href"));
  (if Py.any_in names text
   then setitem text {| url := href; source := u |}
   else mret tt);;
  mret Next.

(** The [try] block of the body of [for url in sources]. *)
Definition attempt (u : text) : M St flow :=
  print (lit "Trying " ++ u ++ lit "...");;
  emit (Navigate u);;
  await (goto (browser u));;
  content ← await (content (browser u));
  if Py.str_in (lit "War Within") content || Py.str_in (lit "Season 3") content
  then
    dungeon_links ← await (query_selector_all (browser u) dungeon_selector);
    for_in (take 5 dungeon_links) (visit_link u);;
    st ← get;
    print (lit "Found " ++ str_of_nat (size (dungeons_data st))
           ++ lit " dungeons from " ++ u);;
    mret Break
  else mret Next.

(** Its [except Exception as e] block. *)
Definition on_error (u e : text) : M St flow :=
  print (lit "Error with " ++ u ++ lit ": " ++ e);;
  mret Next.

(** Body of [for url in sources]. *)
Definition try_url (u : text) : M St flow :=
  try_except (attempt u) (on_error u).

(** The script from [dungeons_data = {}] to [return dungeons_data], in a
    browser session that is open: the launch of the browser, the new page
    and the request header come before, and [browser.close()] is taken
    to return. *)
Definition scrape_wow_content : M St (gmap text DungeonRecord) :=
  for_in sources try_url;;
  emit CloseBrowser;;
  print ([newline] ++ lit "=== SCRAPED DUNGEON DATA ===");;
  st ← get;
  emit (StdoutJson (dungeons_data st));;
  mret (dungeons_data st).

Definition initial : St := {| dungeons_data := ∅; log := [] |}.

(** One run of the script: what it returns (or raises) and the final state. *)
Definition run : outcome (gmap text DungeonRecord) * St :=
  scrape_wow_content initial.

(** The URLs the run navigated to, in order. *)
Definition navigated : list text :=
  omap (fun e => match e with Navigate u => Some u | _ => None end) (log run.2).

(** What URL [u] yields: the records that processing [u] stores when
    it starts from an empty [dungeons_data]. *)
Definition found_at (u : text) : gmap text DungeonRecord :=
  dungeons_data (attempt u initial).2.

(** Processing URL [u] raises an error. *)
Definition raises_at (u : text) : Prop :=
  exists e, (attempt u initial).1 = Raise e.

(** The loop stops trying further URLs at [u]: the body ends in [break]. *)
Definition stops_at (u : text) : Prop :=
  forall s, (try_url u s).1 = Ok Break.
End Run.

(** What every entry of [dungeons_data] satisfies. *)
Definition well_formed (k : text) (r : DungeonRecord) : Prop :=
  Py.any_in names k = true /\ source r ∈ sources.

Definition all_well_formed (st : St) : Prop :=
  map_Forall well_formed (dungeons_data st).

(** The page is relevant: its HTML has one of the two markers. *)
Definition has_marker (content : text) : bool :=
  Py.str_in (lit "War Within") content || Py.str_in (lit "Season 3") content.

(** Both awaits on the handle answer. *)
Definition handle_ok (link : ElementHandle) : bool :=
  match inner_text link, get_attribute link (lit "href") with
  | Ok _, Ok _ => true
  | _, _ => false
  end.

(** The page loads, has a marker, and its first five matching anchors
    are read without error. *)
Definition completes (pg : Page) : bool :=
  match goto pg, content pg with
  | Ok _, Ok c =>
      has_marker c &&
      match query_selector_all pg dungeon_selector with
      | Ok links => forallb handle_ok (take 5 links)
      | Raise _ => false
      end
  | _, _ => false
  end.

(** The [(key, record)] pairs the loop over [links] stores, in order: it
    stops at the first handle that raises. *)
Fixpoint stored (u : text) (links : list ElementHandle) : list (text * DungeonRecord) :=
  match links with
  | [] => []
  | link :: rest =>
      match inner_text link, get_attribute link (lit "href") with
      | Ok t, Ok h =>
          (if Py.any_in names t then [(t, {| url := h; source := u |})] else [])
          ++ stored u rest
      | _, _ => []
      end
  end.

(** The pairs that processing a page at URL [u] stores. *)
Definition page_stored (u : text) (pg : Page) : list (text * DungeonRecord) :=
  match goto pg, content pg with
  | Ok _, Ok c =>
      if has_marker c then
        match query_selector_all pg dungeon_selector with
        | Ok links => stored u (take 5 links)
        | Raise _ => []
        end
      else []
  | _, _ => []
  end.

(** [d[k] = r] for every pair of [ins], in order. *)
Definition store_all (d : gmap text DungeonRecord) (ins : list (text * DungeonRecord)) :
  gmap text DungeonRecord :=
  foldl (fun d kr => <[kr.1 := kr.2]> d) d ins.

Definition navigations (l : list event) : list text :=
  omap (fun e => match e with Navigate u => Some u | _ => None end) l.

(** The URLs of [urls] up to and including the first whose page [completes]. *)
Fixpoint tried (b : Browser) (urls : list text) : list text :=
  match urls with
  | [] => []
  | u :: rest => u :: (if completes (b u) then [] else tried b rest)
  end.

(** *** Documents: what a page shows *)

Record Anchor : Type := {
  href : text;
  visible_text : text
}.

Record Document : Type := {
  html : text;
  anchors : list Anchor
}.

(** A handle on an anchor that can be read. *)
Definition handle_of (a : Anchor) : ElementHandle :=
  {| inner_text := Ok (visible_text a);
     get_attribute := fun name =>
       Ok (if decide (name = lit "href") then Some (href a) else None) |}.

(** Reading the handle gives the visible text and the href of the anchor. *)
Definition reads (h : ElementHandle) (a : Anchor) : Prop :=
  inner_text h = Ok (visible_text a) /\
  get_attribute h (lit "href") = Ok (Some (href a)).

(** The [v] of a CSS selector of the form [a[href*="v"]]; [None] for
    every other selector. *)
Definition href_substring (sel : text) : option text :=
  let opening := lit "a[href*=" ++ [dquote] in
  let closing := [dquote] ++ lit "]" in
  let v := take (length sel - length opening - length closing)
                (drop (length opening) sel) in
  if bool_decide (sel = opening ++ v ++ closing) && negb (Py.has_char dquote v)
  then Some v
  else None.

(** What [querySelectorAll(sel)] finds among the anchors of a document,
    in document order, read off the text of the selector: for
    [a[href*="v"]] the anchors whose href has [v] as a substring.  No
    other selector is modelled. *)
Definition matching (sel : text) (doc : Document) : option (list Anchor) :=
  match href_substring sel with
  | Some v => Some (filter (fun a => Is_true (Py.str_in v (href a))) (anchors doc))
  | None => None
  end.

(** The anchors whose href contains "dungeon", in document order. *)
Definition select_dungeon_anchors (doc : Document) : list Anchor :=
  filter (fun a => Is_true (Py.str_in (lit "dungeon") (href a))) (anchors doc).

(** The page that loads and shows [doc]: a query is answered from the
    text of its selector, with the handle [handle a] for each anchor [a]
    found ([handle a] may be a handle that raises when it is read); a
    selector outside the model is answered with an error. *)
Definition serve_with (handle : Anchor -> ElementHandle) (doc : Document) : Page :=
  {| goto := Ok tt;
     content := Ok (html doc);
     query_selector_all := fun sel =>
       match matching sel doc with
       | Some found => Ok (map handle found)
       | None => Raise (lit "selector outside the model")
       end |}.

(** The page that shows [doc] and whose anchors can all be read. *)
Definition serve (doc : Document) : Page := serve_with handle_of doc.

(** A handle on an element that is no longer attached to the page:
    reading it raises. *)
Definition detached : ElementHandle :=
  {| inner_text := Raise (lit "Element is not attached to the DOM");
     get_attribute := fun _ => Raise (lit "Element is not attached to the DOM") |}.

(** The anchors the loop looks at, and those among them it records. *)
Definition considered (doc : Document) : list Anchor :=
  take 5 (select_dungeon_anchors doc).

Definition qualifying (doc : Document) : list Anchor :=
  filter (fun a => Is_true (Py.any_in names (visible_text a))) (considered doc).

Definition record_of (u : text) (a : Anchor) : DungeonRecord :=
  {| url := Some (href a); source := u |}.

(** A URL that cannot be loaded. *)
Definition unreachable : Page :=
  {| goto := Raise (lit "net::ERR_NAME_NOT_RESOLVED");
     content := Ok [];
     query_selector_all := fun _ => Ok [] |}.

End Scraper.

(* ------------------------------------------------------------------ *)
(** ** The two regular expressions of [fix-test-target.py] *)
(* ------------------------------------------------------------------ *)
Module Re.

(** [re.search(r'<open>(.*?)<close>', s, re.DOTALL)] for literal [open]
    and [close]: is there a match?  The search tries every start
    position from the left; at a start, [open] must be there and the
    lazy [.*?] grows until [close] is found behind it. *)
Fixpoint search_between (open close s : text) : bool :=
  (Py.startswith open s && Py.str_in close (drop (length open) s)) ||
  match s with
  | [] => false
  | _ :: s' => search_between open close s'
  end.

(** The length of the longest prefix of [s] made of characters other
    than [c]: what a greedy [[^c]*] consumes. *)
Fixpoint run_not (c : ascii) (s : text) : nat :=
  match s with
  | [] => 0
  | x :: s' => if Ascii.eqb x c then 0 else S (run_not c s')
  end.

Definition phase_head : text := lit "A194BCD52E7873C400DC3B4F /* Sources */ = {".
Definition files_open : text := lit "files = (".

(** After [phase_head]: the greedy [[^}]+] took [k] characters of [r];
    try [files = \(] and [[^)]+] there, and give back one character at
    a time until they match.  The result is the length matched from [r]. *)
Fixpoint backtrack (k : nat) (r : text) : option nat :=
  match k with
  | 0 => None
  | S k' =>
      let t := drop k r in
      let lst := drop (length files_open) t in
      if Py.startswith files_open t && (0 <? run_not ")" lst)
      then Some (k + length files_open + run_not ")" lst)
      else backtrack k' r
  end.

(** A match that starts at the first character of [s]: where it ends. *)
Definition match_here (s : text) : option nat :=
  if Py.startswith phase_head s then
    let r := drop (length phase_head) s in
    e ← backtrack (run_not "}" r) r;
    Some (length phase_head + e)
  else None.

(** [re.search(r'(A194BCD52E7873C400DC3B4F \/\* Sources \*\/ = {[^}]+files = \([^)]+)', s, re.DOTALL)]:
    [Some (m.end())] of the leftmost match, [None] without one. *)
Fixpoint search_sources_phase (s : text) : option nat :=
  match match_here s with
  | Some e => Some e
  | None =>
      match s with
      | [] => None
      | _ :: s' => S <$> search_sources_phase s'
      end
  end.

End Re.

(* ------------------------------------------------------------------ *)
(** ** [ios/scripts/fix-test-target.py] *)
(* ------------------------------------------------------------------ *)
Module Patcher.

(** *** The outside world *)

Inductive event : Type :=
| PathExists (p : text)                 (* os.path.exists(p) *)
| ReadFile (p : text)                   (* open(p, 'r') ... f.read() *)
| WriteFile (p : text) (c : text)       (* open(p, 'w') ... f.write(c) *)
| Stdout (line : text).                 (* print(line) *)

Record World : Type := {
  files : gmap text text;   (* by path, the text [read()] gives for a file on disk *)
  urandom : nat -> N;       (* the random 128-bit values [uuid.uuid4()] is made from *)
  drawn : nat;              (* how many of them were handed out *)
  log : list event
}.

Definition emit (e : event) : M World unit :=
  modify (fun w => {| files := files w; urandom := urandom w; drawn := drawn w;
                      log := log w ++ [e] |}).

Definition print (line : text) : M World unit := emit (Stdout line).

Definition os_path_exists (p : text) : M World bool :=
  emit (PathExists p);;
  w ← get;
  mret (bool_decide (is_Some (files w !! p))).

(** *** [uuid.uuid4()] and [str] of it *)

Definition hex_char (d : N) : ascii :=
  nth (N.to_nat d) (lit "0123456789abcdef") "0"%char.

(** ['%0kx' % n], for [n] below [16^k]. *)
Fixpoint hex_digits (k : nat) (n : N) : text :=
  match k with
  | 0 => []
  | S k' => hex_digits k' (n / 16) ++ [hex_char (n mod 16)]
  end.

(** [str(u)] for a UUID with integer value [u]: 8-4-4-4-12 hex digits. *)
Definition uuid_str (u : N) : text :=
  let hex := hex_digits 32 u in
  take 8 hex ++ lit "-" ++ take 4 (drop 8 hex) ++ lit "-" ++
  take 4 (drop 12 hex) ++ lit "-" ++ take 4 (drop 16 hex) ++ lit "-" ++
  drop 20 hex.

(** The integer value of the UUID that [uuid.uuid4()] makes of 16 random
    bytes: the variant bits are set to [10] and the version to 4. *)
Definition uuid4_int (random : N) : N :=
  let int := (random mod 2 ^ 128)%N in
  let int := N.ldiff int (N.shiftl 0xc000 48) in
  let int := N.lor int (N.shiftl 0x8000 48) in
  let int := N.ldiff int (N.shiftl 0xf000 64) in
  N.lor int (N.shiftl 4 76).

Definition draw_uuid4 : M World N :=
  w ← get;
  modify (fun w => {| files := files w; urandom := urandom w; drawn := S (drawn w);
                      log := log w |});;
  mret (uuid4_int (urandom w (drawn w))).

(** *** The script *)

Definition PROJECT_FILE : text := lit "HealerKit.xcodeproj/project.pbxproj".

(** [open(PROJECT_FILE, 'r')] and [f.read()]: the text of the file as
    Python decodes it; [FileNotFoundError] when there is no such file.
    A file that is there but cannot be opened or decoded is outside the
    model. *)
Definition read_project_file : M World text :=
  emit (ReadFile PROJECT_FILE);;
  w ← get;
  match files w !! PROJECT_FILE with
  | Some c => mret c
  | None => await (Raise (lit "FileNotFoundError"))
  end.

(** [open(PROJECT_FILE, 'w')] and [f.write(content)], taken to succeed:
    the next [read()] of the file gives [content]. *)
Definition write_project_file (content : text) : M World unit :=
  emit (WriteFile PROJECT_FILE content);;
  modify (fun w => {| files := <[PROJECT_FILE := content]> (files w);
                      urandom := urandom w; drawn := drawn w; log := log w |}).

Definition generate_uuid : M World text :=
  u ← draw_uuid4;
  mret (Py.slice_to (Py.remove_all "-" (Py.upper (uuid_str u))) 24).

Definition begin_build_file : text := lit "/* Begin PBXBuildFile section */".
Definition end_build_file : text := lit "/* End PBXBuildFile section */".
Definition begin_file_ref : text := lit "/* Begin PBXFileReference section */".
Definition end_file_ref : text := lit "/* End PBXFileReference section */".

Definition build_file_entry (build_file_id file_ref_id file_name : text) : text :=
  [tab; tab] ++ build_file_id ++ lit " /* " ++ file_name ++
  lit " in Sources */ = {isa = PBXBuildFile; fileRef = " ++ file_ref_id ++
  lit " /* " ++ file_name ++ lit " */; };".

Definition file_ref_entry (file_ref_id file_name : text) : text :=
  [tab; tab] ++ file_ref_id ++ lit " /* " ++ file_name ++
  lit " */ = {isa = PBXFileReference; lastKnownFileType = sourcecode.swift; path = " ++
  file_name ++ lit "; sourceTree = " ++ [dquote] ++ lit "<group>" ++ [dquote] ++ lit "; };".

Definition build_file_ref (build_file_id file_name : text) : text :=
  [tab; tab; tab; tab] ++ build_file_id ++ lit " /* " ++ file_name ++ lit " in Sources */,".

(** The three edits of [add_file_to_project], each on the text the
    previous one left. *)
Definition insert_build_file (entry content : text) : text :=
  if Re.search_between begin_build_file end_build_file content then
    let end_pos := Py.find content end_build_file in
    Py.slice_to content end_pos ++ entry ++ [newline] ++ Py.slice_from content end_pos
  else content.

Definition insert_file_ref (entry content : text) : text :=
  if Re.search_between begin_file_ref end_file_ref content then
    let end_pos := Py.find content end_file_ref in
    Py.slice_to content end_pos ++ entry ++ [newline] ++ Py.slice_from content end_pos
  else content.

Definition insert_sources_phase (ref content : text) : text :=
  match Re.search_sources_phase content with
  | Some e =>
      let insert_pos := Z.of_nat e in
      Py.slice_to content insert_pos ++ [newline] ++ ref ++ Py.slice_from content insert_pos
  | None => content
  end.

Definition add_file_to_project (content file_path file_name : text) : M World text :=
  file_ref_id ← generate_uuid;
  build_file_id ← generate_uuid;
  print (lit "Adding " ++ file_path ++ lit " with IDs: " ++ file_ref_id
         ++ lit ", " ++ build_file_id);;
  let content := insert_build_file
                   (build_file_entry build_file_id file_ref_id file_name) content in
  let content := insert_file_ref (file_ref_entry file_ref_id file_name) content in
  let content := insert_sources_phase (build_file_ref build_file_id file_name) content in
  mret content.

Definition test_files : list (text * text) :=
  [ (lit "DungeonKitTests/ModelTests/DungeonTests.swift", lit "DungeonTests.swift");
    (lit "DungeonKitTests/ModelTests/BossEncounterTests.swift", lit "BossEncounterTests.swift");
    (lit "DungeonKitTests/ModelTests/SeasonTests.swift", lit "SeasonTests.swift") ].

(** Body of [for file_path, file_name in test_files]. *)
Definition register (entry : text * text) (content : text) : M World text :=
  let '(file_path, file_name) := entry in
  ex ← os_path_exists file_path;
  if (ex : bool) then
    if negb (Py.str_in file_name content) then
      print (lit "Adding " ++ file_name ++ lit " to project...");;
      add_file_to_project content file_path file_name
    else
      print (lit "File " ++ file_name ++ lit " already in project");;
      mret content
  else
    print (lit "Warning: " ++ file_path ++ lit " does not exist");;
    mret content.

Definition main : M World unit :=
  ex ← os_path_exists PROJECT_FILE;
  if negb (ex : bool) then
    print (lit "Error: " ++ PROJECT_FILE ++ lit " not found")
  else
    content ← read_project_file;
    content ← for_fold test_files register content;
    write_project_file content;;
    print (lit "âœ… Project file updated successfully!");;
    print (lit "ðŸ’¡ Run 'xcodebuild clean' to ensure changes take effect").

(** *** Vocabulary of the statements *)

(** The world with [es] added to its log. *)
Definition logged (w : World) (es : list event) : World :=
  {| files := files w; urandom := urandom w; drawn := drawn w; log := log w ++ es |}.

(** Two worlds that differ in their logs only. *)
Definition same_world (w1 w2 : World) : Prop :=
  files w1 = files w2 /\ urandom w1 = urandom w2 /\ drawn w1 = drawn w2.

(** The texts written to files, in order. *)
Definition writes (l : list event) : list (text * text) :=
  omap (fun e => match e with WriteFile p c => Some (p, c) | _ => None end) l.

Definition warning (file_path : text) : text :=
  lit "Warning: " ++ file_path ++ lit " does not exist".

(** What [add_file_to_project] returns, given the two identifiers drawn. *)
Definition edited (file_ref_id build_file_id content file_name : text) : text :=
  insert_sources_phase (build_file_ref build_file_id file_name)
    (insert_file_ref (file_ref_entry file_ref_id file_name)
       (insert_build_file (build_file_entry build_file_id file_ref_id file_name) content)).

(** The identifier [generate_uuid] returns at its [k]-th next call. *)
Definition nth_id (w : World) (k : nat) : text :=
  Py.slice_to
    (Py.remove_all "-" (Py.upper (uuid_str (uuid4_int (urandom w (drawn w + k)))))) 24.

(** The characters of a minted identifier. *)
Definition is_upper_hex (c : ascii) : bool := Py.has_char c (lit "0123456789ABCDEF").

(** A 24-character identifier of upper-case hexadecimal digits. *)
Definition minted (id : text) : Prop :=
  length id = 24 /\ forallb is_upper_hex id = true.

(** Every hexadecimal digit read as ["0"]: what is left of a text when
    the value of its identifiers is forgotten. *)
Definition mask (c : ascii) : ascii := if is_upper_hex c then "0"%char else c.

(** The file names of [test_files]. *)
Definition listed (name : text) : Prop :=
  name = lit "DungeonTests.swift" \/ name = lit "BossEncounterTests.swift" \/
  name = lit "SeasonTests.swift".

(** A manifest cut at the places the patcher edits. *)
Record Layout : Type := {
  build_files : text;  (* all in front of the first "/* End PBXBuildFile section */" *)
  file_refs : text;    (* from there to the first "/* End PBXFileReference section */" *)
  middle : text;       (* from there to the Sources build phase of the test target *)
  phase_body : text;   (* in the build phase, the text in front of "files = (" *)
  file_list : text;    (* the entries of the file list *)
  closing : text;      (* the closing parenthesis and the rest of the build phase *)
  tail : text          (* all behind the closing brace of the build phase *)
}.

Definition assemble (l : Layout) : text :=
  build_files l ++ end_build_file ++ file_refs l ++ end_file_ref ++ middle l ++
  Re.phase_head ++ phase_body l ++ Re.files_open ++ file_list l ++ closing l ++
  "}"%char :: tail l.

(** The cut is where the patcher looks: each end marker is the first of
    its kind and has its begin marker in front, the build phase head is
    the first of its kind, and its file list is the last thing in the
    block that reads "files = (" in front of an entry. *)
Record well_laid_out (l : Layout) : Prop := {
  begin_build_file_there : Py.str_in begin_build_file (build_files l) = true;
  end_build_file_first :
    Py.str_in end_build_file (build_files l ++ removelast end_build_file) = false;
  begin_file_ref_there : Py.str_in begin_file_ref (file_refs l) = true;
  end_file_ref_first :
    Py.str_in end_file_ref
      ((build_files l ++ end_build_file ++ file_refs l) ++ removelast end_file_ref) = false;
  phase_head_first :
    Py.str_in Re.phase_head
      ((build_files l ++ end_build_file ++ file_refs l ++ end_file_ref ++ middle l)
       ++ removelast Re.phase_head) = false;
  phase_body_some : phase_body l <> [];
  phase_body_open : Py.has_char "}" (phase_body l) = false;
  file_list_some : file_list l <> [];
  file_list_open : Py.has_char ")" (file_list l) = false;
  file_list_inside : Py.has_char "}" (file_list l) = false;
  closing_paren : Py.startswith (lit ")") (closing l) = true;
  closing_inside : Py.has_char "}" (closing l) = false;
  file_list_last :
    Py.str_in Re.files_open (List.tl Re.files_open ++ file_list l ++ closing l) = false
}.

(** The layout after one file was registered with the identifiers
    [file_ref_id] and [build_file_id]. *)
Definition with_file (l : Layout) (file_ref_id build_file_id file_name : text) : Layout :=
  {| build_files := build_files l
                    ++ build_file_entry build_file_id file_ref_id file_name ++ [newline];
     file_refs := file_refs l ++ file_ref_entry file_ref_id file_name ++ [newline];
     middle := middle l;
     phase_body := phase_body l;
     file_list := file_list l ++ [newline] ++ build_file_ref build_file_id file_name;
     closing := closing l;
     tail := tail l |}.

(** The listed entries whose source file is on disk. *)
Definition present (w : World) (entries : list (text * text)) : list (text * text) :=
  filter (fun e => is_Some (files w !! e.1)) entries.

End Patcher.

(* ------------------------------------------------------------------ *)
(** ** Sample pages and browsers *)
(* ------------------------------------------------------------------ *)
Module Fixtures.
Import Scraper.

(** A relevant page without a single link. *)
Definition season_page_no_links : Document :=
  {| html := lit "<h1>The War Within: Season 3</h1>"; anchors := [] |}.

(** A relevant page with seven dungeon links; the seventh is past the cap. *)
Definition season_page : Document :=
  {| html := lit "<h1>Season 3 dungeons</h1>";
     anchors :=
       [ {| href := lit "/dungeon/ara-kara"; visible_text := lit "Ara-Kara, City of Echoes" |};
         {| href := lit "/news"; visible_text := lit "Priory news" |};
         {| href := lit "/dungeon/halls"; visible_text := lit "Halls of Atonement" |};
         {| href := lit "/dungeon/dawn"; visible_text := lit "The Dawnbreaker" |};
         {| href := lit "/guides/dungeon/ara-kara"; visible_text := lit "Ara-Kara, City of Echoes" |};
         {| href := lit "/dungeon/floodgate"; visible_text := lit "Operation: Floodgate" |};
         {| href := lit "/dungeon/eco-dome"; visible_text := lit "Eco-Dome Al'dani" |};
         {| href := lit "/dungeon/priory"; visible_text := lit "Priory of the Sacred Flame" |} ] |}.

(** A page without either marker. *)
Definition other_page : Document :=
  {| html := lit "<h1>Classic dungeons</h1>";
     anchors := [ {| href := lit "/dungeon/tazavesh"; visible_text := lit "Tazavesh" |} ] |}.

(** First URL: relevant page, no link.  Second URL: the page with links. *)
Definition empty_then_full : Browser :=
  fun u => if decide (u = wowhead) then serve season_page_no_links
           else if decide (u = icy_veins) then serve season_page
           else unreachable.

(** First URL: no marker.  Second URL: the page with links. *)
Definition irrelevant_then_full : Browser :=
  fun u => if decide (u = wowhead) then serve other_page
           else if decide (u = icy_veins) then serve season_page
           else unreachable.

(** A relevant page whose second matching anchor cannot be read (an
    [<a>] inside an SVG has no inner text: [inner_text()] raises). *)
Definition page_with_broken_link : Page :=
  {| goto := Ok tt;
     content := Ok (lit "<h1>Season 3 dungeons</h1>");
     query_selector_all := fun _ =>
       Ok [ handle_of {| href := lit "/dungeon/ara-kara"; visible_text := lit "Ara-Kara" |};
            {| inner_text := Raise (lit "Node is not an HTMLElement");
               get_attribute := fun _ => Ok (Some (lit "/dungeon/map")) |} ] |}.

(** First URL: a record is stored, then a link raises.  The other two
    URLs cannot be loaded. *)
Definition partial_then_down : Browser :=
  fun u => if decide (u = wowhead) then page_with_broken_link else unreachable.

(** First URL: no marker.  Second URL: a record is stored, then a link
    raises.  Third URL: the page with links. *)
Definition broken_then_full : Browser :=
  fun u => if decide (u = wowhead) then serve other_page
           else if decide (u = icy_veins) then page_with_broken_link
           else serve season_page.

(** No URL can be loaded. *)
Definition all_down : Browser := fun _ => unreachable.

(** The handles of a page on which the anchor with the visible text [t]
    is no longer attached. *)
Definition detached_at (t : text) (a : Anchor) : ElementHandle :=
  if decide (visible_text a = t) then detached else handle_of a.

(** First URL: the page with links, of which the second matching anchor
    cannot be read.  The other two URLs cannot be loaded. *)
Definition second_link_detached : Browser :=
  fun u => if decide (u = wowhead)
           then serve_with (detached_at (lit "Halls of Atonement")) season_page
           else unreachable.

(** Every URL: the page with links, of which the seventh matching
    anchor, past the cap, cannot be read. *)
Definition seventh_link_detached : Browser :=
  fun _ => serve_with (detached_at (lit "Priory of the Sacred Flame")) season_page.

(** A project manifest with the three sections the patcher edits. *)
Definition sample_manifest : text := lit
"// !$*UTF8*$!
{
/* Begin PBXBuildFile section */
		A194BCE12E7873C400DC3B4F /* HealerKitTests.swift in Sources */ = {isa = PBXBuildFile; fileRef = A194BCE02E7873C400DC3B4F /* HealerKitTests.swift */; };
/* End PBXBuildFile section */

/* Begin PBXFileReference section */
		A194BCE02E7873C400DC3B4F /* HealerKitTests.swift */ = {isa = PBXFileReference; path = HealerKitTests.swift; };
/* End PBXFileReference section */

/* Begin PBXSourcesBuildPhase section */
		A194BCD52E7873C400DC3B4F /* Sources */ = {
			isa = PBXSourcesBuildPhase;
			buildActionMask = 2147483647;
			files = (
				A194BCE12E7873C400DC3B4F /* HealerKitTests.swift in Sources */,
			);
			runOnlyForDeploymentPostprocessing = 0;
		};
/* End PBXSourcesBuildPhase section */
}
".

(** The same manifest, cut at the places the patcher edits. *)
Definition sample_layout : Patcher.Layout :=
  {| Patcher.build_files := lit
"// !$*UTF8*$!
{
/* Begin PBXBuildFile section */
		A194BCE12E7873C400DC3B4F /* HealerKitTests.swift in Sources */ = {isa = PBXBuildFile; fileRef = A194BCE02E7873C400DC3B4F /* HealerKitTests.swift */; };
";
     Patcher.file_refs := lit
"

/* Begin PBXFileReference section */
		A194BCE02E7873C400DC3B4F /* HealerKitTests.swift */ = {isa = PBXFileReference; path = HealerKitTests.swift; };
";
     Patcher.middle := lit
"

/* Begin PBXSourcesBuildPhase section */
		";
     Patcher.phase_body := lit
"
			isa = PBXSourcesBuildPhase;
			buildActionMask = 2147483647;
			";
     Patcher.file_list := lit
"
				A194BCE12E7873C400DC3B4F /* HealerKitTests.swift in Sources */,
			";
     Patcher.closing := lit
");
			runOnlyForDeploymentPostprocessing = 0;
		";
     Patcher.tail := lit
";
/* End PBXSourcesBuildPhase section */
}
" |}.

(** A manifest without any of the sections. *)
Definition bare_manifest : text := lit "// !$*UTF8*$!
{
	archiveVersion = 1;
	objectVersion = 56;
}
".

(** A manifest that mentions the three test files already. *)
Definition registered_manifest : text :=
  sample_manifest ++
  lit "// DungeonTests.swift BossEncounterTests.swift SeasonTests.swift".

Definition first_random : N := 0x8f14e45fceea467a9b1d3c2f10a4b6c8.

(** A world with the given files on disk, a fixed supply of random values
    and an empty log. *)
Definition world (fs : gmap text text) : Patcher.World :=
  {| Patcher.files := fs;
     Patcher.urandom := fun n => ((first_random + N.of_nat n * 0x9e3779b97f4a7c15f39cc0605cedc835)
                                mod 2 ^ 128)%N;
     Patcher.drawn := 0;
     Patcher.log := [] |}.

Definition dungeon_tests : text := lit "DungeonKitTests/ModelTests/DungeonTests.swift".
Definition boss_tests : text := lit "DungeonKitTests/ModelTests/BossEncounterTests.swift".
Definition season_tests : text := lit "DungeonKitTests/ModelTests/SeasonTests.swift".

Definition swift_source : text := lit "import XCTest".

(** The manifest and two of the three test sources on disk. *)
Definition one_source_missing : gmap text text :=
  <[Patcher.PROJECT_FILE := sample_manifest]>
    (<[dungeon_tests := swift_source]> (<[season_tests := swift_source]> ∅)).

(** The manifest and the three test sources on disk. *)
Definition all_sources (manifest : text) : gmap text text :=
  <[Patcher.PROJECT_FILE := manifest]>
    (<[dungeon_tests := swift_source]>
       (<[boss_tests := swift_source]> (<[season_tests := swift_source]> ∅))).

(** The three test sources on disk, no manifest. *)
Definition sources_only : gmap text text :=
  <[dungeon_tests := swift_source]>
    (<[boss_tests := swift_source]> (<[season_tests := swift_source]> ∅)).

(** A manifest without file reference section, with the build file
    markers in the wrong order and an empty file list in the Sources
    build phase of the test target. *)
Definition build_markers_swapped : text := lit
"// !$*UTF8*$!
{
/* End PBXBuildFile section */
/* Begin PBXBuildFile section */
		A194BCD52E7873C400DC3B4F /* Sources */ = {
			files = ();
		};
}
".

(** A text whose first end markers stand in front of the sections. *)
Definition end_markers_first : text := lit
"/* End PBXBuildFile section */ /* End PBXFileReference section */
/* Begin PBXBuildFile section */
/* End PBXBuildFile section */
/* Begin PBXFileReference section */
/* End PBXFileReference section */
".

(** A world without files whose random source gives [r] at every draw. *)
Definition constant_world (r : N) : Patcher.World :=
  {| Patcher.files := ∅; Patcher.urandom := fun _ => r;
     Patcher.drawn := 0; Patcher.log := [] |}.

End Fixtures.

(* ================================================================== *)
(** * Proofs *)
(* ================================================================== *)

(** ** The monad and its loops *)
Module EffFacts.

Ltac unfold_monad :=
  unfold mbind, M_bind, bind, mret, M_ret, ret, await, modify, get, try_except in *.

Section Facts.
Context {S : Type}.
Implicit Types I : S -> Prop.

Lemma bind_ok {A B} (m : M S A) (k : A -> M S B) s a s' :
  m s = (Ok a, s') -> (m ≫= k) s = k a s'.
Proof. unfold_monad. intros ->. reflexivity. Qed.

Lemma bind_raise {A B} (m : M S A) (k : A -> M S B) s e s' :
  m s = (Raise e, s') -> (m ≫= k) s = (Raise e, s').
Proof. unfold_monad. intros ->. reflexivity. Qed.

Lemma for_in_cons {A} (x : A) xs (body : A -> M S flow) s :
  for_in (x :: xs) body s =
  match body x s with
  | (Ok Next, s') => for_in xs body s'
  | (Ok Break, s') => (Ok tt, s')
  | (Raise e, s') => (Raise e, s')
  end.
Proof.
  simpl. unfold_monad. destruct (body x s) as [[[|]|e] s']; reflexivity.
Qed.

Lemma preserves_ret {A} I (a : A) : preserves I (mret a : M S A).
Proof. intros s Hs. exact Hs. Qed.

Lemma preserves_await {A} I (o : outcome A) : preserves I (await o : M S A).
Proof. intros s Hs. exact Hs. Qed.

Lemma preserves_get I : preserves I (get : M S S).
Proof. intros s Hs. exact Hs. Qed.

Lemma preserves_modify I (f : S -> S) :
  (forall s, I s -> I (f s)) -> preserves I (modify f).
Proof. intros Hf s Hs. apply Hf, Hs. Qed.

Lemma preserves_bind {A B} I (m : M S A) (k : A -> M S B) :
  preserves I m -> (forall a, preserves I (k a)) -> preserves I (m ≫= k).
Proof.
  intros Hm Hk s Hs. specialize (Hm s Hs). unfold_monad.
  destruct (m s) as [[a|e] s']; simpl in *.
  - apply Hk, Hm.
  - exact Hm.
Qed.

Lemma preserves_try_except {A} I (body : M S A) (handler : text -> M S A) :
  preserves I body -> (forall e, preserves I (handler e)) ->
  preserves I (try_except body handler).
Proof.
  intros Hb Hh s Hs. specialize (Hb s Hs). unfold_monad.
  destruct (body s) as [[a|e] s']; simpl in *.
  - exact Hb.
  - apply Hh, Hb.
Qed.

Lemma preserves_for_in {A} I (xs : list A) (body : A -> M S flow) :
  (forall x, x ∈ xs -> preserves I (body x)) -> preserves I (for_in xs body).
Proof.
  induction xs as [|x xs IH]; intros Hbody; simpl.
  - apply preserves_ret.
  - apply preserves_bind.
    + apply Hbody. left.
    + intros [|].
      * apply IH. intros y Hy. apply Hbody. right. exact Hy.
      * apply preserves_ret.
Qed.

Lemma never_raises_ret {A} (a : A) : never_raises (mret a : M S A).
Proof. intros s. exists a. reflexivity. Qed.

Lemma never_raises_get : never_raises (get : M S S).
Proof. intros s. exists s. reflexivity. Qed.

Lemma never_raises_modify (f : S -> S) : never_raises (modify f).
Proof. intros s. exists tt. reflexivity. Qed.

Lemma never_raises_bind {A B} (m : M S A) (k : A -> M S B) :
  never_raises m -> (forall a, never_raises (k a)) -> never_raises (m ≫= k).
Proof.
  intros Hm Hk s. destruct (Hm s) as [a Ha]. unfold_monad.
  destruct (m s) as [[a'|e] s']; simpl in *; [|discriminate].
  apply Hk.
Qed.

Lemma never_raises_try_except {A} (body : M S A) (handler : text -> M S A) :
  (forall e, never_raises (handler e)) -> never_raises (try_except body handler).
Proof.
  intros Hh s. unfold_monad.
  destruct (body s) as [[a|e] s']; simpl.
  - exists a. reflexivity.
  - apply Hh.
Qed.

Lemma never_raises_for_in {A} (xs : list A) (body : A -> M S flow) :
  (forall x, never_raises (body x)) -> never_raises (for_in xs body).
Proof.
  intros Hbody. induction xs as [|x xs IH]; simpl.
  - apply never_raises_ret.
  - apply never_raises_bind; [apply Hbody|].
    intros [|]; [apply IH | apply never_raises_ret].
Qed.
End Facts.

Create HintDb eff.
#[export] Hint Resolve preserves_ret preserves_await preserves_get
  preserves_bind preserves_try_except : eff.
#[export] Hint Resolve never_raises_ret never_raises_get never_raises_modify
  never_raises_bind never_raises_try_except never_raises_for_in : eff.

End EffFacts.

(** ** The scraper *)
Module ScraperFacts.
Import Scraper EffFacts.

(** *** Every stored record is well formed *)

Section Invariant.
Variable b : Browser.

Lemma emit_preserves I e :
  (forall d l l', I {| dungeons_data := d; log := l |} ->
                  I {| dungeons_data := d; log := l' |}) ->
  preserves I (emit e).
Proof. intros HI [d l] Hs. simpl. eapply HI, Hs. Qed.

Lemma all_well_formed_log d l l' :
  all_well_formed {| dungeons_data := d; log := l |} ->
  all_well_formed {| dungeons_data := d; log := l' |}.
Proof. exact id. Qed.

Lemma emit_well_formed e : preserves all_well_formed (emit e).
Proof. apply emit_preserves, all_well_formed_log. Qed.

Lemma visit_link_well_formed u link :
  u ∈ sources -> preserves all_well_formed (visit_link u link).
Proof.
  intros Hu. unfold visit_link.
  apply preserves_bind; [apply preserves_await|]. intros t.
  apply preserves_bind; [apply preserves_await|]. intros h.
  apply preserves_bind; [|intros; apply preserves_ret].
  destruct (Py.any_in names t) eqn:Ht; [|apply preserves_ret].
  apply preserves_modify. intros [d l] Hd.
  apply map_Forall_insert_2; [|exact Hd]. split; [exact Ht | exact Hu].
Qed.

Lemma attempt_well_formed u :
  u ∈ sources -> preserves all_well_formed (attempt b u).
Proof.
  intros Hu. unfold attempt, print.
  repeat (apply preserves_bind;
          [first [apply emit_well_formed | apply preserves_await]|intros ?]).
  match goal with |- context [if ?c then _ else _] => destruct c end;
    [|apply preserves_ret].
  apply preserves_bind; [apply preserves_await|]. intros links.
  apply preserves_bind.
  { apply preserves_for_in. intros. apply visit_link_well_formed, Hu. }
  intros _. apply preserves_bind; [apply preserves_get|]. intros st.
  apply preserves_bind; [apply emit_well_formed|]. intros _. apply preserves_ret.
Qed.

Lemma on_error_well_formed u e : preserves all_well_formed (on_error u e).
Proof.
  unfold on_error, print.
  apply preserves_bind; [apply emit_well_formed|intros; apply preserves_ret].
Qed.

Lemma try_url_well_formed u :
  u ∈ sources -> preserves all_well_formed (try_url b u).
Proof.
  intros Hu. apply preserves_try_except.
  - apply attempt_well_formed, Hu.
  - apply on_error_well_formed.
Qed.

Lemma emit_never_raises e : never_raises (emit e).
Proof. apply never_raises_modify. Qed.

Lemma try_url_never_raises u : never_raises (try_url b u).
Proof.
  apply never_raises_try_except. intros e. unfold on_error, print.
  apply never_raises_bind; [apply emit_never_raises|intros; apply never_raises_ret].
Qed.

Lemma loop_never_raises urls : never_raises (for_in urls (try_url b)).
Proof. apply never_raises_for_in, try_url_never_raises. Qed.

(** The script returns the [dungeons_data] the loop over [sources] left. *)
Lemma run_returns :
  exists st st',
    for_in sources (try_url b) initial = (Ok tt, st') /\
    run b = (Ok (dungeons_data st'), st) /\
    log st = log st' ++ [CloseBrowser;
                         Stdout ([newline] ++ lit "=== SCRAPED DUNGEON DATA ===");
                         StdoutJson (dungeons_data st')].
Proof.
  unfold run, scrape_wow_content.
  destruct (loop_never_raises sources initial) as [[] Hloop].
  destruct (for_in sources (try_url b) initial) as [o st'] eqn:E.
  simpl in Hloop. subst o.
  erewrite bind_ok by exact E.
  eexists _, st'. split; [reflexivity|].
  unfold print, emit. unfold_monad. simpl. split; [reflexivity|].
  rewrite <- !app_assoc. reflexivity.
Qed.
End Invariant.

(** C10. Whatever the pages contain and whichever calls raise, the
    scraper returns a mapping, and every entry of it has a key (the
    anchor's visible text) that contains one of the six name fragments
    and a ['source'] that is one of the three candidate URLs. *)
Theorem returned_entries_well_formed (b : Browser) :
  exists d st, run b = (Ok d, st) /\ map_Forall well_formed d.
Proof.
  destruct (run_returns b) as (st & st' & Hloop & Hrun & _).
  exists (dungeons_data st'), st. split; [exact Hrun|].
  assert (H : all_well_formed (for_in sources (try_url b) initial).2).
  { apply preserves_for_in.
    - intros u Hu. apply try_url_well_formed, Hu.
    - apply map_Forall_empty. }
  rewrite Hloop in H. exact H.
Qed.

(** *** What one URL does to the state *)

Lemma store_all_app d ins1 ins2 :
  store_all d (ins1 ++ ins2) = store_all (store_all d ins1) ins2.
Proof. apply foldl_app. Qed.

Lemma store_all_nonempty d ins : ins <> [] -> store_all d ins <> ∅.
Proof.
  revert d. induction ins as [|[k r] ins IH]; intros d Hne; [done|].
  destruct ins as [|kr ins].
  - simpl. apply insert_non_empty.
  - apply (IH (<[k:=r]> d)). discriminate.
Qed.

Lemma store_all_empty_inv ins : store_all ∅ ins = ∅ -> ins = [].
Proof.
  intros H. destruct ins as [|kr ins]; [reflexivity|].
  exfalso. revert H. apply store_all_nonempty. discriminate.
Qed.

Lemma visit_link_eq u link s :
  visit_link u link s =
  match inner_text link, get_attribute link (lit "href") with
  | Ok t, Ok h =>
      (Ok Next,
       if Py.any_in names t
       then {| dungeons_data := <[t := {| url := h; source := u |}]> (dungeons_data s);
               log := log s |}
       else s)
  | Raise e, _ => (Raise e, s)
  | Ok _, Raise e => (Raise e, s)
  end.
Proof.
  unfold visit_link, setitem. unfold_monad.
  destruct (inner_text link) as [t|e]; [|reflexivity].
  destruct (get_attribute link (lit "href")) as [h|e]; [|reflexivity].
  destruct (Py.any_in names t); reflexivity.
Qed.

Lemma visit_links_run u links s :
  (for_in links (visit_link u) s).2 =
    {| dungeons_data := store_all (dungeons_data s) (stored u links); log := log s |} /\
  (forallb handle_ok links = true -> (for_in links (visit_link u) s).1 = Ok tt) /\
  (forallb handle_ok links = false -> exists e, (for_in links (visit_link u) s).1 = Raise e).
Proof.
  revert s. induction links as [|link rest IH]; intros [d l].
  - simpl. split; [reflexivity|]. split; [reflexivity | discriminate].
  - rewrite for_in_cons, visit_link_eq. cbn [forallb stored].
    assert (Hok : handle_ok link =
                  match inner_text link, get_attribute link (lit "href") with
                  | Ok _, Ok _ => true
                  | _, _ => false
                  end) by reflexivity.
    rewrite Hok. clear Hok.
    destruct (inner_text link) as [t|e].
    2: { split; [reflexivity|]. split; [discriminate | intros _; eexists; reflexivity]. }
    destruct (get_attribute link (lit "href")) as [h|e].
    2: { split; [reflexivity|]. split; [discriminate | intros _; eexists; reflexivity]. }
    rewrite store_all_app. cbn [andb dungeons_data log].
    destruct (Py.any_in names t); apply IH.
Qed.

Lemma navigations_app l1 l2 :
  navigations (l1 ++ l2) = navigations l1 ++ navigations l2.
Proof. apply omap_app. Qed.

Section OneUrl.
Variable b : Browser.

Lemma attempt_run u s :
  dungeons_data (attempt b u s).2 = store_all (dungeons_data s) (page_stored u (b u)) /\
  navigations (log (attempt b u s).2) = navigations (log s) ++ [u] /\
  (completes (b u) = true -> (attempt b u s).1 = Ok Break) /\
  (completes (b u) = false ->
   (attempt b u s).1 = Ok Next \/ exists e, (attempt b u s).1 = Raise e).
Proof.
  destruct s as [d l].
  unfold attempt, page_stored, completes, has_marker, print, emit. unfold_monad.
  cbn [dungeons_data log].
  destruct (goto (b u)) as [[]|e].
  2: { cbn. rewrite !navigations_app, <- app_assoc. repeat split; try discriminate.
       intros _. right. eexists. reflexivity. }
  destruct (content (b u)) as [c|e].
  2: { cbn. rewrite !navigations_app, <- app_assoc. repeat split; try discriminate.
       intros _. right. eexists. reflexivity. }
  destruct (Py.str_in (lit "War Within") c || Py.str_in (lit "Season 3") c).
  2: { cbn. rewrite !navigations_app, <- app_assoc. repeat split; try discriminate.
       intros _. left. reflexivity. }
  destruct (query_selector_all (b u) dungeon_selector) as [links|e].
  2: { cbn. rewrite !navigations_app, <- app_assoc. repeat split; try discriminate.
       intros _. right. eexists. reflexivity. }
  match goal with |- context [for_in ?xs ?f ?st] =>
    destruct (visit_links_run u xs st) as (H2 & Hok & Hraise);
    destruct (for_in xs f st) as [o st'] eqn:E
  end.
  cbn [fst snd dungeons_data log] in *. subst st'.
  destruct (forallb handle_ok (take 5 links)).
  - rewrite (Hok eq_refl). cbn.
    rewrite !navigations_app, <- app_assoc. cbn. rewrite app_nil_r.
    repeat split; try discriminate.
  - destruct (Hraise eq_refl) as [e ->]. cbn.
    rewrite !navigations_app, <- app_assoc.
    repeat split; try discriminate. intros _. right. eexists. reflexivity.
Qed.

Lemma try_url_run u s :
  dungeons_data (try_url b u s).2 = store_all (dungeons_data s) (page_stored u (b u)) /\
  navigations (log (try_url b u s).2) = navigations (log s) ++ [u] /\
  (try_url b u s).1 = Ok (if completes (b u) then Break else Next).
Proof.
  destruct (attempt_run u s) as (Hd & Hn & Hyes & Hno).
  unfold try_url, try_except.
  destruct (attempt b u s) as [o s'] eqn:E. cbn [fst snd] in *.
  destruct (completes (b u)).
  - rewrite (Hyes eq_refl). auto.
  - destruct (Hno eq_refl) as [-> | [e ->]]; [auto|].
    unfold on_error, print, emit. unfold_monad. destruct s' as [d' l']. cbn in *.
    rewrite navigations_app, app_nil_r. auto.
Qed.

(** The loop over the candidate URLs. *)
Lemma loop_run urls s :
  dungeons_data (for_in urls (try_url b) s).2 =
    store_all (dungeons_data s)
              (concat (map (fun u => page_stored u (b u)) (tried b urls))) /\
  navigations (log (for_in urls (try_url b) s).2) = navigations (log s) ++ tried b urls.
Proof.
  revert s. induction urls as [|u rest IH]; intros s.
  - cbn. rewrite app_nil_r. auto.
  - rewrite for_in_cons.
    destruct (try_url_run u s) as (Hd & Hn & Hf).
    destruct (try_url b u s) as [o s'] eqn:E. cbn [fst snd] in *. subst o.
    cbn [tried]. destruct (completes (b u)).
    + cbn. rewrite app_nil_r. auto.
    + destruct (IH s') as (IHd & IHn). rewrite IHd, IHn, Hd, Hn.
      cbn [map concat]. rewrite store_all_app, <- app_assoc. auto.
Qed.

Lemma found_at_eq u : found_at b u = store_all ∅ (page_stored u (b u)).
Proof. unfold found_at. apply attempt_run. Qed.

Lemma found_at_empty u : found_at b u = ∅ -> page_stored u (b u) = [].
Proof. rewrite found_at_eq. apply store_all_empty_inv. Qed.

Lemma run_result :
  exists st,
    run b = (Ok (store_all ∅ (concat (map (fun u => page_stored u (b u))
                                         (tried b sources)))), st) /\
    navigated b = tried b sources.
Proof.
  destruct (run_returns b) as (st & st' & Hloop & Hrun & Hlog).
  destruct (loop_run sources initial) as (Hd & Hn).
  rewrite Hloop in Hd, Hn. cbn [snd] in Hd, Hn.
  exists st. split.
  - rewrite Hrun, Hd. reflexivity.
  - unfold navigated. rewrite Hrun. cbn [snd].
    change (navigations (log st) = tried b sources).
    rewrite Hlog, navigations_app, Hn. cbn. rewrite app_nil_r. reflexivity.
Qed.
End OneUrl.

(** *** When the loop stops *)

Lemma stops_at_iff b u : stops_at b u <-> completes (b u) = true.
Proof.
  split.
  - intros H. specialize (H initial).
    destruct (try_url_run b u initial) as (_ & _ & Hf). rewrite Hf in H.
    destruct (completes (b u)); [reflexivity | discriminate].
  - intros H s. destruct (try_url_run b u s) as (_ & _ & Hf).
    rewrite Hf, H. reflexivity.
Qed.

Lemma raises_at_not_completes b u : raises_at b u -> completes (b u) = false.
Proof.
  intros [e He]. destruct (completes (b u)) eqn:Hc; [|reflexivity].
  destruct (attempt_run b u initial) as (_ & _ & Hyes & _).
  rewrite (Hyes Hc) in He. discriminate.
Qed.

Lemma tried_subseteq b urls u : u ∈ tried b urls -> u ∈ urls.
Proof.
  induction urls as [|v rest IH]; cbn [tried]; [done|].
  intros [->|Hin]%elem_of_cons; [left|].
  destruct (completes (b v)); [by apply elem_of_nil in Hin|].
  right. apply IH, Hin.
Qed.

Lemma stored_source u links :
  Forall (fun kr => source kr.2 = u) (stored u links).
Proof.
  induction links as [|link rest IH]; cbn [stored]; [constructor|].
  destruct (inner_text link) as [t|]; [|constructor].
  destruct (get_attribute link (lit "href")) as [h|]; [|constructor].
  apply Forall_app. split; [|exact IH].
  destruct (Py.any_in names t); repeat constructor.
Qed.

Lemma page_stored_source u pg :
  Forall (fun kr => source kr.2 = u) (page_stored u pg).
Proof.
  unfold page_stored.
  destruct (goto pg); [|constructor]. destruct (content pg) as [c|]; [|constructor].
  destruct (has_marker c); [|constructor].
  destruct (query_selector_all pg dungeon_selector); [|constructor].
  apply stored_source.
Qed.

Lemma store_all_Forall (P : text -> DungeonRecord -> Prop) d ins :
  map_Forall P d -> Forall (fun kr => P kr.1 kr.2) ins -> map_Forall P (store_all d ins).
Proof.
  intros Hd Hins. revert d Hd. induction Hins as [|[k r] ins Hkr _ IH]; intros d Hd.
  - exact Hd.
  - cbn. apply IH. apply map_Forall_insert_2; assumption.
Qed.

(** C1, as the code has it.  The loop stops trying further URLs exactly
    when the current URL's page loaded, contained a marker and its first
    five matching anchors were read without error, whether or not a
    record was stored; the URLs navigated to are the candidates up to and
    including the first such page.  In particular, when the first
    candidate URL does not stop the loop and stores nothing, and the
    second one's page has a marker and is processed without error, the
    scraper navigates to the first and second URL only and returns
    exactly what the second URL yields, every record with the second URL
    as its source. *)
Theorem stops_at_first_completed_page (b : Browser) :
  (forall u, stops_at b u <-> completes (b u) = true) /\
  navigated b = tried b sources /\
  (completes (b wowhead) = false -> found_at b wowhead = ∅ ->
   completes (b icy_veins) = true ->
   navigated b = [wowhead; icy_veins] /\
   exists st, run b = (Ok (found_at b icy_veins), st) /\
              map_Forall (fun _ r => source r = icy_veins) (found_at b icy_veins)).
Proof.
  destruct (run_result b) as (st & Hrun & Hnav).
  split; [intros u; apply stops_at_iff|]. split; [exact Hnav|].
  intros H1 Hnone H2.
  assert (Ht : tried b sources = [wowhead; icy_veins]).
  { unfold sources. cbn [tried]. rewrite H1, H2. reflexivity. }
  rewrite Hnav, Ht. split; [reflexivity|].
  exists st. split.
  - rewrite Hrun, Ht. cbn [map concat].
    rewrite (found_at_empty b _ Hnone), app_nil_l, app_nil_r, found_at_eq. reflexivity.
  - rewrite found_at_eq. apply store_all_Forall; [apply map_Forall_empty|].
    apply page_stored_source.
Qed.

(** *** Nothing found anywhere *)

(** C6, as the code has it.  When every candidate URL yields no record
    (its processing either raises before a record is stored, or
    completes without one) the scraper returns the empty mapping and
    does not raise; and an error raised while processing a URL is
    always caught: the loop goes on to the next URL. *)
Theorem empty_when_nothing_stored (b : Browser) :
  (forall u, u ∈ sources -> found_at b u = ∅) ->
  (exists st, run b = (Ok ∅, st)) /\
  (forall u s, raises_at b u -> (try_url b u s).1 = Ok Next).
Proof.
  intros Hnone. split.
  - destruct (run_result b) as (st & Hrun & _). exists st. rewrite Hrun.
    replace (concat (map (fun u => page_stored u (b u)) (tried b sources)))
      with (@nil (text * DungeonRecord)); [reflexivity|].
    symmetry. apply concat_nil_Forall, Forall_map, Forall_forall.
    intros u Hu. apply found_at_empty, Hnone.
    apply (tried_subseteq b), Hu.
  - intros u s Hr. destruct (try_url_run b u s) as (_ & _ & Hf).
    rewrite Hf, (raises_at_not_completes b u Hr). reflexivity.
Qed.

(** C1, as stated, fails.  The first URL serves a page with a marker
    and no link: the loop stops there although no record was found, so
    the scraper never navigates to the second URL (whose page has
    qualifying links) and returns the empty mapping. *)
Lemma stops_without_a_record :
  ~ (stops_at Fixtures.empty_then_full wowhead <->
     found_at Fixtures.empty_then_full wowhead <> ∅) /\
  found_at Fixtures.empty_then_full icy_veins <> ∅ /\
  navigated Fixtures.empty_then_full = [wowhead] /\
  (run Fixtures.empty_then_full).1 = Ok ∅.
Proof.
  split; [|split; [|split]].
  - intros [Hstop _]. apply Hstop; [|vm_compute; reflexivity].
    apply stops_at_iff. vm_compute. reflexivity.
  - rewrite found_at_eq. apply store_all_nonempty. vm_compute. discriminate.
  - destruct (run_result Fixtures.empty_then_full) as (st & _ & ->).
    vm_compute. reflexivity.
  - destruct (run_result Fixtures.empty_then_full) as (st & -> & _).
    vm_compute. reflexivity.
Qed.

Lemma stops_at_first_completed_page_witness :
  navigated Fixtures.irrelevant_then_full = [wowhead; icy_veins] /\
  exists st, run Fixtures.irrelevant_then_full
             = (Ok (found_at Fixtures.irrelevant_then_full icy_veins), st) /\
             map_Forall (fun _ r => source r = icy_veins)
                        (found_at Fixtures.irrelevant_then_full icy_veins).
Proof.
  apply (stops_at_first_completed_page Fixtures.irrelevant_then_full).
  - vm_compute. reflexivity.
  - vm_compute. reflexivity.
  - vm_compute. reflexivity.
Defined.

(** C6, as stated, fails.  Processing of every candidate URL raises an
    error, but at the first URL the error comes after a record was
    stored: the record stays in [dungeons_data] and is returned. *)
Lemma partial_records_survive_errors :
  Forall (fun u => raises_at Fixtures.partial_then_down u \/
                   found_at Fixtures.partial_then_down u = ∅) sources /\
  (run Fixtures.partial_then_down).1 =
    Ok (<[lit "Ara-Kara" := {| url := Some (lit "/dungeon/ara-kara"); source := wowhead |}]> ∅) /\
  (run Fixtures.partial_then_down).1 <> Ok ∅.
Proof.
  assert (Hrun : (run Fixtures.partial_then_down).1 =
    Ok (<[lit "Ara-Kara" := {| url := Some (lit "/dungeon/ara-kara"); source := wowhead |}]> ∅)).
  { destruct (run_result Fixtures.partial_then_down) as (st & -> & _). reflexivity. }
  split; [|split; [exact Hrun|]].
  - unfold sources.
    repeat (apply Forall_cons_2; [left; eexists; vm_compute; reflexivity|]).
    apply Forall_nil_2.
  - rewrite Hrun. intros H.
    assert (H' : forall d d' : gmap text DungeonRecord,
               @Ok (gmap text DungeonRecord) d = Ok d' -> d = d')
      by (intros d d' [= ->]; reflexivity).
    apply H' in H. revert H. apply insert_non_empty.
Qed.

Lemma empty_when_nothing_stored_witness :
  (exists st, run Fixtures.all_down = (Ok ∅, st)) /\
  (forall u s, raises_at Fixtures.all_down u ->
               (try_url Fixtures.all_down u s).1 = Ok Next).
Proof.
  apply (empty_when_nothing_stored Fixtures.all_down).
  intros u _. reflexivity.
Defined.

(** *** A page that shows a document *)

(** The script's selector, read by the page, asks for the anchors whose
    href contains "dungeon". *)
Lemma dungeon_selector_matching doc :
  matching dungeon_selector doc = Some (select_dungeon_anchors doc).
Proof. reflexivity. Qed.

Lemma serve_with_query handle doc :
  query_selector_all (serve_with handle doc) dungeon_selector =
  Ok (map handle (select_dungeon_anchors doc)).
Proof.
  cbn [serve_with query_selector_all]. rewrite dungeon_selector_matching. reflexivity.
Qed.

Lemma reads_handle_of (a : Anchor) : reads (handle_of a) a.
Proof. split; [reflexivity|]. cbn. rewrite decide_True by reflexivity. reflexivity. Qed.

Lemma reads_handle_ok handle (l : list Anchor) :
  Forall (fun a => reads (handle a) a) l -> forallb handle_ok (map handle l) = true.
Proof.
  induction 1 as [|a l [Ht Hh] _ IH]; [reflexivity|].
  cbn [map forallb]. unfold handle_ok at 1. rewrite Ht, Hh. exact IH.
Qed.

Lemma stored_reads u handle (l : list Anchor) :
  Forall (fun a => reads (handle a) a) l ->
  stored u (map handle l) =
  map (fun a => (visible_text a, record_of u a))
      (filter (fun a => Is_true (Py.any_in names (visible_text a))) l).
Proof.
  induction 1 as [|a l [Ht Hh] _ IH]; [reflexivity|].
  cbn [map stored]. rewrite Ht, Hh, IH, filter_cons.
  destruct (Py.any_in names (visible_text a)) eqn:Hq.
  - rewrite decide_True by exact I. reflexivity.
  - rewrite decide_False by exact id. reflexivity.
Qed.

Lemma store_all_snoc d ins k r :
  store_all d (ins ++ [(k, r)]) = <[k := r]> (store_all d ins).
Proof. rewrite store_all_app. reflexivity. Qed.

(** The last pair stored under a key is the one that stays. *)
Lemma store_all_lookup d ins k :
  store_all d ins !! k =
  match last (filter (fun kr => kr.1 = k) ins) with
  | Some kr => Some kr.2
  | None => d !! k
  end.
Proof.
  induction ins as [|[k' r] ins IH] using rev_ind; [reflexivity|].
  rewrite store_all_snoc, filter_app, filter_cons, filter_nil. cbn [fst].
  destruct (decide (k' = k)) as [->|Hne].
  - rewrite last_snoc, lookup_insert_eq. reflexivity.
  - rewrite app_nil_r, lookup_insert_ne by exact Hne. exact IH.
Qed.

Lemma filter_key_map u (l : list Anchor) k :
  filter (fun kr : text * DungeonRecord => kr.1 = k)
         (map (fun a => (visible_text a, record_of u a)) l) =
  map (fun a => (visible_text a, record_of u a))
      (filter (fun a => visible_text a = k) l).
Proof.
  induction l as [|a l IH]; [reflexivity|].
  cbn [map]. rewrite !filter_cons. cbn [fst].
  destruct (decide (visible_text a = k)); cbn [map]; rewrite IH; reflexivity.
Qed.




End ScraperFacts.

(** ** Python strings *)
Module PyFacts.

Lemma slice_to_from (s : text) (i : Z) : Py.slice_to s i ++ Py.slice_from s i = s.
Proof. apply take_drop. Qed.

(** Inserting text at a slice position keeps every character of [s], in order. *)
Lemma insert_sublist (s ins : text) (i : Z) :
  sublist s (Py.slice_to s i ++ ins ++ Py.slice_from s i).
Proof.
  rewrite <- (slice_to_from s i) at 1.
  apply sublist_app; [reflexivity|]. apply sublist_inserts_l. reflexivity.
Qed.

(** *** Prefixes *)

Lemma startswith_app (N r : text) : Py.startswith N (N ++ r) = true.
Proof.
  induction N as [|n N IH]; [reflexivity|].
  cbn. rewrite Ascii.eqb_refl. exact IH.
Qed.

Lemma startswith_inv (N s : text) :
  Py.startswith N s = true -> s = N ++ drop (length N) s.
Proof.
  revert s. induction N as [|n N IH]; intros s H; [reflexivity|].
  destruct s as [|x s]; [discriminate|]. cbn in H.
  destruct (Ascii.eqb_spec n x) as [->|]; [|discriminate].
  cbn. f_equal. apply IH, H.
Qed.

Lemma startswith_app_l (N a b : text) :
  Py.startswith N a = true -> Py.startswith N (a ++ b) = true.
Proof.
  intros H. rewrite (startswith_inv N a H), <- app_assoc. apply startswith_app.
Qed.

(** A prefix no longer than [u] is decided by [u] alone. *)
Lemma startswith_long (N u v : text) :
  length N <= length u -> Py.startswith N (u ++ v) = Py.startswith N u.
Proof.
  revert u. induction N as [|n N IH]; intros u Hlen; [reflexivity|].
  destruct u as [|x u]; [cbn in Hlen; lia|]. cbn.
  destruct (Ascii.eqb n x); [|reflexivity]. apply IH. cbn in Hlen. lia.
Qed.

(** A prefix cannot reach over a character it does not contain. *)
Lemma startswith_sep (N a b : text) (c : ascii) :
  Py.has_char c N = false -> Py.startswith N (a ++ c :: b) = Py.startswith N a.
Proof.
  revert a. induction N as [|n N IH]; intros a Hc; [reflexivity|].
  cbn in Hc. apply orb_false_elim in Hc as [Hn HN].
  destruct a as [|x a]; cbn.
  - rewrite Ascii.eqb_sym, Hn. reflexivity.
  - destruct (Ascii.eqb n x); [|reflexivity]. apply IH, HN.
Qed.

Lemma startswith_map (f : ascii -> ascii) (N s : text) :
  Py.startswith N s = true -> Py.startswith (map f N) (map f s) = true.
Proof.
  intros H. rewrite (startswith_inv N s H), map_app. apply startswith_app.
Qed.

(** *** Substrings *)

Lemma str_in_nil_r (N : text) : Py.str_in N [] = Py.startswith N [].
Proof. cbn. apply orb_false_r. Qed.

Lemma str_in_cons (N s : text) (x : ascii) :
  Py.str_in N (x :: s) = Py.startswith N (x :: s) || Py.str_in N s.
Proof. reflexivity. Qed.

Lemma str_in_startswith (N s : text) : Py.startswith N s = true -> Py.str_in N s = true.
Proof. intros H. destruct s; cbn; rewrite H; reflexivity. Qed.

Lemma str_in_app_r (N a b : text) : Py.str_in N b = true -> Py.str_in N (a ++ b) = true.
Proof.
  intros H. induction a as [|x a IH]; [exact H|].
  cbn [app]. rewrite str_in_cons, IH. apply orb_true_r.
Qed.

Lemma str_in_app_l (N a b : text) : Py.str_in N a = true -> Py.str_in N (a ++ b) = true.
Proof.
  induction a as [|x a IH]; intros H.
  - rewrite str_in_nil_r in H. apply str_in_startswith, (startswith_app_l N [] b H).
  - cbn [app]. rewrite str_in_cons in *. apply orb_true_iff in H as [H|H].
    + pose proof (startswith_app_l N (x :: a) b H) as H'. cbn [app] in H'.
      rewrite H'. reflexivity.
    + rewrite (IH H). apply orb_true_r.
Qed.

Lemma str_in_intro (N a b : text) : Py.str_in N (a ++ N ++ b) = true.
Proof. apply str_in_app_r, str_in_startswith, startswith_app. Qed.

Lemma str_in_inv (N s : text) :
  Py.str_in N s = true -> exists a b, s = a ++ N ++ b.
Proof.
  induction s as [|x s IH]; intros H.
  - rewrite str_in_nil_r in H. exists [], (drop (length N) []).
    apply (startswith_inv N [] H).
  - rewrite str_in_cons in H. apply orb_true_iff in H as [H|H].
    + exists [], (drop (length N) (x :: s)). apply (startswith_inv N (x :: s) H).
    + destruct (IH H) as (a & b & ->). exists (x :: a), b. reflexivity.
Qed.

Lemma str_in_app_false_l (N a b : text) :
  Py.str_in N (a ++ b) = false -> Py.str_in N a = false.
Proof.
  intros H. destruct (Py.str_in N a) eqn:E; [|reflexivity].
  rewrite (str_in_app_l N a b E) in H. discriminate.
Qed.

Lemma str_in_app_false_r (N a b : text) :
  Py.str_in N (a ++ b) = false -> Py.str_in N b = false.
Proof.
  intros H. destruct (Py.str_in N b) eqn:E; [|reflexivity].
  rewrite (str_in_app_r N a b E) in H. discriminate.
Qed.

(** A needle that lacks the character [c] lies on one side of it. *)
Lemma str_in_sep (N a b : text) (c : ascii) :
  Py.has_char c N = false ->
  Py.str_in N (a ++ c :: b) = Py.str_in N a || Py.str_in N b.
Proof.
  intros Hc. induction a as [|x a IH].
  - pose proof (startswith_sep N [] b c Hc) as H'. cbn [app] in *.
    rewrite str_in_cons, str_in_nil_r, H'. reflexivity.
  - pose proof (startswith_sep N (x :: a) b c Hc) as H'. cbn [app] in *.
    rewrite !str_in_cons, IH, H'. apply orb_assoc.
Qed.

Lemma startswith_short (N s : text) : length s < length N -> Py.startswith N s = false.
Proof.
  revert s. induction N as [|n N IH]; intros s Hlen; [cbn in Hlen; lia|].
  destruct s as [|x s]; [reflexivity|]. cbn.
  destruct (Ascii.eqb n x); [|reflexivity]. apply IH. cbn in Hlen. lia.
Qed.

Lemma str_in_short (N s : text) : length s < length N -> Py.str_in N s = false.
Proof.
  induction s as [|x s IH]; intros Hlen.
  - rewrite str_in_nil_r. apply startswith_short, Hlen.
  - rewrite str_in_cons, (startswith_short N (x :: s) Hlen), IH; [reflexivity|].
    cbn in Hlen. lia.
Qed.

(** Renaming characters keeps occurrences. *)
Lemma str_in_map (f : ascii -> ascii) (N s : text) :
  Py.str_in N s = true -> Py.str_in (map f N) (map f s) = true.
Proof.
  intros H. destruct (str_in_inv N s H) as (a & b & ->).
  rewrite !map_app. apply str_in_intro.
Qed.

Lemma str_in_drop (N s : text) (n : nat) :
  Py.str_in N (drop n s) = true -> Py.str_in N s = true.
Proof. intros H. rewrite <- (take_drop n s). apply str_in_app_r, H. Qed.

Lemma str_in_nil_l (s : text) : Py.str_in [] s = true.
Proof. destruct s; reflexivity. Qed.

Lemma has_char_str_in (c : ascii) (s : text) : Py.has_char c s = Py.str_in [c] s.
Proof.
  induction s as [|x s IH]; [reflexivity|].
  rewrite str_in_cons, <- IH. cbn. destruct (Ascii.eqb c x); reflexivity.
Qed.

(** *** The first occurrence *)

(** When [N] does not occur in [a ++ removelast N], the occurrence of
    [N] right behind [a] is the first one: no earlier position has it. *)
Lemma not_before (N a r : text) (x : ascii) :
  Py.str_in N ((x :: a) ++ removelast N) = false ->
  Py.startswith N ((x :: a) ++ N ++ r) = false /\
  Py.str_in N (a ++ removelast N) = false.
Proof.
  intros H. cbn [app] in H. rewrite str_in_cons in H.
  apply orb_false_elim in H as [Hhere Hlater]. split; [|exact Hlater].
  destruct N as [|n N].
  { rewrite str_in_nil_l in Hlater. discriminate. }
  assert (HN : n :: N = removelast (n :: N) ++ [List.last (n :: N) n])
    by (apply app_removelast_last; discriminate).
  assert (Hlen : length (n :: N) = S (length (removelast (n :: N)))).
  { rewrite HN at 1. rewrite length_app. cbn [length]. lia. }
  replace ((x :: a) ++ (n :: N) ++ r)
    with (((x :: a) ++ removelast (n :: N)) ++ [List.last (n :: N) n] ++ r).
  2: { rewrite <- app_assoc. f_equal. rewrite (app_assoc (removelast (n :: N))), <- HN.
       reflexivity. }
  rewrite startswith_long; [exact Hhere|].
  rewrite length_app, Hlen. cbn [length]. lia.
Qed.

Lemma find_from_first (N a r : text) (i : nat) :
  Py.str_in N (a ++ removelast N) = false ->
  Py.find_from N (a ++ N ++ r) i = Z.of_nat (i + length a).
Proof.
  revert i. induction a as [|x a IH]; intros i H.
  - cbn [app Py.find_from length].
    destruct (N ++ r) eqn:E; cbn [Py.find_from];
      rewrite <- E, startswith_app; f_equal; lia.
  - destruct (not_before N a r x H) as [Hhere Hlater].
    cbn [app] in *. cbn [Py.find_from]. rewrite Hhere, (IH (S i) Hlater).
    cbn [length]. f_equal. lia.
Qed.

Lemma find_first (N a r : text) :
  Py.str_in N (a ++ removelast N) = false ->
  Py.find (a ++ N ++ r) N = Z.of_nat (length a).
Proof. intros H. unfold Py.find. rewrite (find_from_first N a r 0 H). reflexivity. Qed.

Lemma split_last (N a b : text) (x : ascii) :
  N <> [] -> a ++ N ++ b = (a ++ removelast N) ++ [List.last N x] ++ b.
Proof.
  intros HN. rewrite <- app_assoc. f_equal. rewrite app_assoc. f_equal.
  apply app_removelast_last, HN.
Qed.

Lemma length_removelast_S (N : text) : N <> [] -> length N = S (length (removelast N)).
Proof.
  intros HN. destruct N as [|n N]; [done|].
  rewrite (app_removelast_last (l := n :: N) n) at 1 by discriminate.
  rewrite length_app. cbn [length]. lia.
Qed.

Lemma first_occurrence (N s : text) :
  N <> [] -> Py.str_in N s = true ->
  exists a b, s = a ++ N ++ b /\ Py.str_in N (a ++ removelast N) = false.
Proof.
  intros HN. induction s as [|x s IH]; intros H.
  - rewrite str_in_nil_r in H. destruct N; [done | discriminate].
  - destruct (Py.startswith N (x :: s)) eqn:Hhere.
    + exists [], (drop (length N) (x :: s)). split.
      * apply (startswith_inv N (x :: s) Hhere).
      * apply str_in_short. rewrite (length_removelast_S N HN). cbn [app]. lia.
    + rewrite str_in_cons, Hhere in H. destruct (IH H) as (a & b & -> & Hfirst).
      exists (x :: a), b. split; [reflexivity|].
      cbn [app]. rewrite str_in_cons, Hfirst, orb_false_r.
      rewrite <- Hhere. symmetry.
      change (x :: a ++ N ++ b) with ((x :: a) ++ N ++ b).
      rewrite (split_last N (x :: a) b x HN). apply startswith_long.
      pose proof (length_removelast_S N HN). cbn [app length]. rewrite length_app. lia.
Qed.

(** *** Slices *)

Lemma bound_nat (n len : nat) : Py.bound (Z.of_nat n) len = Nat.min n len.
Proof.
  unfold Py.bound. destruct (Z.ltb_spec (Z.of_nat n) 0); lia.
Qed.

Lemma slice_to_app (a b : text) : Py.slice_to (a ++ b) (Z.of_nat (length a)) = a.
Proof.
  unfold Py.slice_to. rewrite bound_nat, length_app, Nat.min_l by lia.
  apply take_app_length.
Qed.

Lemma slice_from_app (a b : text) : Py.slice_from (a ++ b) (Z.of_nat (length a)) = b.
Proof.
  unfold Py.slice_from. rewrite bound_nat, length_app, Nat.min_l by lia.
  apply drop_app_length.
Qed.

End PyFacts.

(** ** The project file patcher *)
Module PatcherFacts.
Import Patcher EffFacts PyFacts.

(** *** Insertions only *)

Lemma insert_build_file_sublist entry content :
  sublist content (insert_build_file entry content).
Proof.
  unfold insert_build_file.
  destruct (Re.search_between _ _ _); [|reflexivity].
  rewrite (app_assoc entry). apply insert_sublist.
Qed.

Lemma insert_file_ref_sublist entry content :
  sublist content (insert_file_ref entry content).
Proof.
  unfold insert_file_ref.
  destruct (Re.search_between _ _ _); [|reflexivity].
  rewrite (app_assoc entry). apply insert_sublist.
Qed.

Lemma insert_sources_phase_sublist ref content :
  sublist content (insert_sources_phase ref content).
Proof.
  unfold insert_sources_phase.
  destruct (Re.search_sources_phase _); [|reflexivity].
  rewrite (app_assoc [newline]). apply insert_sublist.
Qed.

Lemma add_file_to_project_run content file_path file_name w :
  add_file_to_project content file_path file_name w =
  (Ok (edited (nth_id w 0) (nth_id w 1) content file_name),
   {| files := files w; urandom := urandom w; drawn := S (S (drawn w));
      log := log w ++ [Stdout (lit "Adding " ++ file_path ++ lit " with IDs: "
                               ++ nth_id w 0 ++ lit ", " ++ nth_id w 1)] |}).
Proof.
  unfold add_file_to_project, generate_uuid, draw_uuid4, print, emit, edited, nth_id.
  unfold_monad. cbn [files urandom drawn log].
  rewrite Nat.add_0_r, Nat.add_1_r. reflexivity.
Qed.

Lemma edited_sublist r bf content file_name :
  sublist content (edited r bf content file_name).
Proof.
  unfold edited.
  etrans; [apply insert_build_file_sublist|].
  etrans; [apply insert_file_ref_sublist|].
  apply insert_sources_phase_sublist.
Qed.

(** C9.  For every manifest text and every (path, name) pair,
    [add_file_to_project] returns a text that contains every character
    of the input in its original order (it only inserts), so the output
    is at least as long as the input. *)
Theorem add_file_to_project_only_inserts (content file_path file_name : text) (w : World) :
  exists out w',
    add_file_to_project content file_path file_name w = (Ok out, w') /\
    sublist content out /\
    length content <= length out.
Proof.
  rewrite add_file_to_project_run. eexists _, _. split; [reflexivity|].
  split; [apply edited_sublist|]. apply sublist_length, edited_sublist.
Qed.

(** *** The run *)

Lemma os_path_exists_run p w :
  os_path_exists p w = (Ok (bool_decide (is_Some (files w !! p))), logged w [PathExists p]).
Proof. reflexivity. Qed.

Lemma print_run line w : print line w = (Ok tt, logged w [Stdout line]).
Proof. reflexivity. Qed.

Lemma logged_logged w es1 es2 : logged (logged w es1) es2 = logged w (es1 ++ es2).
Proof. unfold logged. cbn. rewrite <- app_assoc. reflexivity. Qed.

(** C8.  When the manifest file does not exist, [main] checks for it,
    prints the error message and returns without raising: the file is
    neither read nor written, no identifier is drawn, and the files on
    disk are what they were. *)
Theorem main_without_manifest (w : World) :
  files w !! PROJECT_FILE = None ->
  main w = (Ok tt,
            {| files := files w; urandom := urandom w; drawn := drawn w;
               log := log w ++ [PathExists PROJECT_FILE;
                                Stdout (lit "Error: " ++ PROJECT_FILE ++ lit " not found")] |}).
Proof.
  intros Hnone. unfold main.
  erewrite bind_ok by apply os_path_exists_run.
  rewrite bool_decide_eq_false_2 by (rewrite Hnone; apply is_Some_None).
  cbn [negb]. rewrite print_run, logged_logged. reflexivity.
Qed.

Lemma register_run file_path file_name content w :
  register (file_path, file_name) content w =
  if bool_decide (is_Some (files w !! file_path)) then
    if Py.str_in file_name content then
      (Ok content,
       logged w [PathExists file_path;
                 Stdout (lit "File " ++ file_name ++ lit " already in project")])
    else
      (Ok (edited (nth_id w 0) (nth_id w 1) content file_name),
       {| files := files w; urandom := urandom w; drawn := S (S (drawn w));
          log := log w ++ [PathExists file_path;
                           Stdout (lit "Adding " ++ file_name ++ lit " to project...");
                           Stdout (lit "Adding " ++ file_path ++ lit " with IDs: "
                                   ++ nth_id w 0 ++ lit ", " ++ nth_id w 1)] |})
  else
    (Ok content, logged w [PathExists file_path; Stdout (warning file_path)]).
Proof.
  unfold register.
  erewrite bind_ok by apply os_path_exists_run.
  destruct (bool_decide (is_Some (files w !! file_path))).
  - destruct (Py.str_in file_name content); cbn [negb].
    + erewrite bind_ok by apply print_run. unfold_monad.
      rewrite logged_logged. reflexivity.
    + erewrite bind_ok by apply print_run.
      rewrite add_file_to_project_run. unfold logged, nth_id. cbn [files urandom drawn log].
      rewrite <- !app_assoc. reflexivity.
  - erewrite bind_ok by apply print_run. unfold_monad.
    rewrite logged_logged. reflexivity.
Qed.

Lemma for_fold_cons {S A V} (x : A) xs (body : A -> V -> M S V) v s :
  for_fold (x :: xs) body v s =
  match body x v s with
  | (Ok v', s') => for_fold xs body v' s'
  | (Raise e, s') => (Raise e, s')
  end.
Proof. reflexivity. Qed.

(** One entry: the files stay, the log grows by the existence check
    and the prints, and two worlds that differ in their logs only get
    the same text and the same identifiers. *)
Lemma register_step e content w :
  exists c' d es,
    register e content w =
      (Ok c', {| files := files w; urandom := urandom w; drawn := d; log := log w ++ es |}) /\
    PathExists e.1 ∈ es /\ writes es = [] /\
    (files w !! e.1 = None -> c' = content /\ d = drawn w /\ Stdout (warning e.1) ∈ es) /\
    (Py.str_in e.2 content = true -> c' = content /\ d = drawn w) /\
    forall w2, same_world w w2 ->
      exists es2, register e content w2 =
        (Ok c', {| files := files w2; urandom := urandom w2; drawn := d; log := log w2 ++ es2 |}).
Proof.
  destruct e as [p n]. cbn [fst snd].
  destruct (files w !! p) as [src|] eqn:Hp.
  - destruct (Py.str_in n content) eqn:Hn.
    + exists content, (drawn w), [PathExists p; Stdout (lit "File " ++ n ++ lit " already in project")].
      rewrite register_run, Hp, bool_decide_eq_true_2, Hn by eauto.
      split; [reflexivity|]. split; [left|]. split; [reflexivity|].
      split; [discriminate|]. split; [auto|].
      intros [f2 u2 d2 l2] (Hf & Hu & Hd). cbn in Hf, Hu, Hd. subst f2 u2 d2. eexists.
      rewrite register_run. cbn [files]. rewrite Hp, bool_decide_eq_true_2, Hn by eauto.
      reflexivity.
    + eexists _, _, _.
      rewrite register_run, Hp, bool_decide_eq_true_2, Hn by eauto.
      split; [reflexivity|]. split; [left|]. split; [reflexivity|].
      split; [discriminate|]. split; [discriminate|].
      intros [f2 u2 d2 l2] (Hf & Hu & Hd). cbn in Hf, Hu, Hd. subst f2 u2 d2. eexists.
      rewrite register_run. cbn [files]. rewrite Hp, bool_decide_eq_true_2, Hn by eauto.
      reflexivity.
  - exists content, (drawn w), [PathExists p; Stdout (warning p)].
    rewrite register_run, Hp, bool_decide_eq_false_2 by apply is_Some_None.
    split; [reflexivity|]. split; [left|]. split; [reflexivity|].
    split; [intros _; split; [reflexivity|split; [reflexivity|right; left]]|].
    split; [auto|].
    intros [f2 u2 d2 l2] (Hf & Hu & Hd). cbn in Hf, Hu, Hd. subst f2 u2 d2. eexists.
    rewrite register_run. cbn [files]. rewrite Hp, bool_decide_eq_false_2 by apply is_Some_None.
    reflexivity.
Qed.

Lemma writes_app l1 l2 : writes (l1 ++ l2) = writes l1 ++ writes l2.
Proof. apply omap_app. Qed.

Lemma writes_write p c l : writes (WriteFile p c :: l) = (p, c) :: writes l.
Proof. reflexivity. Qed.

(** The loop over the listed entries. *)
Lemma register_all_run entries content w :
  exists c' d es,
    for_fold entries register content w =
      (Ok c', {| files := files w; urandom := urandom w; drawn := d; log := log w ++ es |}) /\
    writes es = [] /\
    (forall e, e ∈ entries -> PathExists e.1 ∈ es) /\
    (forall e, e ∈ entries -> files w !! e.1 = None -> Stdout (warning e.1) ∈ es) /\
    ((forall e, e ∈ entries -> Py.str_in e.2 content = true) ->
     c' = content /\ d = drawn w) /\
    forall w2, same_world w w2 ->
      exists es2, for_fold (present w entries) register content w2 =
        (Ok c', {| files := files w2; urandom := urandom w2; drawn := d; log := log w2 ++ es2 |}).
Proof.
  revert content w. induction entries as [|e rest IH]; intros content w.
  - exists content, (drawn w), []. cbn. rewrite app_nil_r.
    split; [destruct w; reflexivity|]. split; [reflexivity|].
    split; [intros e []%elem_of_nil|]. split; [intros e []%elem_of_nil|].
    split; [auto|]. intros w2 (Hf & Hu & Hd). exists []. rewrite app_nil_r, Hd.
    destruct w2; reflexivity.
  - destruct (register_step e content w) as (c1 & d1 & es1 & Hrun & Hex & Hw & Hmiss & Hdup & Hrel).
    set (w1 := {| files := files w; urandom := urandom w; drawn := d1; log := log w ++ es1 |}) in *.
    destruct (IH c1 w1) as (c' & d & es & IHrun & IHw & IHex & IHmiss & IHdup & IHrel).
    exists c', d, (es1 ++ es).
    split. { rewrite for_fold_cons, Hrun, IHrun. cbn. rewrite <- app_assoc. reflexivity. }
    split. { rewrite writes_app, Hw, IHw. reflexivity. }
    split. { intros x [->|Hx]%elem_of_cons; apply elem_of_app; [left|right]; auto. }
    split. { intros x [->|Hx]%elem_of_cons Hnone; apply elem_of_app; [left|right].
             - apply Hmiss, Hnone.
             - apply IHmiss; assumption. }
    split. { intros Hall. destruct Hdup as [-> ->]; [apply Hall; left|].
             apply IHdup. intros x Hx. apply Hall. right. exact Hx. }
    intros w2 Hsame. unfold present. rewrite filter_cons.
    destruct (decide (is_Some (files w !! e.1))) as [Hsome|Hnone].
    + destruct (Hrel w2 Hsame) as [es2 Hrun2].
      destruct Hsame as (Hf & Hu & Hd).
      destruct (IHrel {| files := files w2; urandom := urandom w2; drawn := d1;
                         log := log w2 ++ es2 |}) as [es3 Hrun3].
      { split; [exact Hf|]. split; [exact Hu|reflexivity]. }
      exists (es2 ++ es3). rewrite for_fold_cons, Hrun2.
      unfold present in Hrun3. cbn in Hrun3. rewrite Hrun3, <- app_assoc. reflexivity.
    + apply eq_None_not_Some in Hnone. destruct (Hmiss Hnone) as (-> & -> & _).
      destruct (IHrel w2) as [es3 Hrun3]; [exact Hsame|].
      exists es3. exact Hrun3.
Qed.

Lemma read_project_file_run w m :
  files w !! PROJECT_FILE = Some m ->
  read_project_file w = (Ok m, logged w [ReadFile PROJECT_FILE]).
Proof.
  intros Hm. unfold read_project_file, emit. unfold_monad. cbn [files].
  rewrite Hm. reflexivity.
Qed.

Lemma main_run w m :
  files w !! PROJECT_FILE = Some m ->
  exists c' d es tail,
    main w = (Ok tt, {| files := <[PROJECT_FILE := c']> (files w); urandom := urandom w;
                        drawn := d;
                        log := log w ++ [PathExists PROJECT_FILE; ReadFile PROJECT_FILE]
                               ++ es ++ WriteFile PROJECT_FILE c' :: tail |}) /\
    writes es = [] /\ writes tail = [] /\
    (forall e, e ∈ test_files -> PathExists e.1 ∈ es) /\
    (forall e, e ∈ test_files -> files w !! e.1 = None -> Stdout (warning e.1) ∈ es) /\
    ((forall e, e ∈ test_files -> Py.str_in e.2 m = true) -> c' = m /\ d = drawn w) /\
    exists es2, for_fold (present w test_files) register m w =
      (Ok c', {| files := files w; urandom := urandom w; drawn := d; log := log w ++ es2 |}).
Proof.
  intros Hm.
  destruct (register_all_run test_files m
              (logged w [PathExists PROJECT_FILE; ReadFile PROJECT_FILE]))
    as (c' & d & es & Hrun & Hw & Hex & Hmiss & Hdup & Hrel).
  exists c', d, es. eexists. split.
  { unfold main. erewrite bind_ok by apply os_path_exists_run.
    rewrite bool_decide_eq_true_2 by (rewrite Hm; eauto). cbn [negb].
    erewrite bind_ok by (apply read_project_file_run; exact Hm).
    rewrite logged_logged. cbn [app].
    erewrite bind_ok by exact Hrun.
    unfold write_project_file, print, emit. unfold_monad. cbn [files urandom drawn log logged].
    rewrite <- !app_assoc. cbn [app]. reflexivity. }
  split; [exact Hw|]. split; [reflexivity|].
  split; [exact Hex|]. split; [exact Hmiss|]. split; [exact Hdup|].
  apply (Hrel w). repeat split.
Qed.

(** C4.  When the manifest is read as a text that already contains each
    of the three target file names as a substring, whichever source
    files exist on disk, one run of the patcher returns without raising,
    draws no identifier, and the one text it writes is the manifest text
    it read: no entry is added, and every file reads as it did before. *)
Theorem main_noop_when_registered (w : World) (m : text) :
  files w !! PROJECT_FILE = Some m ->
  (forall e, e ∈ test_files -> Py.str_in e.2 m = true) ->
  exists w',
    main w = (Ok tt, w') /\
    writes (log w') = writes (log w) ++ [(PROJECT_FILE, m)] /\
    files w' = files w /\
    drawn w' = drawn w.
Proof.
  intros Hm Hall.
  destruct (main_run w m Hm) as (c' & d & es & tail & Hmain & Hw & Ht & _ & _ & Hdup & _).
  destruct (Hdup Hall) as [-> ->].
  eexists. split; [exact Hmain|]. cbn [log files drawn].
  split; [|split; [apply insert_id, Hm | reflexivity]].
  rewrite !writes_app, Hw, writes_write, Ht. reflexivity.
Qed.

(** C7, as the code has it.  In a run that finds the manifest, every
    listed entry is checked for existence; for each one whose source file
    is not on disk a warning is printed and the manifest text is left as
    it was for it; and the text written in the end is the one obtained by
    processing just the other entries, in the same order and with the
    same identifiers. *)
Theorem missing_sources_are_skipped (w : World) (m : text) :
  files w !! PROJECT_FILE = Some m ->
  exists w',
    main w = (Ok tt, w') /\
    (forall e, e ∈ test_files -> PathExists e.1 ∈ log w') /\
    (forall e, e ∈ test_files -> files w !! e.1 = None ->
       Stdout (warning e.1) ∈ log w' /\
       forall content w0, files w0 = files w ->
         exists es, register e content w0 = (Ok content, logged w0 es)) /\
    exists c w2,
      for_fold (present w test_files) register m w = (Ok c, w2) /\
      files w' = <[PROJECT_FILE := c]> (files w) /\
      drawn w' = drawn w2.
Proof.
  intros Hm.
  destruct (main_run w m Hm) as (c' & d & es & tail & Hmain & _ & _ & Hex & Hmiss & _ & es2 & Hrel).
  eexists. split; [exact Hmain|]. cbn [log files drawn].
  split; [|split].
  - intros e He. rewrite !elem_of_app. right. right. left. apply Hex, He.
  - intros e He Hnone. split.
    + rewrite !elem_of_app. right. right. left. apply Hmiss; assumption.
    + intros content w0 Hf.
      destruct (register_step e content w0) as (c1 & d1 & es1 & Hrun & _ & _ & Hskip & _).
      destruct Hskip as (-> & -> & _); [rewrite Hf; exact Hnone|].
      exists es1. rewrite Hrun. destruct w0; reflexivity.
  - eexists _, _. split; [exact Hrel|]. split; reflexivity.
Qed.

Lemma main_without_manifest_witness :
  main (Fixtures.world Fixtures.sources_only) =
  (Ok tt,
   {| files := Fixtures.sources_only;
      urandom := urandom (Fixtures.world Fixtures.sources_only);
      drawn := 0;
      log := [PathExists PROJECT_FILE;
              Stdout (lit "Error: HealerKit.xcodeproj/project.pbxproj not found")] |}).
Proof.
  apply (main_without_manifest (Fixtures.world Fixtures.sources_only)).
  vm_compute. reflexivity.
Defined.

Lemma main_noop_when_registered_witness :
  Forall (fun e => Fixtures.all_sources Fixtures.registered_manifest !! e.1
                   = Some Fixtures.swift_source) test_files /\
  exists w',
    main (Fixtures.world (Fixtures.all_sources Fixtures.registered_manifest)) = (Ok tt, w') /\
    writes (log w') = [(PROJECT_FILE, Fixtures.registered_manifest)] /\
    files w' = Fixtures.all_sources Fixtures.registered_manifest /\
    drawn w' = 0 /\
    Forall (fun e => Stdout (lit "File " ++ e.2 ++ lit " already in project") ∈ log w')
           test_files.
Proof.
  split.
  { repeat (apply Forall_cons_2; [vm_compute; reflexivity|]). apply Forall_nil_2. }
  destruct (main_noop_when_registered
              (Fixtures.world (Fixtures.all_sources Fixtures.registered_manifest))
              Fixtures.registered_manifest) as (w' & Hmain & Hw & Hf & Hd).
  - vm_compute. reflexivity.
  - intros e He. unfold test_files in He.
    repeat (apply elem_of_cons in He as [->|He]; [vm_compute; reflexivity|]).
    by apply elem_of_nil in He.
  - exists w'. split; [exact Hmain|]. split; [exact Hw|]. split; [exact Hf|].
    split; [exact Hd|].
    assert (Hw' : w' = (main (Fixtures.world
                               (Fixtures.all_sources Fixtures.registered_manifest))).2)
      by (rewrite Hmain; reflexivity).
    rewrite Hw'.
    repeat (apply Forall_cons_2;
            [apply list_elem_of_In; vm_compute;
             repeat (first [left; reflexivity | right])|]).
    apply Forall_nil_2.
Defined.

(** C7, as stated, fails.  In a run that does not find the manifest the
    patcher returns before the loop over the listed entries: none of the
    source files is on disk, and no warning is printed for any of them. *)
Lemma no_warning_without_manifest :
  let w := Fixtures.world ∅ in
  Forall (fun e => files w !! e.1 = None) test_files /\
  log (main w).2 =
    [PathExists PROJECT_FILE;
     Stdout (lit "Error: HealerKit.xcodeproj/project.pbxproj not found")] /\
  Forall (fun e => Stdout (warning e.1) ∉ log (main w).2) test_files.
Proof.
  intros w.
  assert (Hlog : log (main w).2 =
                 [PathExists PROJECT_FILE;
                  Stdout (lit "Error: HealerKit.xcodeproj/project.pbxproj not found")])
    by reflexivity.
  split; [|split; [exact Hlog|]].
  - unfold test_files. repeat (apply Forall_cons_2; [apply lookup_empty|]).
    apply Forall_nil_2.
  - rewrite Hlog. unfold test_files.
    repeat (apply Forall_cons_2;
            [rewrite !elem_of_cons, elem_of_nil;
             intros [H|[H|[]]]; [discriminate H|];
             injection H as H; vm_compute in H; discriminate H|]).
    apply Forall_nil_2.
Qed.

Lemma missing_sources_are_skipped_witness :
  exists w',
    main (Fixtures.world Fixtures.one_source_missing) = (Ok tt, w') /\
    Stdout (warning Fixtures.boss_tests) ∈ log w' /\
    exists c w2,
      for_fold [(Fixtures.dungeon_tests, lit "DungeonTests.swift");
                (Fixtures.season_tests, lit "SeasonTests.swift")]
               register Fixtures.sample_manifest
               (Fixtures.world Fixtures.one_source_missing) = (Ok c, w2) /\
      files w' = <[PROJECT_FILE := c]> Fixtures.one_source_missing /\
      drawn w' = drawn w2.
Proof.
  destruct (missing_sources_are_skipped (Fixtures.world Fixtures.one_source_missing)
              Fixtures.sample_manifest)
    as (w' & Hmain & _ & Hmiss & c & w2 & Hrest).
  - vm_compute. reflexivity.
  - exists w'. split; [exact Hmain|]. split.
    + apply (Hmiss (Fixtures.boss_tests, lit "BossEncounterTests.swift")).
      * right. left.
      * vm_compute. reflexivity.
    + exists c, w2. exact Hrest.
Defined.

End PatcherFacts.

(** ** The regular expressions *)
Module ReFacts.
Import PyFacts.

Lemma search_between_intro (o c x y z : text) :
  Re.search_between o c (x ++ o ++ y ++ c ++ z) = true.
Proof.
  induction x as [|a x IH].
  - cbn [app]. destruct (o ++ y ++ c ++ z) eqn:E; cbn [Re.search_between];
      rewrite <- E, startswith_app, drop_app_length, str_in_intro; reflexivity.
  - cbn [app Re.search_between]. rewrite IH. apply orb_true_r.
Qed.

Lemma search_between_elim (o c s : text) :
  Re.search_between o c s = true -> Py.str_in o s = true /\ Py.str_in c s = true.
Proof.
  induction s as [|a s IH]; cbn [Re.search_between]; intros H.
  - rewrite orb_false_r in H. apply andb_true_iff in H as [Ho Hc].
    split; [apply str_in_startswith, Ho | apply (str_in_drop c [] _ Hc)].
  - apply orb_true_iff in H as [H|H].
    + apply andb_true_iff in H as [Ho Hc].
      split; [apply str_in_startswith, Ho | apply (str_in_drop c (a :: s) _ Hc)].
    + destruct (IH H) as [Ho Hc]. rewrite !str_in_cons, Ho, Hc, !orb_true_r. auto.
Qed.

(** *** The build phase pattern *)

Lemma run_not_here (c : ascii) (s : text) : Re.run_not c (c :: s) = 0.
Proof. cbn. rewrite Ascii.eqb_refl. reflexivity. Qed.

Lemma run_not_app (c : ascii) (a b : text) :
  Py.has_char c a = false -> Re.run_not c (a ++ b) = length a + Re.run_not c b.
Proof.
  induction a as [|x a IH]; intros H; [reflexivity|].
  cbn in H. apply orb_false_elim in H as [Hx Ha].
  cbn. rewrite Ascii.eqb_sym, Hx, (IH Ha). reflexivity.
Qed.

Lemma run_not_le (c : ascii) (s : text) : Re.run_not c s <= length s.
Proof.
  induction s as [|x s IH]; cbn; [lia|]. destruct (Ascii.eqb x c); lia.
Qed.

(** Backtracking stops at the last place, not beyond [kmax], where
    [files = (] stands in front of a non-empty list. *)
Lemma backtrack_found (r : text) (k0 kmax : nat) :
  1 <= k0 <= kmax ->
  Py.startswith Re.files_open (drop k0 r) = true ->
  0 < Re.run_not ")" (drop (length Re.files_open) (drop k0 r)) ->
  (forall k, k0 < k <= kmax -> Py.startswith Re.files_open (drop k r) = false) ->
  Re.backtrack kmax r =
    Some (k0 + length Re.files_open
          + Re.run_not ")" (drop (length Re.files_open) (drop k0 r))).
Proof.
  intros Hk Hfo Hrun Hlater. induction kmax as [|k' IH]; [lia|].
  cbn [Re.backtrack]. destruct (decide (S k' = k0)) as [->|Hne].
  - rewrite Hfo. apply Nat.ltb_lt in Hrun. rewrite Hrun. reflexivity.
  - rewrite (Hlater (S k')) by lia. cbn [andb]. apply IH; [lia|].
    intros k Hk'. apply Hlater. lia.
Qed.

Lemma match_here_head (r : text) :
  Re.match_here (Re.phase_head ++ r) =
  (fun e => length Re.phase_head + e) <$> Re.backtrack (Re.run_not "}" r) r.
Proof.
  unfold Re.match_here. rewrite startswith_app, drop_app_length.
  destruct (Re.backtrack _ r); reflexivity.
Qed.

(** The search skips every position in front of the first [phase_head]. *)
Lemma search_sources_phase_first (pre r : text) (e : nat) :
  Py.str_in Re.phase_head (pre ++ removelast Re.phase_head) = false ->
  Re.match_here (Re.phase_head ++ r) = Some e ->
  Re.search_sources_phase (pre ++ Re.phase_head ++ r) = Some (length pre + e).
Proof.
  intros Hpre Hm. induction pre as [|x pre IH].
  - cbn [app length]. destruct (Re.phase_head ++ r) eqn:E;
      cbn [Re.search_sources_phase]; rewrite Hm; reflexivity.
  - destruct (not_before Re.phase_head pre r x Hpre) as [Hhere Hlater].
    cbn [app] in *. cbn [Re.search_sources_phase].
    unfold Re.match_here at 1. rewrite Hhere, (IH Hlater). reflexivity.
Qed.

End ReFacts.

(** ** The identifiers the patcher mints *)
Module IdFacts.
Import Patcher PyFacts.

Lemma has_char_In (c : ascii) (s : text) : Py.has_char c s = true <-> In c s.
Proof.
  unfold Py.has_char. rewrite existsb_exists. split.
  - intros (x & Hx & Heq). apply Ascii.eqb_eq in Heq. subst. exact Hx.
  - intros H. exists c. split; [exact H | apply Ascii.eqb_refl].
Qed.

Lemma hex_digits_length (k : nat) (n : N) : length (hex_digits k n) = k.
Proof.
  revert n. induction k as [|k IH]; intros n; [reflexivity|].
  cbn [hex_digits]. rewrite length_app, IH. cbn. lia.
Qed.

Lemma hex_char_lower (d : N) : In (hex_char d) (lit "0123456789abcdef").
Proof.
  unfold hex_char.
  destruct (nth_in_or_default (N.to_nat d) (lit "0123456789abcdef") "0"%char) as [H| ->].
  - exact H.
  - left. reflexivity.
Qed.

Lemma upper_of_hex (c : ascii) :
  In c (lit "0123456789abcdef") ->
  is_upper_hex (Py.upper_char c) = true /\ Py.upper_char c <> "-"%char.
Proof.
  intros H. unfold lit in H. cbn in H.
  repeat (destruct H as [<-|H]; [split; [reflexivity|discriminate]|]).
  destruct H.
Qed.

Lemma hex_digits_upper (k : nat) (n : N) :
  Forall (fun c => is_upper_hex c = true /\ c <> "-"%char) (Py.upper (hex_digits k n)).
Proof.
  revert n. induction k as [|k IH]; intros n; [constructor|].
  cbn [hex_digits]. unfold Py.upper in *. rewrite map_app. apply Forall_app. split; [apply IH|].
  repeat constructor; apply upper_of_hex, hex_char_lower.
Qed.

Lemma remove_all_id (c : ascii) (s : text) :
  Forall (fun x => x <> c) s -> filter (fun x => x <> c) s = s.
Proof.
  induction 1 as [|x s Hx _ IH]; [reflexivity|].
  rewrite filter_cons, decide_True by exact Hx. f_equal. exact IH.
Qed.

Lemma regroup (h : text) :
  take 8 h ++ take 4 (drop 8 h) ++ take 4 (drop 12 h) ++ take 4 (drop 16 h) ++ drop 20 h = h.
Proof.
  replace (drop 20 h) with (drop 4 (drop 16 h)) by apply drop_drop.
  rewrite take_drop.
  replace (drop 16 h) with (drop 4 (drop 12 h)) by apply drop_drop.
  rewrite take_drop.
  replace (drop 12 h) with (drop 4 (drop 8 h)) by apply drop_drop.
  rewrite take_drop. apply take_drop.
Qed.

(** [str(uuid).upper().replace('-', '')] is the 32 digits in upper case. *)
Lemma uuid_digits (u : N) :
  Py.remove_all "-" (Py.upper (uuid_str u)) = Py.upper (hex_digits 32 u).
Proof.
  unfold uuid_str, Py.upper, Py.remove_all.
  assert (Hh : Forall (fun c => c <> "-"%char) (map Py.upper_char (hex_digits 32 u))).
  { eapply Forall_impl; [apply hex_digits_upper|]. intros c []. assumption. }
  rewrite !map_app, <- !firstn_map, <- !skipn_map.
  set (h := map Py.upper_char (hex_digits 32 u)) in *.
  rewrite !filter_app.
  change (filter (fun x => x <> "-"%char) (map Py.upper_char (lit "-"))) with (@nil ascii).
  cbn [app].
  rewrite !(remove_all_id "-")
    by (repeat first [apply Forall_take | apply Forall_drop]; exact Hh).
  apply regroup.
Qed.

(** Every identifier [generate_uuid] returns is 24 upper-case
    hexadecimal digits. *)
Lemma nth_id_minted (w : World) (k : nat) : minted (nth_id w k).
Proof.
  unfold nth_id, minted. rewrite uuid_digits.
  unfold Py.slice_to, Py.upper. rewrite !List.length_map, !hex_digits_length.
  change (Py.bound 24 32) with 24. split.
  - rewrite length_take, List.length_map, hex_digits_length. reflexivity.
  - apply forallb_forall. intros c Hc.
    pose proof (Forall_take _ 24 _ (hex_digits_upper 32 (uuid4_int (urandom w (drawn w + k))))) as Hall.
    rewrite Forall_forall in Hall. apply Hall, list_elem_of_In, Hc.
Qed.

Lemma mask_minted (id : text) : minted id -> map mask id = replicate 24 "0"%char.
Proof.
  intros [Hlen Hall]. rewrite <- Hlen. clear Hlen.
  induction id as [|c id IH]; [reflexivity|].
  cbn in Hall. apply andb_true_iff in Hall as [Hc Hid].
  cbn. unfold mask at 1. rewrite Hc, (IH Hid). reflexivity.
Qed.

Lemma minted_no_char (id : text) (c : ascii) :
  minted id -> is_upper_hex c = false -> Py.has_char c id = false.
Proof.
  intros [_ Hall] Hc. destruct (Py.has_char c id) eqn:E; [|reflexivity].
  apply has_char_In in E. rewrite forallb_forall in Hall.
  rewrite (Hall c E) in Hc. discriminate.
Qed.

End IdFacts.

(** ** The three edits of [add_file_to_project] *)
Module EditFacts.
Import Patcher EffFacts PyFacts ReFacts IdFacts PatcherFacts.

(** *** Where a section insertion lands *)

Lemma section_found (o c a b : text) :
  Py.str_in o a = true -> Re.search_between o c (a ++ c ++ b) = true.
Proof.
  intros Ho. destruct (str_in_inv o a Ho) as (x & y & ->).
  rewrite <- !app_assoc. apply search_between_intro.
Qed.

Lemma section_insert (c entry a b : text) :
  Py.str_in c (a ++ removelast c) = false ->
  Py.slice_to (a ++ c ++ b) (Py.find (a ++ c ++ b) c) ++ entry ++ [newline]
    ++ Py.slice_from (a ++ c ++ b) (Py.find (a ++ c ++ b) c)
  = a ++ entry ++ [newline] ++ c ++ b.
Proof.
  intros Hfirst. rewrite (find_first c a b Hfirst), slice_to_app, slice_from_app.
  reflexivity.
Qed.

Lemma insert_build_file_at (entry a b : text) :
  Py.str_in begin_build_file a = true ->
  Py.str_in end_build_file (a ++ removelast end_build_file) = false ->
  insert_build_file entry (a ++ end_build_file ++ b) =
  a ++ entry ++ [newline] ++ end_build_file ++ b.
Proof.
  intros Hbegin Hfirst. unfold insert_build_file.
  rewrite (section_found _ _ a b Hbegin). apply section_insert, Hfirst.
Qed.

Lemma insert_file_ref_at (entry a b : text) :
  Py.str_in begin_file_ref a = true ->
  Py.str_in end_file_ref (a ++ removelast end_file_ref) = false ->
  insert_file_ref entry (a ++ end_file_ref ++ b) =
  a ++ entry ++ [newline] ++ end_file_ref ++ b.
Proof.
  intros Hbegin Hfirst. unfold insert_file_ref.
  rewrite (section_found _ _ a b Hbegin). apply section_insert, Hfirst.
Qed.

(** When the build file section is found, the entry and a newline go
    right in front of the first end marker. *)
Lemma insert_build_file_found (entry content : text) :
  Re.search_between begin_build_file end_build_file content = true ->
  exists a b,
    content = a ++ end_build_file ++ b /\
    insert_build_file entry content = a ++ entry ++ [newline] ++ end_build_file ++ b.
Proof.
  intros Hsearch. destruct (search_between_elim _ _ _ Hsearch) as [_ Hend].
  destruct (first_occurrence end_build_file content) as (a & b & -> & Hfirst);
    [discriminate | exact Hend |].
  exists a, b. split; [reflexivity|].
  unfold insert_build_file. rewrite Hsearch. apply section_insert, Hfirst.
Qed.

Lemma take_min (s : text) (e : nat) : take (Nat.min e (length s)) s = take e s.
Proof.
  destruct (Nat.min_spec e (length s)) as [[_ ->]|[Hle ->]]; [reflexivity|].
  rewrite !take_ge by lia. reflexivity.
Qed.

Lemma drop_min (s : text) (e : nat) : drop (Nat.min e (length s)) s = drop e s.
Proof.
  destruct (Nat.min_spec e (length s)) as [[_ ->]|[Hle ->]]; [reflexivity|].
  rewrite !drop_ge by lia. reflexivity.
Qed.

(** When the build phase pattern matches, the reference goes where the
    match ends. *)
Lemma insert_sources_phase_found (ref content : text) (e : nat) :
  Re.search_sources_phase content = Some e ->
  insert_sources_phase ref content = take e content ++ [newline] ++ ref ++ drop e content.
Proof.
  intros H. unfold insert_sources_phase, Py.slice_to, Py.slice_from.
  rewrite H, bound_nat, take_min, drop_min. reflexivity.
Qed.

(** *** What an inserted line can and cannot contain *)

(** A line that starts with a tab and is followed by a newline brings
    no occurrence of [N] that was not there, when [N] has neither
    character and does not occur in the line. *)
Lemma str_in_insert_line (N a b e : text) :
  Py.has_char tab N = false -> Py.has_char newline N = false ->
  Py.str_in N (tab :: e) = false ->
  Py.str_in N (a ++ b) = false ->
  Py.str_in N (a ++ (tab :: e) ++ [newline] ++ b) = false.
Proof.
  intros Ht Hn He Hab. cbn [app].
  rewrite (str_in_sep N a _ tab Ht), (str_in_sep N e b newline Hn).
  rewrite (str_in_app_false_l N a b Hab), (str_in_app_false_r N a b Hab).
  rewrite (str_in_app_false_r N [tab] e He). reflexivity.
Qed.

(** The same for a newline, then a text that ends in a comma. *)
Lemma str_in_insert_ref (N a b e : text) :
  Py.has_char newline N = false -> Py.has_char "," N = false ->
  Py.str_in N (e ++ [","%char]) = false ->
  Py.str_in N (a ++ b) = false ->
  Py.str_in N (a ++ [newline] ++ (e ++ [","%char]) ++ b) = false.
Proof.
  intros Hn Hc He Hab. cbn [app]. rewrite <- app_assoc. cbn [app].
  rewrite (str_in_sep N a _ newline Hn), (str_in_sep N e b "," Hc).
  rewrite (str_in_app_false_l N a b Hab), (str_in_app_false_r N a b Hab).
  rewrite (str_in_app_false_l N e [","%char] He). reflexivity.
Qed.

Lemma listed_names (file_path file_name : text) :
  (file_path, file_name) ∈ test_files ->
  file_name = lit "DungeonTests.swift" \/
  file_name = lit "BossEncounterTests.swift" \/
  file_name = lit "SeasonTests.swift".
Proof.
  unfold test_files. rewrite !elem_of_cons, elem_of_nil.
  intros [[= _ ->]|[[= _ ->]|[[= _ ->]|[]]]]; auto.
Qed.

(** Proves [Py.str_in N entry = false] for an entry built from minted
    identifiers and closed text: with the value of the identifiers
    forgotten, both sides are closed and the search is computed. *)
Ltac absent :=
  lazymatch goal with
  | |- Py.str_in ?N ?e = false =>
      let E := fresh "E" in
      destruct (Py.str_in N e) eqn:E; [exfalso|reflexivity];
      apply (str_in_map mask) in E;
      unfold build_file_entry, file_ref_entry, build_file_ref in E;
      rewrite ?map_app in E;
      repeat match goal with
             | H : minted ?i |- _ => rewrite (mask_minted i H) in E
             end;
      vm_compute in E; discriminate E
  end.

Section Entries.
Variables bf fr name : text.
Hypothesis Hbf : minted bf.
Hypothesis Hfr : minted fr.
Hypothesis Hname : name = lit "DungeonTests.swift" \/
                   name = lit "BossEncounterTests.swift" \/
                   name = lit "SeasonTests.swift".

Lemma build_file_entry_tab :
  build_file_entry bf fr name = tab :: List.tl (build_file_entry bf fr name).
Proof. reflexivity. Qed.

Lemma file_ref_entry_tab :
  file_ref_entry fr name = tab :: List.tl (file_ref_entry fr name).
Proof. reflexivity. Qed.

Lemma no_file_ref_marker_in_build_file_entry :
  Py.str_in begin_file_ref (build_file_entry bf fr name) = false /\
  Py.str_in end_file_ref (build_file_entry bf fr name) = false.
Proof. destruct Hname as [->|[->| ->]]; split; absent. Qed.
End Entries.

(** Inserting the build file entry creates neither file reference marker. *)
Lemma insert_build_file_keeps_absent (N bf fr name content : text) :
  minted bf -> minted fr ->
  name = lit "DungeonTests.swift" \/ name = lit "BossEncounterTests.swift" \/
    name = lit "SeasonTests.swift" ->
  N = begin_file_ref \/ N = end_file_ref ->
  Py.str_in N content = false ->
  Py.str_in N (insert_build_file (build_file_entry bf fr name) content) = false.
Proof.
  intros Hbf Hfr Hname HN Habsent.
  destruct (Re.search_between begin_build_file end_build_file content) eqn:Hsearch.
  - destruct (insert_build_file_found (build_file_entry bf fr name) content Hsearch)
      as (a & b & -> & ->).
    destruct (no_file_ref_marker_in_build_file_entry bf fr name Hbf Hfr Hname) as [Hb He].
    rewrite build_file_entry_tab in *.
    apply str_in_insert_line; try exact Habsent;
      destruct HN as [-> | ->]; first [reflexivity | assumption].
  - unfold insert_build_file. rewrite Hsearch. exact Habsent.
Qed.




(** *** Registering a file brings no other listed name, marker or head *)

Lemma insert_file_ref_found (entry content : text) :
  Re.search_between begin_file_ref end_file_ref content = true ->
  exists a b,
    content = a ++ end_file_ref ++ b /\
    insert_file_ref entry content = a ++ entry ++ [newline] ++ end_file_ref ++ b.
Proof.
  intros Hsearch. destruct (search_between_elim _ _ _ Hsearch) as [_ Hend].
  destruct (first_occurrence end_file_ref content) as (a & b & -> & Hfirst);
    [discriminate | exact Hend |].
  exists a, b. split; [reflexivity|].
  unfold insert_file_ref. rewrite Hsearch. apply section_insert, Hfirst.
Qed.

Lemma insert_build_file_absent (N e content : text) :
  Py.has_char tab N = false -> Py.has_char newline N = false ->
  Py.str_in N (tab :: e) = false -> Py.str_in N content = false ->
  Py.str_in N (insert_build_file (tab :: e) content) = false.
Proof.
  intros Ht Hn He Hc.
  destruct (Re.search_between begin_build_file end_build_file content) eqn:Hsearch.
  - destruct (insert_build_file_found (tab :: e) content Hsearch) as (a & b & -> & ->).
    apply str_in_insert_line; assumption.
  - unfold insert_build_file. rewrite Hsearch. exact Hc.
Qed.

Lemma insert_file_ref_absent (N e content : text) :
  Py.has_char tab N = false -> Py.has_char newline N = false ->
  Py.str_in N (tab :: e) = false -> Py.str_in N content = false ->
  Py.str_in N (insert_file_ref (tab :: e) content) = false.
Proof.
  intros Ht Hn He Hc.
  destruct (Re.search_between begin_file_ref end_file_ref content) eqn:Hsearch.
  - destruct (insert_file_ref_found (tab :: e) content Hsearch) as (a & b & -> & ->).
    apply str_in_insert_line; assumption.
  - unfold insert_file_ref. rewrite Hsearch. exact Hc.
Qed.

Lemma insert_sources_phase_absent (N e content : text) :
  Py.has_char newline N = false -> Py.has_char "," N = false ->
  Py.str_in N (e ++ [","%char]) = false -> Py.str_in N content = false ->
  Py.str_in N (insert_sources_phase (e ++ [","%char]) content) = false.
Proof.
  intros Hn Hc He Hcontent.
  destruct (Re.search_sources_phase content) as [k|] eqn:Hsearch.
  - rewrite (insert_sources_phase_found _ content k Hsearch).
    apply str_in_insert_ref; try assumption. rewrite take_drop. exact Hcontent.
  - unfold insert_sources_phase. rewrite Hsearch. exact Hcontent.
Qed.

Lemma build_file_ref_comma (bf name : text) :
  build_file_ref bf name =
  ([tab; tab; tab; tab] ++ bf ++ lit " /* " ++ name ++ lit " in Sources */") ++ [","%char].
Proof. unfold build_file_ref. rewrite <- !app_assoc. reflexivity. Qed.

Section Entry.
Variables bf fr name : text.
Hypothesis Hbf : minted bf.
Hypothesis Hfr : minted fr.
Hypothesis Hname : listed name.

Let entry := build_file_entry bf fr name.
Let fref := file_ref_entry fr name.
Let ref := build_file_ref bf name.

(** None of these occurs in what is inserted for [name]. *)
Lemma markers_absent (N : text) :
  N = end_build_file \/ N = end_file_ref \/ N = Re.phase_head \/ N = Re.files_open ->
  Py.str_in N entry = false /\ Py.str_in N fref = false /\ Py.str_in N ref = false.
Proof.
  subst entry fref ref. intros HN.
  destruct Hname as [->|[->| ->]];
    destruct HN as [->|[->|[->| ->]]]; repeat split; absent.
Qed.

(** The reference closes neither the file list nor the build phase. *)
Lemma ref_open : Py.has_char ")" ref = false /\ Py.has_char "}" ref = false.
Proof.
  subst entry fref ref. rewrite !has_char_str_in.
  destruct Hname as [->|[->| ->]]; split; absent.
Qed.

Lemma other_name_absent (N : text) :
  listed N -> N <> name ->
  Py.str_in N entry = false /\ Py.str_in N fref = false /\ Py.str_in N ref = false.
Proof.
  subst entry fref ref. intros HN Hne.
  destruct Hname as [->|[->| ->]]; destruct HN as [->|[->| ->]];
    try (exfalso; apply Hne; reflexivity); repeat split; absent.
Qed.

(** The whole of [add_file_to_project] brings no occurrence of a text
    that has no tab, newline or comma and is in none of the three
    inserted lines. *)
Lemma edited_absent (N content : text) :
  Py.has_char tab N = false -> Py.has_char newline N = false ->
  Py.has_char "," N = false ->
  Py.str_in N entry = false -> Py.str_in N fref = false -> Py.str_in N ref = false ->
  Py.str_in N content = false ->
  Py.str_in N (edited fr bf content name) = false.
Proof.
  subst entry fref ref. intros Ht Hn Hc H1 H2 H3 Hcontent. unfold edited.
  rewrite build_file_ref_comma in *.
  apply insert_sources_phase_absent; try assumption.
  rewrite file_ref_entry_tab in *.
  apply insert_file_ref_absent; try assumption.
  rewrite build_file_entry_tab in *.
  apply insert_build_file_absent; assumption.
Qed.
End Entry.

(** *** Where the build phase pattern matches *)

Ltac norm := repeat rewrite <- app_assoc; cbn [app].

Section Block.
Variables B L C T : text.
Hypothesis HB : B <> [].
Hypothesis HBopen : Py.has_char "}" B = false.
Hypothesis HL : L <> [].
Hypothesis HLopen : Py.has_char ")" L = false.
Hypothesis HLin : Py.has_char "}" L = false.
Hypothesis HC : Py.startswith (lit ")") C = true.
Hypothesis HCin : Py.has_char "}" C = false.
Hypothesis Hlast : Py.str_in Re.files_open (List.tl Re.files_open ++ L ++ C) = false.

Let r : text := B ++ Re.files_open ++ L ++ C ++ "}"%char :: T.

Lemma block_run : Re.run_not "}" r = length B + (length Re.files_open + (length L + length C)).
Proof.
  subst r. rewrite (run_not_app _ B) by exact HBopen.
  rewrite (run_not_app _ Re.files_open) by reflexivity.
  rewrite (run_not_app _ L) by exact HLin.
  rewrite (run_not_app _ C) by exact HCin.
  rewrite run_not_here. lia.
Qed.

Lemma block_list_run : Re.run_not ")" (L ++ C ++ "}"%char :: T) = length L.
Proof.
  rewrite (run_not_app _ L) by exact HLopen.
  rewrite (startswith_inv _ _ HC). change (lit ")") with [")"%char].
  cbn [app]. rewrite run_not_here. lia.
Qed.

Lemma block_no_later (k : nat) :
  length B < k <= Re.run_not "}" r ->
  Py.startswith Re.files_open (drop k r) = false.
Proof.
  rewrite block_run. intros Hk. subst r.
  replace k with (length B + S (k - S (length B))) by lia.
  rewrite <- drop_drop, drop_app_length.
  change (Re.files_open ++ L ++ C ++ "}"%char :: T)
    with ("f"%char :: (List.tl Re.files_open ++ L ++ C ++ "}"%char :: T)).
  cbn [drop].
  replace (List.tl Re.files_open ++ L ++ C ++ "}"%char :: T)
    with ((List.tl Re.files_open ++ L ++ C) ++ "}"%char :: T)
    by (repeat rewrite <- app_assoc; reflexivity).
  rewrite drop_app_le.
  2: { rewrite !length_app. change (length Re.files_open) with 9 in Hk.
       change (length (List.tl Re.files_open)) with 8. lia. }
  rewrite startswith_sep by reflexivity.
  destruct (Py.startswith Re.files_open _) eqn:E; [|reflexivity].
  apply str_in_startswith, str_in_drop in E. rewrite Hlast in E. discriminate.
Qed.

Lemma block_match :
  Re.match_here (Re.phase_head ++ r) =
  Some (length (Re.phase_head ++ B ++ Re.files_open ++ L)).
Proof.
  rewrite match_here_head.
  rewrite (backtrack_found r (length B) (Re.run_not "}" r)).
  - subst r. rewrite drop_app_length, drop_app_length, block_list_run.
    cbn [fmap option_fmap option_map]. f_equal. rewrite !length_app. lia.
  - rewrite block_run. destruct B; [done|]. cbn [length]. lia.
  - subst r. rewrite drop_app_length. apply startswith_app.
  - subst r. rewrite drop_app_length, drop_app_length, block_list_run.
    destruct L; [done|]. cbn [length]. lia.
  - apply block_no_later.
Qed.

(** The reference goes behind the last entry of the file list. *)
Lemma insert_sources_phase_at (pre ref : text) :
  Py.str_in Re.phase_head (pre ++ removelast Re.phase_head) = false ->
  insert_sources_phase ref (pre ++ Re.phase_head ++ r) =
  pre ++ Re.phase_head ++ B ++ Re.files_open ++ L ++ [newline] ++ ref ++ C
      ++ "}"%char :: T.
Proof.
  intros Hfirst.
  rewrite (insert_sources_phase_found ref _
             (length pre + length (Re.phase_head ++ B ++ Re.files_open ++ L))).
  2: { apply search_sources_phase_first; [exact Hfirst | exact block_match]. }
  subst r.
  replace (pre ++ Re.phase_head ++ B ++ Re.files_open ++ L ++ C ++ "}"%char :: T)
    with ((pre ++ Re.phase_head ++ B ++ Re.files_open ++ L) ++ C ++ "}"%char :: T)
    by (norm; reflexivity).
  rewrite <- length_app, take_app_length, drop_app_length. norm. reflexivity.
Qed.
End Block.

Lemma has_char_app (c : ascii) (a b : text) :
  Py.has_char c (a ++ b) = Py.has_char c a || Py.has_char c b.
Proof. apply existsb_app. Qed.

(** *** One registration on a laid-out manifest *)

Section Registration.
Variable l : Layout.
Variables fr bf name : text.
Hypothesis Hl : well_laid_out l.
Hypothesis Hbf : minted bf.
Hypothesis Hfr : minted fr.
Hypothesis Hname : listed name.

Let entry := build_file_entry bf fr name.
Let fref := file_ref_entry fr name.
Let ref := build_file_ref bf name.
Let block := phase_body l ++ Re.files_open ++ file_list l ++ closing l
             ++ "}"%char :: tail l.

Lemma end_file_ref_still_first :
  Py.str_in end_file_ref
    ((build_files l ++ entry ++ [newline] ++ end_build_file ++ file_refs l)
     ++ removelast end_file_ref) = false.
Proof.
  destruct (markers_absent bf fr name Hbf Hfr Hname end_file_ref) as (He & _ & _); [auto|].
  subst entry. rewrite build_file_entry_tab in *. norm.
  apply (str_in_insert_line end_file_ref (build_files l)); try reflexivity; [exact He|].
  pose proof (end_file_ref_first l Hl) as H. revert H. norm. exact id.
Qed.

Lemma phase_head_still_first :
  Py.str_in Re.phase_head
    ((build_files l ++ entry ++ [newline] ++ end_build_file
      ++ file_refs l ++ fref ++ [newline] ++ end_file_ref ++ middle l)
     ++ removelast Re.phase_head) = false.
Proof.
  destruct (markers_absent bf fr name Hbf Hfr Hname Re.phase_head) as (He & Hf & _); [auto|].
  subst entry fref. rewrite build_file_entry_tab, file_ref_entry_tab in *. norm.
  apply (str_in_insert_line Re.phase_head (build_files l)); try reflexivity; [exact He|].
  replace (build_files l ++ end_build_file ++ file_refs l
           ++ tab :: List.tl (file_ref_entry fr name)
           ++ newline :: end_file_ref ++ middle l ++ removelast Re.phase_head)
    with ((build_files l ++ end_build_file ++ file_refs l)
          ++ (tab :: List.tl (file_ref_entry fr name)) ++ [newline]
          ++ end_file_ref ++ middle l ++ removelast Re.phase_head)
    by (norm; reflexivity).
  apply str_in_insert_line; try reflexivity; [exact Hf|].
  pose proof (phase_head_first l Hl) as H. revert H. norm. exact id.
Qed.

(** One file: on a laid-out manifest the three edits put the build file
    entry and the file reference entry in front of their end markers and
    the reference behind the file list, and change nothing else. *)
Lemma edited_layout : edited fr bf (assemble l) name = assemble (with_file l fr bf name).
Proof.
  unfold edited. fold entry fref ref.
  assert (E1 : insert_build_file entry (assemble l) =
               build_files l ++ entry ++ [newline] ++ end_build_file
               ++ file_refs l ++ end_file_ref ++ middle l ++ Re.phase_head ++ block).
  { unfold assemble. apply insert_build_file_at; apply Hl. }
  rewrite E1. clear E1.
  assert (E2 : insert_file_ref fref
                 (build_files l ++ entry ++ [newline] ++ end_build_file
                  ++ file_refs l ++ end_file_ref ++ middle l ++ Re.phase_head ++ block) =
               (build_files l ++ entry ++ [newline] ++ end_build_file ++ file_refs l)
               ++ fref ++ [newline] ++ end_file_ref ++ middle l ++ Re.phase_head ++ block).
  { etrans; [|apply insert_file_ref_at].
    - f_equal. norm. reflexivity.
    - do 4 apply str_in_app_r. apply Hl.
    - apply end_file_ref_still_first. }
  rewrite E2. clear E2.
  assert (E3 : insert_sources_phase ref
                 ((build_files l ++ entry ++ [newline] ++ end_build_file ++ file_refs l)
                  ++ fref ++ [newline] ++ end_file_ref ++ middle l
                  ++ Re.phase_head ++ block) =
               (build_files l ++ entry ++ [newline] ++ end_build_file
                ++ file_refs l ++ fref ++ [newline] ++ end_file_ref ++ middle l)
               ++ Re.phase_head ++ phase_body l ++ Re.files_open ++ file_list l
               ++ [newline] ++ ref ++ closing l ++ "}"%char :: tail l).
  { etrans; [|apply (insert_sources_phase_at (phase_body l) (file_list l) (closing l)
                      (tail l))].
    - f_equal. subst block. norm. reflexivity.
    - apply Hl.
    - apply Hl.
    - apply Hl.
    - apply Hl.
    - apply Hl.
    - apply Hl.
    - apply Hl.
    - apply Hl.
    - apply phase_head_still_first. }
  rewrite E3. clear E3.
  unfold assemble, with_file. cbn [build_files file_refs middle phase_body file_list
                                   closing tail].
  fold entry fref ref. norm. reflexivity.
Qed.

Lemma with_file_sublist : sublist (assemble l) (assemble (with_file l fr bf name)).
Proof. rewrite <- edited_layout. apply edited_sublist. Qed.

Lemma with_file_laid_out : well_laid_out (with_file l fr bf name).
Proof.
  destruct (markers_absent bf fr name Hbf Hfr Hname end_build_file) as (Hb1 & _ & _); [auto|].
  destruct (markers_absent bf fr name Hbf Hfr Hname Re.files_open) as (_ & _ & Hfo);
    [auto 6|].
  destruct (ref_open bf name Hbf Hname) as [Hrp Hrb].
  constructor; cbn [build_files file_refs middle phase_body file_list closing tail
                    with_file]; fold entry fref ref; try apply Hl.
  - apply str_in_app_l, Hl.
  - subst entry. rewrite build_file_entry_tab in *. norm.
    replace (build_files l ++ tab :: List.tl (build_file_entry bf fr name)
             ++ newline :: removelast end_build_file)
      with (build_files l ++ (tab :: List.tl (build_file_entry bf fr name))
            ++ [newline] ++ removelast end_build_file) by (norm; reflexivity).
    apply str_in_insert_line; try reflexivity; [exact Hb1 | apply Hl].
  - apply str_in_app_l, Hl.
  - pose proof (markers_absent bf fr name Hbf Hfr Hname end_file_ref) as (_ & Hf & _);
      [auto|].
    pose proof end_file_ref_still_first as H.
    subst fref. rewrite file_ref_entry_tab in *. revert H. norm. intros H.
    replace (build_files l ++ entry ++ newline :: end_build_file ++ file_refs l
             ++ tab :: List.tl (file_ref_entry fr name)
             ++ newline :: removelast end_file_ref)
      with ((build_files l ++ entry ++ newline :: end_build_file ++ file_refs l)
            ++ (tab :: List.tl (file_ref_entry fr name)) ++ [newline]
            ++ removelast end_file_ref) by (norm; reflexivity).
    apply str_in_insert_line; try reflexivity; [exact Hf|].
    norm. exact H.
  - pose proof phase_head_still_first as H. revert H. norm. exact id.
  - intros Hnil. apply app_eq_nil in Hnil as [Hnil _]. apply (file_list_some l Hl Hnil).
  - subst ref. rewrite !has_char_app, (file_list_open l Hl), Hrp. reflexivity.
  - subst ref. rewrite !has_char_app, (file_list_inside l Hl), Hrb. reflexivity.
  - subst ref. rewrite build_file_ref_comma in *. norm.
    replace (List.tl Re.files_open ++ file_list l
             ++ newline :: tab :: tab :: tab :: tab :: bf ++ lit " /* " ++ name
             ++ lit " in Sources */" ++ ","%char :: closing l)
      with ((List.tl Re.files_open ++ file_list l) ++ [newline]
            ++ (([tab; tab; tab; tab] ++ bf ++ lit " /* " ++ name
                 ++ lit " in Sources */") ++ [","%char]) ++ closing l)
      by (norm; reflexivity).
    apply str_in_insert_ref; try reflexivity; [exact Hfo|].
    norm. apply Hl.
Qed.
End Registration.

(** *** The run on a laid-out manifest *)

Lemma register_fresh (file_path file_name content : text) (w : World) :
  is_Some (files w !! file_path) ->
  Py.str_in file_name content = false ->
  exists es,
    register (file_path, file_name) content w =
      (Ok (edited (nth_id w 0) (nth_id w 1) content file_name),
       {| files := files w; urandom := urandom w; drawn := drawn w + 2; log := log w ++ es |}) /\
    writes es = [].
Proof.
  intros Hsome Hfresh. eexists. rewrite register_run.
  rewrite bool_decide_eq_true_2 by exact Hsome. rewrite Hfresh.
  rewrite Nat.add_comm. split; reflexivity.
Qed.

Lemma nth_id_later (w w' : World) (j k : nat) :
  urandom w' = urandom w -> drawn w' = drawn w + k -> nth_id w' j = nth_id w (k + j).
Proof.
  intros Hu Hd. unfold nth_id. rewrite Hu, Hd, Nat.add_assoc. reflexivity.
Qed.

Lemma listed_test_files (e : text * text) : e ∈ test_files -> listed e.2.
Proof. destruct e as [p n]. apply listed_names. Qed.

(** A listed name that is not in the text is not in it after another
    listed file was registered. *)
Lemma edited_keeps_fresh (N name fr bf content : text) :
  minted bf -> minted fr -> listed name -> listed N -> N <> name ->
  Py.str_in N content = false ->
  Py.str_in N (edited fr bf content name) = false.
Proof.
  intros Hbf Hfr Hname HN Hne Hfresh.
  destruct (other_name_absent bf fr name Hbf Hfr Hname N HN Hne) as (H1 & H2 & H3).
  apply edited_absent; try assumption;
    destruct HN as [->|[->| ->]]; reflexivity.
Qed.

Section Run.
Variable w : World.
Variable l : Layout.
Hypothesis Hl : well_laid_out l.
Hypothesis Hsources : forall e, e ∈ test_files -> is_Some (files w !! e.1).
Hypothesis Hfresh : forall e, e ∈ test_files -> Py.str_in e.2 (assemble l) = false.

Let l1 := with_file l (nth_id w 0) (nth_id w 1) (lit "DungeonTests.swift").
Let l2 := with_file l1 (nth_id w 2) (nth_id w 3) (lit "BossEncounterTests.swift").
Let l3 := with_file l2 (nth_id w 4) (nth_id w 5) (lit "SeasonTests.swift").

Lemma register_three :
  exists es,
    for_fold test_files register (assemble l) w =
      (Ok (assemble l3),
       {| files := files w; urandom := urandom w; drawn := drawn w + 6; log := log w ++ es |}) /\
    writes es = [].
Proof.
  assert (Hl1 : well_laid_out l1) by (apply with_file_laid_out; auto using nth_id_minted; unfold listed; auto).
  assert (Hl2 : well_laid_out l2) by (apply with_file_laid_out; auto using nth_id_minted; unfold listed; auto).
  assert (E1 : edited (nth_id w 0) (nth_id w 1) (assemble l) (lit "DungeonTests.swift")
               = assemble l1)
    by (apply edited_layout; auto using nth_id_minted; unfold listed; auto).
  assert (E2 : edited (nth_id w 2) (nth_id w 3) (assemble l1) (lit "BossEncounterTests.swift")
               = assemble l2)
    by (apply edited_layout; auto using nth_id_minted; unfold listed; auto).
  assert (E3 : edited (nth_id w 4) (nth_id w 5) (assemble l2) (lit "SeasonTests.swift")
               = assemble l3)
    by (apply edited_layout; auto using nth_id_minted; unfold listed; auto).
  pose (e1 := (lit "DungeonKitTests/ModelTests/DungeonTests.swift", lit "DungeonTests.swift")).
  pose (e2 := (lit "DungeonKitTests/ModelTests/BossEncounterTests.swift", lit "BossEncounterTests.swift")).
  pose (e3 := (lit "DungeonKitTests/ModelTests/SeasonTests.swift", lit "SeasonTests.swift")).
  assert (I1 : e1 ∈ test_files) by left.
  assert (I2 : e2 ∈ test_files) by (right; left).
  assert (I3 : e3 ∈ test_files) by (right; right; left).
  pose proof (Hfresh e1 I1) as F1. pose proof (Hfresh e2 I2) as F2.
  pose proof (Hfresh e3 I3) as F3. cbn [snd e1 e2 e3] in F1, F2, F3.
  pose proof (Hsources e1 I1) as S1. pose proof (Hsources e2 I2) as S2.
  pose proof (Hsources e3 I3) as S3. cbn [fst e1 e2 e3] in S1, S2, S3.
  clear I1 I2 I3. clearbody e1 e2 e3. clear e1 e2 e3.
  assert (F2' : Py.str_in (lit "BossEncounterTests.swift") (assemble l1) = false).
  { rewrite <- E1. apply edited_keeps_fresh; auto using nth_id_minted;
      unfold listed; auto; discriminate. }
  assert (F3' : Py.str_in (lit "SeasonTests.swift") (assemble l2) = false).
  { rewrite <- E2. apply edited_keeps_fresh; auto using nth_id_minted;
      unfold listed; auto; try discriminate.
    rewrite <- E1. apply edited_keeps_fresh; auto using nth_id_minted;
      unfold listed; auto; discriminate. }
  unfold test_files.
  destruct (register_fresh _ _ _ w S1 F1) as (es1 & R1 & W1).
  rewrite for_fold_cons, R1, E1.
  match goal with |- context [for_fold _ register _ ?x] => set (w1 := x) end.
  destruct (register_fresh _ _ (assemble l1) w1 S2 F2') as (es2 & R2 & W2).
  rewrite for_fold_cons, R2.
  rewrite (nth_id_later w w1 0 2), (nth_id_later w w1 1 2) by reflexivity.
  cbn [Nat.add]. rewrite E2.
  match goal with |- context [for_fold _ register _ ?x] => set (w2 := x) end.
  destruct (register_fresh _ _ (assemble l2) w2 S3 F3') as (es3 & R3 & W3).
  rewrite for_fold_cons, R3.
  rewrite (nth_id_later w w2 0 4), (nth_id_later w w2 1 4)
    by (subst w2 w1; cbn [urandom drawn]; first [reflexivity | lia]).
  cbn [Nat.add]. rewrite E3.
  exists (es1 ++ es2 ++ es3). split.
  - cbn [for_fold mret M_ret ret]. subst w2 w1. cbn [files urandom drawn log].
    rewrite <- !app_assoc.
    replace (drawn w + 2 + 2 + 2) with (drawn w + 6) by lia. reflexivity.
  - rewrite !writes_app, W1, W2, W3. reflexivity.
Qed.
End Run.




End EditFacts.

(** ** The model on sample inputs *)
Module Examples.
Import Scraper Patcher.

Example find_present : Py.find (lit "abcabc") (lit "ca") = 2%Z.
Proof. reflexivity. Qed.

Example find_absent : Py.find (lit "abc") (lit "x") = (-1)%Z.
Proof. reflexivity. Qed.

Example slice_negative :
  Py.slice_to (lit "abcdef") (-1) = lit "abcde" /\ Py.slice_from (lit "abcdef") (-1) = lit "f".
Proof. split; reflexivity. Qed.

Example uuid_str_sample :
  uuid_str (uuid4_int Fixtures.first_random) = lit "8f14e45f-ceea-467a-9b1d-3c2f10a4b6c8".
Proof. vm_compute. reflexivity. Qed.

Example uuid4_version_and_variant :
  uuid_str (uuid4_int (2 ^ 128 - 1)) = lit "ffffffff-ffff-4fff-bfff-ffffffffffff" /\
  uuid_str (uuid4_int 0) = lit "00000000-0000-4000-8000-000000000000".
Proof. split; vm_compute; reflexivity. Qed.

Example generate_uuid_sample :
  nth_id (Fixtures.world ∅) 0 = lit "8F14E45FCEEA467A9B1D3C2F".
Proof. vm_compute. reflexivity. Qed.

(** The section pattern needs the begin marker in front of the end marker. *)
Example search_between_order :
  Re.search_between (lit "<a>") (lit "<b>") (lit "x<a>y<b>z") = true /\
  Re.search_between (lit "<a>") (lit "<b>") (lit "x<b>y<a>z") = false.
Proof. split; reflexivity. Qed.

(** The greedy [[^}]+] goes to the closing brace and comes back to the
    last [files = (] of the block. *)
Example search_sources_phase_greedy :
  Re.search_sources_phase
    (Re.phase_head ++ lit " files = ( a ) files = ( b ) }; files = ( c )") = Some 69.
Proof. vm_compute. reflexivity. Qed.

(** A block with an empty file list does not match; the search goes on
    to the next one. *)
Example search_sources_phase_empty_list :
  Re.search_sources_phase
    (Re.phase_head ++ lit " files = () }; " ++ Re.phase_head ++ lit " files = ( c )")
  = Some 112.
Proof. vm_compute. reflexivity. Qed.

Example search_sources_phase_sample :
  Re.search_sources_phase Fixtures.sample_manifest = Some 655.
Proof. vm_compute. reflexivity. Qed.

(** The scraper finds nothing relevant at the first URL and stops at the
    second one. *)
Example scraper_falls_back :
  navigated Fixtures.irrelevant_then_full = [wowhead; icy_veins].
Proof. vm_compute. reflexivity. Qed.

(** After an error in the middle of the first page the scraper goes on
    to the second and the third URL. *)
Example scraper_goes_on_after_error :
  navigated Fixtures.partial_then_down = [wowhead; icy_veins; wowpedia].
Proof. vm_compute. reflexivity. Qed.

(** A record stored at the second URL before a link raised stays in the
    mapping next to the records of the third URL. *)
Example scraper_mixes_sources :
  navigated Fixtures.broken_then_full = [wowhead; icy_veins; wowpedia] /\
  exists d st,
    run Fixtures.broken_then_full = (Ok d, st) /\
    source <$> d !! lit "Ara-Kara" = Some icy_veins /\
    source <$> d !! lit "The Dawnbreaker" = Some wowpedia.
Proof.
  split; [vm_compute; reflexivity|].
  destruct (ScraperFacts.run_result Fixtures.broken_then_full) as (st & Hrun & _).
  eexists _, st. split; [exact Hrun|].
  rewrite !ScraperFacts.store_all_lookup. split; vm_compute; reflexivity.
Qed.

End Examples.

(** ** More on the scraper *)
Module ScraperMore.
Import Scraper EffFacts ScraperFacts.

(** *** The shape of a run *)

Lemma tried_prefix (b : Browser) (urls : list text) :
  exists n, tried b urls = take n urls /\ n <= length urls /\ (urls <> [] -> 1 <= n).
Proof.
  induction urls as [|u rest IH].
  - exists 0. split; [reflexivity|]. split; [reflexivity | done].
  - cbn [tried]. destruct (completes (b u)).
    + exists 1. split; [reflexivity|]. cbn [length]. split; [lia|]. intros _. lia.
    + destruct IH as (n & Hn & Hle & _). exists (S n). split.
      * cbn [take]. rewrite Hn. reflexivity.
      * cbn [length]. split; [lia|]. intros _. lia.
Qed.

(** What the loop over the URLs adds to the log: prints and navigations. *)
Lemma loop_log_quiet (b : Browser) (urls : list text) :
  preserves (fun st => Forall (fun e => e <> CloseBrowser) (log st))
            (for_in urls (try_url b)).
Proof.
  assert (Hemit : forall e, e <> CloseBrowser ->
            preserves (fun st => Forall (fun e => e <> CloseBrowser) (log st)) (emit e)).
  { intros e He [d l] Hl. cbn. apply Forall_app. split; [exact Hl|].
    constructor; [exact He | constructor]. }
  apply preserves_for_in. intros u _. apply preserves_try_except.
  - unfold attempt, print.
    repeat (apply preserves_bind;
            [first [apply Hemit; discriminate | apply preserves_await]|intros ?]).
    match goal with |- context [if ?c then _ else _] => destruct c end;
      [|apply preserves_ret].
    apply preserves_bind; [apply preserves_await|]. intros links.
    apply preserves_bind.
    { apply preserves_for_in. intros link _ [d l] Hl.
      rewrite visit_link_eq.
      destruct (inner_text link) as [t|]; [|exact Hl].
      destruct (get_attribute link (lit "href")); [|exact Hl].
      destruct (Py.any_in names t); exact Hl. }
    intros _. apply preserves_bind; [apply preserves_get|]. intros st.
    apply preserves_bind; [apply Hemit; discriminate|]. intros _. apply preserves_ret.
  - intros e. unfold on_error, print.
    apply preserves_bind; [apply Hemit; discriminate | intros; apply preserves_ret].
Qed.

(** X1.  Every run of the scraper that returns has navigated to the
    candidate URLs in their listed order, to the first one always and to
    no URL twice; it has closed the browser exactly once, after the last
    navigation; and the mapping it printed last is the mapping it
    returns. *)
Theorem returned_run_navigated_prefix_and_closed
    (b : Browser) (d : gmap text DungeonRecord) (st : St) :
  run b = (Ok d, st) ->
  exists n before,
    (1 <= n <= 3) /\
    navigated b = take n sources /\
    log st = before ++ [CloseBrowser;
                        Stdout ([newline] ++ lit "=== SCRAPED DUNGEON DATA ===");
                        StdoutJson d] /\
    (CloseBrowser ∉ before) /\
    navigations before = navigated b.
Proof.
  intros Hret.
  destruct (run_returns b) as (st0 & st' & Hloop & Hrun & Hlog).
  rewrite Hrun in Hret. injection Hret as <- <-.
  destruct (run_result b) as (st2 & Hrun2 & Hnav).
  destruct (tried_prefix b sources) as (n & Hn & Hle & Hpos).
  exists n, (log st').
  split; [split; [apply Hpos; discriminate | exact Hle]|].
  split; [rewrite Hnav; exact Hn|]. split; [exact Hlog|]. split.
  - pose proof (loop_log_quiet b sources initial) as Hquiet.
    rewrite Hloop in Hquiet. cbn [snd] in Hquiet.
    specialize (Hquiet ltac:(constructor)). rewrite Forall_forall in Hquiet.
    intros Hin. exact (Hquiet _ Hin eq_refl).
  - unfold navigated. rewrite Hrun. cbn [snd].
    change (navigations (log st') = navigations (log st0)).
    rewrite Hlog, navigations_app. cbn. rewrite app_nil_r. reflexivity.
Qed.

Lemma returned_run_navigated_prefix_and_closed_witness :
  run Fixtures.irrelevant_then_full
    = (Ok (dungeons_data (run Fixtures.irrelevant_then_full).2),
       (run Fixtures.irrelevant_then_full).2) /\
  exists n before,
    (1 <= n <= 3) /\
    navigated Fixtures.irrelevant_then_full = take n sources /\
    log (run Fixtures.irrelevant_then_full).2
      = before ++ [CloseBrowser;
                   Stdout ([newline] ++ lit "=== SCRAPED DUNGEON DATA ===");
                   StdoutJson (dungeons_data (run Fixtures.irrelevant_then_full).2)] /\
    (CloseBrowser ∉ before) /\
    navigations before = navigated Fixtures.irrelevant_then_full.
Proof.
  assert (H : run Fixtures.irrelevant_then_full
              = (Ok (dungeons_data (run Fixtures.irrelevant_then_full).2),
                 (run Fixtures.irrelevant_then_full).2)) by (vm_compute; reflexivity).
  split; [exact H|].
  exact (returned_run_navigated_prefix_and_closed Fixtures.irrelevant_then_full _ _ H).
Defined.

(** *** How much a run records *)

Lemma stored_length (u : text) (links : list ElementHandle) :
  length (stored u links) <= length links.
Proof.
  induction links as [|link rest IH]; cbn [stored length]; [lia|].
  destruct (inner_text link) as [t|]; [|cbn; lia].
  destruct (get_attribute link (lit "href")); [|cbn; lia].
  rewrite length_app. destruct (Py.any_in names t); cbn [length]; lia.
Qed.

Lemma page_stored_length (u : text) (pg : Page) : length (page_stored u pg) <= 5.
Proof.
  unfold page_stored.
  destruct (goto pg); [|cbn; lia]. destruct (content pg) as [c|]; [|cbn; lia].
  destruct (has_marker c); [|cbn; lia].
  destruct (query_selector_all pg dungeon_selector) as [links|]; [|cbn; lia].
  etrans; [apply stored_length|]. rewrite length_take. lia.
Qed.

Lemma store_all_size (d : gmap text DungeonRecord) (ins : list (text * DungeonRecord)) :
  size (store_all d ins) <= size d + length ins.
Proof.
  revert d. induction ins as [|[k r] ins IH]; intros d; cbn [store_all foldl length].
  - lia.
  - etrans; [apply IH|]. cbn [fst snd].
    destruct (d !! k) eqn:Hk.
    + rewrite map_size_insert_Some by eauto. lia.
    + rewrite map_size_insert_None by exact Hk. lia.
Qed.

(** X2.  A run records at most five entries per URL it navigates to: the
    returned mapping has at most [5 * n] entries after [n] navigations,
    so never more than fifteen. *)
Theorem at_most_five_records_per_url (b : Browser) :
  exists d st,
    run b = (Ok d, st) /\
    size d <= 5 * length (navigated b) /\
    size d <= 15.
Proof.
  destruct (run_result b) as (st & Hrun & Hnav).
  eexists _, st. split; [exact Hrun|].
  assert (Hsize : size (store_all ∅ (concat (map (fun u => page_stored u (b u))
                                                 (tried b sources))))
                  <= 5 * length (tried b sources)).
  { etrans; [apply store_all_size|]. rewrite map_size_empty. cbn [Nat.add].
    clear Hrun Hnav.
    induction (tried b sources) as [|u us IH]; cbn [map concat length]; [lia|].
    rewrite length_app. pose proof (page_stored_length u (b u)). lia. }
  rewrite Hnav. split; [exact Hsize|].
  assert (Hlen : length (tried b sources) <= 3).
  { destruct (tried_prefix b sources) as (n & -> & Hle & _).
    rewrite length_take. cbn [length sources] in *. lia. }
  lia.
Qed.

(** *** Where a record comes from *)

Lemma stored_origin (u : text) (links : list ElementHandle) :
  Forall (fun kr => exists link,
            link ∈ links /\ inner_text link = Ok kr.1 /\
            get_attribute link (lit "href") = Ok (url kr.2) /\ source kr.2 = u)
         (stored u links).
Proof.
  induction links as [|link rest IH]; cbn [stored]; [constructor|].
  destruct (inner_text link) as [t|] eqn:Ht; [|constructor].
  destruct (get_attribute link (lit "href")) as [h|] eqn:Hh; [|constructor].
  apply Forall_app. split.
  - destruct (Py.any_in names t); [|constructor].
    constructor; [|constructor]. exists link. cbn. split; [left|]. auto.
  - eapply Forall_impl; [exact IH|]. intros kr (l & Hl & H). exists l.
    split; [right; exact Hl | exact H].
Qed.

(** X3.  Every entry of the returned mapping comes from a link of the
    page it names as its source: among the first five links the selector
    gave on that page there is one whose inner text is the entry's key and
    whose href attribute is the entry's ['url']. *)
Theorem every_record_has_its_link (b : Browser) :
  exists d st,
    run b = (Ok d, st) /\
    map_Forall
      (fun k r =>
         exists links link,
           query_selector_all (b (source r)) dungeon_selector = Ok links /\
           link ∈ take 5 links /\
           inner_text link = Ok k /\
           get_attribute link (lit "href") = Ok (url r))
      d.
Proof.
  destruct (run_result b) as (st & Hrun & _).
  eexists _, st. split; [exact Hrun|].
  apply store_all_Forall; [apply map_Forall_empty|].
  apply Forall_concat, Forall_map, Forall_forall. intros u _.
  unfold page_stored.
  destruct (goto (b u)); [|constructor].
  destruct (content (b u)) as [c|]; [|constructor].
  destruct (has_marker c); [|constructor].
  destruct (query_selector_all (b u) dungeon_selector) as [links|] eqn:Hq; [|constructor].
  eapply Forall_impl; [apply stored_origin|].
  intros [k r] (link & Hin & Ht & Hh & Hs). cbn [fst snd] in *.
  exists links, link. rewrite Hs. auto.
Qed.

(** *** Records of earlier URLs *)

(** X4.  Processing a URL never removes a record: under each key the
    mapping holds, afterwards, the last record this URL stored under that
    key, and what it held before when this URL stored none, also when the
    processing ended in an error. *)
Theorem records_carry_over (b : Browser) (u k : text) (s : St) :
  dungeons_data (try_url b u s).2 !! k =
  match last (filter (fun kr => kr.1 = k) (page_stored u (b u))) with
  | Some kr => Some kr.2
  | None => dungeons_data s !! k
  end.
Proof.
  destruct (try_url_run b u s) as (Hd & _ & _). rewrite Hd. apply store_all_lookup.
Qed.

End ScraperMore.

(** ** More on the regular expressions *)
Module ReMore.
Import PyFacts ReFacts.

Lemma run_not_drop (c : ascii) (s : text) :
  drop (Re.run_not c s) s = [] \/ exists r, drop (Re.run_not c s) s = c :: r.
Proof.
  induction s as [|x s IH]; [left; reflexivity|].
  cbn [Re.run_not]. destruct (Ascii.eqb_spec x c) as [->|_].
  - right. exists s. reflexivity.
  - exact IH.
Qed.

Lemma run_not_take (c : ascii) (s : text) :
  Py.has_char c (take (Re.run_not c s) s) = false.
Proof.
  induction s as [|x s IH]; [reflexivity|].
  cbn [Re.run_not]. destruct (Ascii.eqb_spec x c) as [->|Hne]; [reflexivity|].
  cbn. rewrite Ascii.eqb_sym. apply Ascii.eqb_neq in Hne. rewrite Hne. exact IH.
Qed.

Lemma has_char_take (c : ascii) (s : text) (n m : nat) :
  n <= m -> Py.has_char c (take m s) = false -> Py.has_char c (take n s) = false.
Proof.
  intros Hle H. unfold Py.has_char in *.
  rewrite <- (Nat.min_l n m Hle), <- take_take.
  rewrite <- (take_drop n (take m s)) in H. rewrite existsb_app in H.
  apply orb_false_elim in H as [H _]. exact H.
Qed.

(** What backtracking returns is a place where [files = (] stands in
    front of at least one character other than [)]. *)
Lemma backtrack_inv (k : nat) (r : text) (e : nat) :
  Re.backtrack k r = Some e ->
  exists k0,
    1 <= k0 <= k /\
    Py.startswith Re.files_open (drop k0 r) = true /\
    0 < Re.run_not ")" (drop (length Re.files_open) (drop k0 r)) /\
    e = k0 + length Re.files_open
        + Re.run_not ")" (drop (length Re.files_open) (drop k0 r)).
Proof.
  induction k as [|k IH]; cbn [Re.backtrack]; [discriminate|].
  destruct (Py.startswith Re.files_open (drop (S k) r)) eqn:Hfo; cbn [andb].
  - destruct (0 <? Re.run_not ")" (drop (length Re.files_open) (drop (S k) r))) eqn:Hrun.
    + intros [= <-]. exists (S k). apply Nat.ltb_lt in Hrun. repeat split; auto; lia.
    + intros H. destruct (IH H) as (k0 & ? & ? & ? & ?). exists k0. repeat split; auto; lia.
  - intros H. destruct (IH H) as (k0 & ? & ? & ? & ?). exists k0. repeat split; auto; lia.
Qed.

(** A match of the build phase pattern at the start of [s] cuts [s] into
    the head, a body without a closing brace, [files = (], a list without
    a closing parenthesis, and a rest that is empty or starts with one. *)
Lemma match_here_inv (s : text) (e : nat) :
  Re.match_here s = Some e ->
  exists body lst post,
    s = Re.phase_head ++ body ++ Re.files_open ++ lst ++ post /\
    body <> [] /\ Py.has_char "}" body = false /\
    lst <> [] /\ Py.has_char ")" lst = false /\
    (post = [] \/ exists r, post = ")"%char :: r) /\
    e = length (Re.phase_head ++ body ++ Re.files_open ++ lst).
Proof.
  unfold Re.match_here. destruct (Py.startswith Re.phase_head s) eqn:Hhead; [|discriminate].
  set (r := drop (length Re.phase_head) s).
  destruct (Re.backtrack (Re.run_not "}" r) r) as [e0|] eqn:Hback; [|discriminate].
  intros He.
  assert (e = length Re.phase_head + e0) as ->
    by (cbn in He; injection He as <-; reflexivity).
  clear He.
  destruct (backtrack_inv _ _ _ Hback) as (k0 & Hk & Hfo & Hrun & ->).
  set (t := drop (length Re.files_open) (drop k0 r)) in *.
  pose proof (run_not_le "}" r) as Hle.
  exists (take k0 r), (take (Re.run_not ")" t) t), (drop (Re.run_not ")" t) t).
  split.
  { rewrite (startswith_inv _ _ Hhead) at 1. fold r. f_equal.
    rewrite <- (take_drop k0 r) at 1. f_equal.
    rewrite (startswith_inv _ _ Hfo) at 1. fold t. f_equal.
    symmetry. apply take_drop. }
  split.
  { intros Hnil. apply (f_equal length) in Hnil. rewrite length_take in Hnil.
    cbn in Hnil. lia. }
  split; [apply (has_char_take _ _ k0 (Re.run_not "}" r)); [lia | apply run_not_take]|].
  split.
  { intros Hnil. apply (f_equal length) in Hnil. rewrite length_take in Hnil.
    pose proof (run_not_le ")" t). cbn in Hnil. lia. }
  split; [apply run_not_take|].
  split; [apply run_not_drop|].
  rewrite !length_app, !length_take.
  pose proof (run_not_le ")" t). lia.
Qed.

Lemma search_sources_phase_inv (s : text) (e : nat) :
  Re.search_sources_phase s = Some e ->
  exists pre body lst post,
    s = pre ++ Re.phase_head ++ body ++ Re.files_open ++ lst ++ post /\
    body <> [] /\ Py.has_char "}" body = false /\
    lst <> [] /\ Py.has_char ")" lst = false /\
    (post = [] \/ exists r, post = ")"%char :: r) /\
    e = length (pre ++ Re.phase_head ++ body ++ Re.files_open ++ lst).
Proof.
  revert e. induction s as [|x s IH]; intros e; cbn [Re.search_sources_phase].
  - destruct (Re.match_here []) as [e0|] eqn:Hm; [|discriminate].
    intros [= <-]. destruct (match_here_inv _ _ Hm) as (body & lst & post & H).
    exists [], body, lst, post. exact H.
  - destruct (Re.match_here (x :: s)) as [e0|] eqn:Hm.
    + intros [= <-]. destruct (match_here_inv _ _ Hm) as (body & lst & post & H).
      exists [], body, lst, post. exact H.
    + destruct (Re.search_sources_phase s) as [e1|] eqn:Hs; [|discriminate].
      cbn. intros [= <-].
      destruct (IH e1 eq_refl) as (pre & body & lst & post & -> & H1 & H2 & H3 & H4 & H5 & ->).
      exists (x :: pre), body, lst, post. repeat split; auto.
Qed.

End ReMore.

(** ** More on the patcher: where the edits land *)
Module EditMore.
Import Patcher EffFacts PyFacts ReFacts ReMore IdFacts PatcherFacts EditFacts.

(** *** The inserted lines carry the file name *)

Lemma name_in_build_file_entry (bf fr name : text) :
  Py.str_in name (build_file_entry bf fr name) = true.
Proof.
  unfold build_file_entry. do 3 apply str_in_app_r. apply (str_in_intro name []).
Qed.

Lemma name_in_file_ref_entry (fr name : text) :
  Py.str_in name (file_ref_entry fr name) = true.
Proof.
  unfold file_ref_entry. do 3 apply str_in_app_r. apply (str_in_intro name []).
Qed.

Lemma name_in_build_file_ref (bf name : text) :
  Py.str_in name (build_file_ref bf name) = true.
Proof.
  unfold build_file_ref. do 3 apply str_in_app_r. apply (str_in_intro name []).
Qed.

(** *** Where a section entry goes *)

Lemma section_entry_position (o c entry content : text) :
  c <> [] ->
  Re.search_between o c content = true ->
  exists a b,
    content = a ++ c ++ b /\
    Py.str_in c (a ++ removelast c) = false /\
    Py.slice_to content (Py.find content c) ++ entry ++ [newline]
      ++ Py.slice_from content (Py.find content c)
    = a ++ entry ++ [newline] ++ c ++ b.
Proof.
  intros Hc Hsearch. destruct (search_between_elim _ _ _ Hsearch) as [_ Hend].
  destruct (first_occurrence c content Hc Hend) as (a & b & -> & Hfirst).
  exists a, b. split; [reflexivity|]. split; [exact Hfirst|].
  apply section_insert, Hfirst.
Qed.

(** X5.  When the pattern of a section matches the manifest, the entry
    and a newline are put directly in front of the first end marker of
    that section in the whole text, wherever the begin marker stands,
    and nothing else changes; this holds for the build file section and
    for the file reference section. *)
Theorem entry_goes_before_first_end_marker (entry content : text) :
  (Re.search_between begin_build_file end_build_file content = true ->
   exists a b,
     content = a ++ end_build_file ++ b /\
     Py.str_in end_build_file (a ++ removelast end_build_file) = false /\
     insert_build_file entry content = a ++ entry ++ [newline] ++ end_build_file ++ b) /\
  (Re.search_between begin_file_ref end_file_ref content = true ->
   exists a b,
     content = a ++ end_file_ref ++ b /\
     Py.str_in end_file_ref (a ++ removelast end_file_ref) = false /\
     insert_file_ref entry content = a ++ entry ++ [newline] ++ end_file_ref ++ b).
Proof.
  split; intros Hsearch.
  - unfold insert_build_file. rewrite Hsearch.
    apply (section_entry_position begin_build_file); [discriminate | exact Hsearch].
  - unfold insert_file_ref. rewrite Hsearch.
    apply (section_entry_position begin_file_ref); [discriminate | exact Hsearch].
Qed.

Lemma entry_goes_before_first_end_marker_witness :
  Re.search_between begin_build_file end_build_file Fixtures.end_markers_first = true /\
  Re.search_between begin_file_ref end_file_ref Fixtures.end_markers_first = true /\
  (exists a b,
     Fixtures.end_markers_first = a ++ end_build_file ++ b /\
     Py.str_in end_build_file (a ++ removelast end_build_file) = false /\
     insert_build_file (lit "entry") Fixtures.end_markers_first
     = a ++ lit "entry" ++ [newline] ++ end_build_file ++ b) /\
  (exists a b,
     Fixtures.end_markers_first = a ++ end_file_ref ++ b /\
     Py.str_in end_file_ref (a ++ removelast end_file_ref) = false /\
     insert_file_ref (lit "entry") Fixtures.end_markers_first
     = a ++ lit "entry" ++ [newline] ++ end_file_ref ++ b).
Proof.
  assert (H1 : Re.search_between begin_build_file end_build_file
                 Fixtures.end_markers_first = true) by (vm_compute; reflexivity).
  assert (H2 : Re.search_between begin_file_ref end_file_ref
                 Fixtures.end_markers_first = true) by (vm_compute; reflexivity).
  destruct (entry_goes_before_first_end_marker (lit "entry") Fixtures.end_markers_first)
    as [Hb Hf].
  split; [exact H1|]. split; [exact H2|]. split; [exact (Hb H1) | exact (Hf H2)].
Defined.

(** *** Where a build phase reference goes *)

(** X6.  When the build phase pattern matches, the manifest reads: some
    text, the head of the test target's Sources phase, a non-empty body
    without closing brace, [files = (], a non-empty file list without
    closing parenthesis, and a rest that is empty or starts with the
    closing parenthesis; the reference goes, after a newline, between
    the file list and that rest, and nothing else changes. *)
Theorem reference_goes_to_end_of_file_list (ref content : text) :
  Re.search_sources_phase content <> None ->
  exists pre body lst post,
    content = pre ++ Re.phase_head ++ body ++ Re.files_open ++ lst ++ post /\
    body <> [] /\ Py.has_char "}" body = false /\
    lst <> [] /\ Py.has_char ")" lst = false /\
    (post = [] \/ exists r, post = ")"%char :: r) /\
    insert_sources_phase ref content
    = pre ++ Re.phase_head ++ body ++ Re.files_open ++ lst ++ [newline] ++ ref ++ post.
Proof.
  intros Hsome. destruct (Re.search_sources_phase content) as [e|] eqn:Hs; [|done].
  destruct (search_sources_phase_inv _ _ Hs)
    as (pre & body & lst & post & Hc & Hb1 & Hb2 & Hl1 & Hl2 & Hpost & He).
  exists pre, body, lst, post. repeat (split; [assumption|]).
  rewrite (insert_sources_phase_found _ _ _ Hs), He.
  assert (Hcut : content
                 = (pre ++ Re.phase_head ++ body ++ Re.files_open ++ lst) ++ post)
    by (rewrite Hc, <- !app_assoc; reflexivity).
  rewrite Hcut at 1 2. rewrite take_app_length, drop_app_length.
  rewrite <- !app_assoc. reflexivity.
Qed.

Lemma reference_goes_to_end_of_file_list_witness :
  Re.search_sources_phase Fixtures.sample_manifest <> None /\
  exists pre body lst post,
    Fixtures.sample_manifest
    = pre ++ Re.phase_head ++ body ++ Re.files_open ++ lst ++ post /\
    body <> [] /\ Py.has_char "}" body = false /\
    lst <> [] /\ Py.has_char ")" lst = false /\
    (post = [] \/ exists r, post = ")"%char :: r) /\
    insert_sources_phase (lit "ref") Fixtures.sample_manifest
    = pre ++ Re.phase_head ++ body ++ Re.files_open ++ lst ++ [newline] ++ lit "ref" ++ post.
Proof.
  assert (H : Re.search_sources_phase Fixtures.sample_manifest <> None)
    by (vm_compute; discriminate).
  split; [exact H|].
  exact (reference_goes_to_end_of_file_list (lit "ref") Fixtures.sample_manifest H).
Defined.

Lemma reference_position (ref content : text) (e : nat) :
  Re.search_sources_phase content = Some e ->
  exists p post,
    content = p ++ post /\
    (post = [] \/ exists r, post = ")"%char :: r) /\
    insert_sources_phase ref content = p ++ [newline] ++ ref ++ post.
Proof.
  intros Hs.
  destruct (search_sources_phase_inv _ _ Hs)
    as (pre & body & lst & post & Hc & _ & _ & _ & _ & Hpost & He).
  exists (pre ++ Re.phase_head ++ body ++ Re.files_open ++ lst), post.
  assert (Hcut : content
                 = (pre ++ Re.phase_head ++ body ++ Re.files_open ++ lst) ++ post)
    by (rewrite Hc, <- !app_assoc; reflexivity).
  split; [exact Hcut|]. split; [exact Hpost|].
  rewrite (insert_sources_phase_found _ _ _ Hs), He.
  rewrite Hcut at 1 2. rewrite take_app_length, drop_app_length. reflexivity.
Qed.

(** *** An edit either does nothing or leaves the name *)

Lemma edited_cases (fr bf content name : text) :
  (Re.search_between begin_build_file end_build_file content = false /\
   Re.search_between begin_file_ref end_file_ref content = false /\
   Re.search_sources_phase content = None /\
   edited fr bf content name = content) \/
  Py.str_in name (edited fr bf content name) = true.
Proof.
  unfold edited.
  set (c1 := insert_build_file (build_file_entry bf fr name) content).
  set (c2 := insert_file_ref (file_ref_entry fr name) c1).
  destruct (Re.search_sources_phase c2) as [e|] eqn:Hs.
  { right. rewrite (insert_sources_phase_found _ _ _ Hs).
    apply str_in_app_r, str_in_app_r, str_in_app_l, name_in_build_file_ref. }
  assert (H3 : insert_sources_phase (build_file_ref bf name) c2 = c2)
    by (unfold insert_sources_phase; rewrite Hs; reflexivity).
  rewrite H3.
  destruct (Re.search_between begin_file_ref end_file_ref c1) eqn:Hfr.
  { right. subst c2. unfold insert_file_ref. rewrite Hfr.
    apply str_in_app_r, str_in_app_l, name_in_file_ref_entry. }
  assert (H2 : c2 = c1) by (subst c2; unfold insert_file_ref; rewrite Hfr; reflexivity).
  rewrite H2 in *.
  destruct (Re.search_between begin_build_file end_build_file content) eqn:Hbf.
  { right. subst c1. unfold insert_build_file. rewrite Hbf.
    apply str_in_app_r, str_in_app_l, name_in_build_file_entry. }
  assert (H1 : c1 = content)
    by (subst c1; unfold insert_build_file; rewrite Hbf; reflexivity).
  rewrite H1 in *. left. auto.
Qed.

Lemma edited_nothing_found (fr bf content name : text) :
  Re.search_between begin_build_file end_build_file content = false ->
  Re.search_between begin_file_ref end_file_ref content = false ->
  Re.search_sources_phase content = None ->
  edited fr bf content name = content.
Proof.
  intros H1 H2 H3. unfold edited, insert_build_file. rewrite H1.
  unfold insert_file_ref. rewrite H2. unfold insert_sources_phase. rewrite H3.
  reflexivity.
Qed.


(** *** Inserting never cuts a file name *)

Lemma insert_keeps (N a ins b : text) (x : ascii) :
  Py.has_char x N = false ->
  Py.str_in N (a ++ x :: b) = true ->
  Py.str_in N (a ++ ins ++ x :: b) = true.
Proof.
  intros Hx H. rewrite (str_in_sep N a b x Hx) in H.
  apply orb_true_iff in H as [H|H].
  - apply str_in_app_l, H.
  - apply str_in_app_r, str_in_app_r.
    change (x :: b) with ([x] ++ b). apply str_in_app_r, H.
Qed.

Lemma insert_build_file_keeps (N entry content : text) :
  Py.has_char "/" N = false ->
  Py.str_in N content = true ->
  Py.str_in N (insert_build_file entry content) = true.
Proof.
  intros Hx H. unfold insert_build_file.
  destruct (Re.search_between begin_build_file end_build_file content) eqn:Hs; [|exact H].
  destruct (section_entry_position begin_build_file end_build_file entry content)
    as (a & b & -> & _ & ->); [discriminate | exact Hs |].
  rewrite (app_assoc entry). apply (insert_keeps N a _ _ "/" Hx H).
Qed.

Lemma insert_file_ref_keeps (N entry content : text) :
  Py.has_char "/" N = false ->
  Py.str_in N content = true ->
  Py.str_in N (insert_file_ref entry content) = true.
Proof.
  intros Hx H. unfold insert_file_ref.
  destruct (Re.search_between begin_file_ref end_file_ref content) eqn:Hs; [|exact H].
  destruct (section_entry_position begin_file_ref end_file_ref entry content)
    as (a & b & -> & _ & ->); [discriminate | exact Hs |].
  rewrite (app_assoc entry). apply (insert_keeps N a _ _ "/" Hx H).
Qed.

Lemma insert_sources_phase_keeps (N ref content : text) :
  Py.has_char ")" N = false ->
  Py.str_in N content = true ->
  Py.str_in N (insert_sources_phase ref content) = true.
Proof.
  intros Hx H.
  destruct (Re.search_sources_phase content) as [e|] eqn:Hs;
    [|unfold insert_sources_phase; rewrite Hs; exact H].
  destruct (reference_position ref content e Hs) as (p & post & -> & Hpost & ->).
  destruct Hpost as [->|[r ->]].
  - rewrite app_nil_r in *. apply str_in_app_l, H.
  - rewrite (app_assoc [newline]). apply (insert_keeps N p _ _ ")" Hx H).
Qed.

End EditMore.

(** ** More on the patcher: the run as a whole *)
Module MainMore.
Import Patcher EffFacts PyFacts ReFacts ReMore IdFacts PatcherFacts EditFacts EditMore.

Lemma edited_keeps (N fr bf content name : text) :
  Py.has_char "/" N = false -> Py.has_char ")" N = false ->
  Py.str_in N content = true ->
  Py.str_in N (edited fr bf content name) = true.
Proof.
  intros Hs Hp H. unfold edited.
  apply insert_sources_phase_keeps, insert_file_ref_keeps, insert_build_file_keeps; assumption.
Qed.

(** X10.  A text without [/] and [)], such as the name of a listed
    file, that occurs in the manifest still occurs in what
    [add_file_to_project] returns: no insertion lands inside it. *)
Theorem add_file_to_project_keeps_names
  (N content file_path file_name : text) (w : World) :
  Py.has_char "/" N = false -> Py.has_char ")" N = false ->
  Py.str_in N content = true ->
  exists out w',
    add_file_to_project content file_path file_name w = (Ok out, w') /\
    Py.str_in N out = true.
Proof.
  intros Hs Hp H. eexists _, _. split; [apply add_file_to_project_run|].
  apply edited_keeps; assumption.
Qed.

Lemma add_file_to_project_keeps_names_witness :
  Py.str_in (lit "HealerKitTests.swift") Fixtures.sample_manifest = true /\
  exists out w',
    add_file_to_project Fixtures.sample_manifest Fixtures.dungeon_tests
      (lit "DungeonTests.swift") (Fixtures.world Fixtures.sources_only) = (Ok out, w') /\
    Py.str_in (lit "HealerKitTests.swift") out = true.
Proof.
  assert (H : Py.str_in (lit "HealerKitTests.swift") Fixtures.sample_manifest = true)
    by (vm_compute; reflexivity).
  split; [exact H|].
  refine (add_file_to_project_keeps_names (lit "HealerKitTests.swift")
            Fixtures.sample_manifest Fixtures.dungeon_tests (lit "DungeonTests.swift")
            (Fixtures.world Fixtures.sources_only) _ _ H); reflexivity.
Defined.

(** *** One entry and the loop *)

Lemma register_cases (e : text * text) (content : text) (w : World) :
  exists c1 w1,
    register e content w = (Ok c1, w1) /\
    files w1 = files w /\ urandom w1 = urandom w /\
    writes (log w1) = writes (log w) /\
    ((c1 = content /\ drawn w1 = drawn w /\
      (files w !! e.1 = None \/ Py.str_in e.2 content = true)) \/
     (is_Some (files w !! e.1) /\ Py.str_in e.2 content = false /\
      drawn w1 = S (S (drawn w)) /\
      exists fr bf, c1 = edited fr bf content e.2)).
Proof.
  destruct e as [p n]. rewrite register_run. cbn [fst snd].
  destruct (bool_decide (is_Some (files w !! p))) eqn:Hex.
  - apply bool_decide_eq_true_1 in Hex.
    destruct (Py.str_in n content) eqn:Hin.
    + eexists _, _. split; [reflexivity|]. cbn [files urandom drawn log logged].
      rewrite writes_app, app_nil_r. repeat split. left. auto.
    + eexists _, _. split; [reflexivity|]. cbn [files urandom drawn log].
      rewrite writes_app, app_nil_r. repeat split. right. repeat split; eauto.
  - apply bool_decide_eq_false_1 in Hex.
    eexists _, _. split; [reflexivity|]. cbn [files urandom drawn log logged].
    rewrite writes_app, app_nil_r. repeat split. left. repeat split.
    left. destruct (files w !! p); [exfalso; apply Hex; eauto | reflexivity].
Qed.

Lemma register_all_cases (entries : list (text * text)) (content : text) (w : World) :
  exists c' w',
    for_fold entries register content w = (Ok c', w') /\
    files w' = files w /\ urandom w' = urandom w /\
    writes (log w') = writes (log w) /\
    sublist content c' /\
    drawn w <= drawn w' <= drawn w + 2 * length entries.
Proof.
  revert content w. induction entries as [|e entries IH]; intros content w.
  - exists content, w. cbn [length]. repeat split; auto; lia.
  - destruct (register_cases e content w) as (c1 & w1 & Hrun & Hf & Hu & Hw & Hcase).
    destruct (IH c1 w1) as (c' & w' & Hrest & Hf' & Hu' & Hw' & Hsub & Hd).
    exists c', w'. rewrite for_fold_cons, Hrun. split; [exact Hrest|].
    split; [congruence|]. split; [congruence|]. split; [congruence|].
    assert (sublist content c1 /\ drawn w <= drawn w1 <= drawn w + 2) as [Hs1 Hd1].
    { destruct Hcase as [(-> & -> & _)|(_ & _ & -> & fr & bf & ->)].
      - split; [reflexivity | lia].
      - split; [apply edited_sublist | lia]. }
    split; [etrans; eassumption|]. cbn [length]. lia.
Qed.

(** A file name without [/] and [)] that occurs in the text still
    occurs after the loop. *)
Lemma register_all_keeps (N : text) (entries : list (text * text)) :
  Py.has_char "/" N = false -> Py.has_char ")" N = false ->
  forall content w c' w',
    Py.str_in N content = true ->
    for_fold entries register content w = (Ok c', w') ->
    Py.str_in N c' = true.
Proof.
  intros Hs Hp. induction entries as [|e entries IH]; intros content w c' w' Hin Hrun.
  - injection Hrun as <- _. exact Hin.
  - destruct (register_cases e content w) as (c1 & w1 & Hstep & _ & _ & _ & Hcase).
    rewrite for_fold_cons, Hstep in Hrun.
    apply (IH c1 w1 c' w'); [|exact Hrun].
    destruct Hcase as [(-> & _)|(_ & _ & _ & fr & bf & ->)]; [exact Hin|].
    apply edited_keeps; assumption.
Qed.

(** On a text in which none of the three patterns matches the loop
    changes nothing. *)
Lemma register_all_nothing_found (entries : list (text * text)) (content : text) :
  Re.search_between begin_build_file end_build_file content = false ->
  Re.search_between begin_file_ref end_file_ref content = false ->
  Re.search_sources_phase content = None ->
  forall w, exists w',
    for_fold entries register content w = (Ok content, w') /\ files w' = files w.
Proof.
  intros H1 H2 H3. induction entries as [|e entries IH]; intros w.
  - exists w. split; reflexivity.
  - destruct (register_cases e content w) as (c1 & w1 & Hstep & Hf & _ & _ & Hcase).
    assert (c1 = content) as ->.
    { destruct Hcase as [(-> & _)|(_ & _ & _ & fr & bf & ->)]; [reflexivity|].
      apply edited_nothing_found; assumption. }
    destruct (IH w1) as (w' & Hrest & Hf').
    exists w'. rewrite for_fold_cons, Hstep. split; [exact Hrest | congruence].
Qed.

(** The text the loop returns is a fixed point of the loop, in any
    world that has the same source files. *)
Lemma register_all_again (entries : list (text * text)) :
  Forall (fun e => Py.has_char "/" e.2 = false /\ Py.has_char ")" e.2 = false) entries ->
  forall content w c' w' w2,
    for_fold entries register content w = (Ok c', w') ->
    (forall e, e ∈ entries -> files w2 !! e.1 = None <-> files w !! e.1 = None) ->
    exists w2', for_fold entries register c' w2 = (Ok c', w2') /\ files w2' = files w2.
Proof.
  induction 1 as [|e entries [Hs Hp] Hnames IH]; intros content w c' w' w2 Hrun Hsame.
  - exists w2. split; reflexivity.
  - destruct (register_cases e content w) as (c1 & w1 & Hstep & Hf1 & _ & _ & Hcase).
    rewrite for_fold_cons, Hstep in Hrun.
    destruct (register_cases e c' w2) as (c2 & w3 & Hstep2 & Hf3 & _ & _ & Hcase2).
    assert (c2 = c') as ->.
    { destruct Hcase2 as [(-> & _)|(Hex2 & Hout & _ & fr2 & bf2 & ->)]; [reflexivity|].
      assert (Hex : files w !! e.1 <> None).
      { intros Hnone. apply (Hsame e) in Hnone; [|left].
        rewrite Hnone in Hex2. by apply is_Some_None in Hex2. }
      destruct Hcase as [(-> & _ & [Hnone|Hin])|(_ & _ & _ & fr & bf & ->)].
      - done.
      - rewrite (register_all_keeps e.2 entries Hs Hp _ _ _ _ Hin Hrun) in Hout.
        discriminate.
      - destruct (edited_cases fr bf content e.2) as [(H1 & H2 & H3 & Hid)|Hin].
        + rewrite Hid in Hrun.
          destruct (register_all_nothing_found entries content H1 H2 H3 w1)
            as (w4 & Hrun' & _).
          rewrite Hrun' in Hrun. injection Hrun as <- _.
          apply edited_nothing_found; assumption.
        + rewrite (register_all_keeps e.2 entries Hs Hp _ _ _ _ Hin Hrun) in Hout.
          discriminate. }
    destruct (IH c1 w1 c' w' w3 Hrun) as (w2' & Hrest & Hf2').
    { intros e' He'. rewrite Hf3, Hf1. apply Hsame. right. exact He'. }
    exists w2'. rewrite for_fold_cons, Hstep2. split; [exact Hrest | congruence].
Qed.

(** *** [main] *)

Lemma main_eq (w : World) (m c : text) (w1 : World) :
  files w !! PROJECT_FILE = Some m ->
  for_fold test_files register m
    (logged w [PathExists PROJECT_FILE; ReadFile PROJECT_FILE]) = (Ok c, w1) ->
  exists tail,
    main w = (Ok tt, {| files := <[PROJECT_FILE := c]> (files w1); urandom := urandom w1;
                        drawn := drawn w1;
                        log := log w1 ++ WriteFile PROJECT_FILE c :: tail |}) /\
    writes tail = [].
Proof.
  intros Hm Hrun. eexists. split.
  - unfold main. erewrite bind_ok by apply os_path_exists_run.
    rewrite bool_decide_eq_true_2 by (rewrite Hm; eauto). cbn [negb].
    erewrite bind_ok by (apply read_project_file_run; exact Hm).
    rewrite logged_logged. cbn [app].
    erewrite bind_ok by exact Hrun.
    unfold write_project_file, print, emit. unfold_monad. cbn [files urandom drawn log].
    rewrite <- !app_assoc. cbn [app]. reflexivity.
  - reflexivity.
Qed.

Lemma test_files_names :
  Forall (fun e => Py.has_char "/" e.2 = false /\ Py.has_char ")" e.2 = false) test_files.
Proof. repeat (apply Forall_cons_2; [split; reflexivity|]). apply Forall_nil_2. Qed.

Lemma test_files_paths (e : text * text) : e ∈ test_files -> e.1 <> PROJECT_FILE.
Proof.
  intros He. repeat (apply elem_of_cons in He as [->|He]; [discriminate|]).
  by apply elem_of_nil in He.
Qed.



(** X9.  When the manifest is there and is read as a text (and can be
    written back, so that the next run reads what this one wrote),
    running the patcher a second time changes nothing: both runs return
    without raising, the second writes the very text the first wrote,
    and the files after the second run are the files after the first. *)
Theorem main_again_changes_nothing (w : World) (m : text) :
  files w !! PROJECT_FILE = Some m ->
  exists w1 w2 c,
    main w = (Ok tt, w1) /\
    files w1 !! PROJECT_FILE = Some c /\
    writes (log w1) = writes (log w) ++ [(PROJECT_FILE, c)] /\
    main w1 = (Ok tt, w2) /\
    writes (log w2) = writes (log w1) ++ [(PROJECT_FILE, c)] /\
    files w2 = files w1.
Proof.
  intros Hm.
  destruct (register_all_cases test_files m
              (logged w [PathExists PROJECT_FILE; ReadFile PROJECT_FILE]))
    as (c & wa & Hrun & Hf & _ & Hwa & _).
  destruct (main_eq w m c wa Hm Hrun) as (tail & Hmain & Htail).
  match type of Hmain with _ = (_, ?x) => set (w1 := x) in * end.
  assert (Hc : files w1 !! PROJECT_FILE = Some c) by apply lookup_insert_eq.
  destruct (register_all_again test_files test_files_names m _ c wa
              (logged w1 [PathExists PROJECT_FILE; ReadFile PROJECT_FILE]) Hrun)
    as (wb & Hrun2 & Hfb).
  { intros e He. cbn [logged files w1]. rewrite Hf. cbn [logged files].
    rewrite lookup_insert_ne by (apply not_eq_sym, test_files_paths, He). reflexivity. }
  destruct (register_all_cases test_files c
              (logged w1 [PathExists PROJECT_FILE; ReadFile PROJECT_FILE]))
    as (c2 & wb' & Hrun2' & _ & _ & Hwb & _).
  rewrite Hrun2 in Hrun2'. injection Hrun2' as <- <-.
  destruct (main_eq w1 c c wb Hc Hrun2) as (tail2 & Hmain2 & Htail2).
  eexists w1, _, c. split; [exact Hmain|]. split; [exact Hc|].
  assert (Hlog1 : writes (log w1) = writes (log w) ++ [(PROJECT_FILE, c)]).
  { subst w1. cbn [log]. rewrite writes_app, writes_write, Htail, Hwa. cbn [logged log].
    rewrite writes_app, app_nil_r. reflexivity. }
  split; [exact Hlog1|]. split; [exact Hmain2|]. split.
  - cbn [log]. rewrite writes_app, writes_write, Htail2, Hwb. cbn [logged log].
    rewrite writes_app, app_nil_r. reflexivity.
  - cbn [files]. rewrite Hfb. cbn [logged files w1]. apply insert_insert_eq.
Qed.

Lemma main_again_changes_nothing_witness :
  Fixtures.all_sources Fixtures.sample_manifest !! PROJECT_FILE
    = Some Fixtures.sample_manifest /\
  exists w1 w2 c,
    main (Fixtures.world (Fixtures.all_sources Fixtures.sample_manifest)) = (Ok tt, w1) /\
    files w1 !! PROJECT_FILE = Some c /\
    writes (log w1) = [(PROJECT_FILE, c)] /\
    main w1 = (Ok tt, w2) /\
    writes (log w2) = writes (log w1) ++ [(PROJECT_FILE, c)] /\
    files w2 = files w1.
Proof.
  assert (H : Fixtures.all_sources Fixtures.sample_manifest !! PROJECT_FILE
              = Some Fixtures.sample_manifest) by (vm_compute; reflexivity).
  split; [exact H|].
  exact (main_again_changes_nothing
           (Fixtures.world (Fixtures.all_sources Fixtures.sample_manifest))
           Fixtures.sample_manifest H).
Defined.

End MainMore.

(** ** More on the identifiers *)
Module IdMore.
Import Patcher EffFacts PyFacts IdFacts PatcherFacts.
Local Open Scope N_scope.

(** *** The digits of ['%032x' % n] *)

Lemma nibble (x : N) :
  x mod 16 = N.b2n (N.testbit x 0) + 2 * N.b2n (N.testbit x 1)
             + 4 * N.b2n (N.testbit x 2) + 8 * N.b2n (N.testbit x 3).
Proof.
  rewrite !N.testbit_spec'.
  change (2 ^ 0) with 1. change (2 ^ 1) with 2. change (2 ^ 2) with 4. change (2 ^ 3) with 8.
  rewrite N.div_1_r. zify. Z.to_euclidean_division_equations. lia.
Qed.

Lemma shiftr_nibble (u p : N) :
  (u / 2 ^ p) mod 16 =
  N.b2n (N.testbit u p) + 2 * N.b2n (N.testbit u (p + 1))
  + 4 * N.b2n (N.testbit u (p + 2)) + 8 * N.b2n (N.testbit u (p + 3)).
Proof.
  rewrite <- N.shiftr_div_pow2, nibble, !N.shiftr_spec'.
  rewrite N.add_0_l, !(N.add_comm _ p). reflexivity.
Qed.

Lemma hex_digits_lookup (k : nat) (n : N) (i : nat) :
  (i < k)%nat ->
  hex_digits k n !! i = Some (hex_char ((n / 16 ^ N.of_nat (k - 1 - i)) mod 16)).
Proof.
  revert n. induction k as [|k IH]; intros n Hi; [lia|].
  cbn [hex_digits]. destruct (decide (i = k)) as [->|Hne].
  - rewrite lookup_app_r by (rewrite hex_digits_length; lia).
    rewrite hex_digits_length. replace (k - k)%nat with 0%nat by lia.
    replace (S k - 1 - k)%nat with 0%nat by lia.
    cbn [N.of_nat]. rewrite N.pow_0_r, N.div_1_r. reflexivity.
  - rewrite lookup_app_l by (rewrite hex_digits_length; lia).
    rewrite IH by lia. do 2 f_equal.
    replace (S k - 1 - i)%nat with (S (k - 1 - i)) by lia.
    rewrite Nat2N.inj_succ, N.pow_succ_r', N.Div0.div_div. reflexivity.
Qed.

Lemma hex_digits_split (j k : nat) (n : N) :
  hex_digits (j + k) n = hex_digits j (n / 16 ^ N.of_nat k) ++ hex_digits k n.
Proof.
  revert n. induction k as [|k IH]; intros n.
  - rewrite Nat.add_0_r. cbn [N.of_nat hex_digits].
    rewrite N.pow_0_r, N.div_1_r, app_nil_r. reflexivity.
  - rewrite Nat.add_succ_r. cbn [hex_digits]. rewrite IH, <- app_assoc.
    rewrite Nat2N.inj_succ, N.pow_succ_r', N.Div0.div_div. reflexivity.
Qed.

Lemma upper_hex_inj (a b : N) :
  a < 16 -> b < 16 ->
  Py.upper_char (hex_char a) = Py.upper_char (hex_char b) -> a = b.
Proof.
  intros Ha Hb.
  assert (Hcases : forall x, x < 16 -> In x [0;1;2;3;4;5;6;7;8;9;10;11;12;13;14;15])
    by (intros x Hx; cbn; lia).
  pose proof (Hcases a Ha) as Ia. pose proof (Hcases b Hb) as Ib.
  clear Ha Hb Hcases. cbn in Ia, Ib.
  repeat (destruct Ia as [<-|Ia]); try contradiction;
  repeat (destruct Ib as [<-|Ib]); try contradiction;
  intros H; try reflexivity; vm_compute in H; discriminate.
Qed.

(** Two numbers have the same [k] upper-case digits exactly when they
    agree modulo [16^k]. *)
Lemma hex_digits_eq_iff (k : nat) (a b : N) :
  Py.upper (hex_digits k a) = Py.upper (hex_digits k b) <->
  a mod 16 ^ N.of_nat k = b mod 16 ^ N.of_nat k.
Proof.
  revert a b. induction k as [|k IH]; intros a b.
  - cbn [N.of_nat hex_digits]. rewrite N.pow_0_r, !N.mod_1_r. done.
  - cbn [hex_digits]. unfold Py.upper in *. rewrite !map_app. cbn [map].
    rewrite Nat2N.inj_succ, N.pow_succ_r', !N.Div0.mod_mul_r.
    assert (Ha : a mod 16 < 16) by (apply N.mod_upper_bound; discriminate).
    assert (Hb : b mod 16 < 16) by (apply N.mod_upper_bound; discriminate).
    split.
    + intros H. apply app_inj_tail in H as [H1 H2].
      apply IH in H1. apply upper_hex_inj in H2; [|lia..]. rewrite H1, H2. reflexivity.
    + intros H.
      assert (a mod 16 = b mod 16 /\
              (a / 16) mod 16 ^ N.of_nat k = (b / 16) mod 16 ^ N.of_nat k) as [H2 H1].
      { generalize dependent ((a / 16) mod 16 ^ N.of_nat k).
        generalize dependent ((b / 16) mod 16 ^ N.of_nat k).
        generalize dependent (a mod 16). generalize dependent (b mod 16). clear. lia. }
      apply IH in H1. rewrite H1, H2. reflexivity.
Qed.

(** *** The bits [uuid.uuid4()] sets *)

Lemma uuid4_bits (r : N) :
  N.testbit (uuid4_int r) 76 = false /\ N.testbit (uuid4_int r) 77 = false /\
  N.testbit (uuid4_int r) 78 = true /\ N.testbit (uuid4_int r) 79 = false /\
  N.testbit (uuid4_int r) 62 = false /\ N.testbit (uuid4_int r) 63 = true.
Proof.
  unfold uuid4_int. cbv zeta.
  repeat split; repeat (rewrite N.lor_spec || rewrite N.ldiff_spec);
  match goal with |- context [N.testbit (N.shiftl 4 76) ?i] =>
    let b := eval vm_compute in (N.testbit (N.shiftl 4 76) i) in
    change (N.testbit (N.shiftl 4 76) i) with b;
    let b := eval vm_compute in (N.testbit (N.shiftl 0xf000 64) i) in
    change (N.testbit (N.shiftl 0xf000 64) i) with b;
    let b := eval vm_compute in (N.testbit (N.shiftl 0x8000 48) i) in
    change (N.testbit (N.shiftl 0x8000 48) i) with b;
    let b := eval vm_compute in (N.testbit (N.shiftl 0xc000 48) i) in
    change (N.testbit (N.shiftl 0xc000 48) i) with b
  end; cbn [negb andb orb];
  rewrite ?Bool.andb_false_r, ?Bool.orb_true_r, ?Bool.orb_false_r, ?Bool.andb_true_r;
  reflexivity.
Qed.

Lemma version_digit (r : N) : (uuid4_int r / 16 ^ 19) mod 16 = 4.
Proof.
  change (16 ^ 19) with (2 ^ 76). rewrite shiftr_nibble.
  destruct (uuid4_bits r) as (H0 & H1 & H2 & H3 & _).
  change (76 + 1) with 77. change (76 + 2) with 78. change (76 + 3) with 79.
  rewrite H0, H1, H2, H3. reflexivity.
Qed.

Lemma variant_digit (r : N) : 8 <= (uuid4_int r / 16 ^ 15) mod 16 <= 11.
Proof.
  change (16 ^ 15) with (2 ^ 60). rewrite shiftr_nibble.
  destruct (uuid4_bits r) as (_ & _ & _ & _ & H2 & H3).
  change (60 + 2) with 62. change (60 + 3) with 63.
  rewrite H2, H3.
  destruct (N.testbit (uuid4_int r) 60), (N.testbit (uuid4_int r) (60 + 1)); cbn; lia.
Qed.

(** *** The identifier *)

Lemma lookup_map {A B} (f : A -> B) (l : list A) (i : nat) :
  map f l !! i = f <$> (l !! i).
Proof. revert i. induction l as [|x l IH]; intros [|i]; cbn; auto. Qed.

Lemma nth_id_digits (w : World) (k : nat) :
  nth_id w k = Py.upper (take 24 (hex_digits 32 (uuid4_int (urandom w (drawn w + k))))).
Proof.
  unfold nth_id. rewrite uuid_digits.
  unfold Py.slice_to, Py.upper. rewrite !List.length_map, !hex_digits_length.
  change (Py.bound 24 32) with 24%nat. apply firstn_map.
Qed.

Lemma nth_id_lookup (w : World) (k i : nat) :
  (i < 24)%nat ->
  nth_id w k !! i =
  Some (Py.upper_char
          (hex_char ((uuid4_int (urandom w (drawn w + k)) / 16 ^ N.of_nat (31 - i)) mod 16))).
Proof.
  intros Hi. rewrite nth_id_digits. unfold Py.upper.
  rewrite lookup_map, lookup_take_lt by lia.
  rewrite hex_digits_lookup by lia. reflexivity.
Qed.

Lemma nth_id_eq_iff (w1 w2 : World) (k1 k2 : nat) :
  nth_id w1 k1 = nth_id w2 k2 <->
  (uuid4_int (urandom w1 (drawn w1 + k1)) / 2 ^ 32) mod 2 ^ 96
  = (uuid4_int (urandom w2 (drawn w2 + k2)) / 2 ^ 32) mod 2 ^ 96.
Proof.
  rewrite !nth_id_digits.
  change 32%nat with (24 + 8)%nat. rewrite !hex_digits_split.
  rewrite !take_app_length' by (symmetry; apply hex_digits_length).
  apply (hex_digits_eq_iff 24).
Qed.

Lemma generate_uuid_run (w : World) :
  generate_uuid w
  = (Ok (nth_id w 0),
     {| files := files w; urandom := urandom w; drawn := S (drawn w); log := log w |}).
Proof.
  unfold generate_uuid, draw_uuid4, nth_id. unfold_monad. cbn [files urandom drawn log].
  rewrite Nat.add_0_r. reflexivity.
Qed.

(** X11.  [generate_uuid] never raises and takes one value from the
    random source, leaving files and output as they were.  What it
    returns has 24 characters, each one of [0123456789ABCDEF]; the
    thirteenth is always [4], the version digit of the UUID, and the
    seventeenth is one of [8], [9], [A] and [B], its variant digit. *)
Theorem generate_uuid_mints (w : World) :
  exists id,
    generate_uuid w
    = (Ok id, {| files := files w; urandom := urandom w; drawn := S (drawn w);
                 log := log w |}) /\
    length id = 24%nat /\
    Forall (fun c => c ∈ lit "0123456789ABCDEF") id /\
    id !! 12%nat = Some "4"%char /\
    exists c, id !! 16%nat = Some c /\ c ∈ lit "89AB".
Proof.
  exists (nth_id w 0). split; [apply generate_uuid_run|].
  destruct (nth_id_minted w 0) as [Hlen Hhex].
  split; [exact Hlen|]. split.
  { apply Forall_forall. intros c Hc. apply list_elem_of_In, has_char_In.
    rewrite forallb_forall in Hhex. apply Hhex, list_elem_of_In, Hc. }
  split.
  { rewrite nth_id_lookup by lia. change (N.of_nat (31 - 12)) with 19.
    rewrite version_digit. reflexivity. }
  eexists. split; [apply nth_id_lookup; lia|].
  change (N.of_nat (31 - 16)) with 15.
  pose proof (variant_digit (urandom w (drawn w + 0))) as Hv.
  set (d := (uuid4_int (urandom w (drawn w + 0)) / 16 ^ 15) mod 16) in *.
  assert (Hd : d = 8 \/ d = 9 \/ d = 10 \/ d = 11) by lia.
  clearbody d. apply list_elem_of_In.
  destruct Hd as [-> | [-> | [-> | ->]]]; vm_compute; auto.
Qed.

(** X12.  Only the first 24 hexadecimal digits of the UUID reach the
    identifier: two calls return the same identifier exactly when the
    UUIDs they draw agree in all bits but the lowest 32. *)
Theorem identifiers_agree_iff_uuids_agree (w1 w2 : World) :
  (generate_uuid w1).1 = (generate_uuid w2).1 <->
  (uuid4_int (urandom w1 (drawn w1)) / 2 ^ 32) mod 2 ^ 96
  = (uuid4_int (urandom w2 (drawn w2)) / 2 ^ 32) mod 2 ^ 96.
Proof.
  rewrite !generate_uuid_run. cbn [fst].
  pose proof (nth_id_eq_iff w1 w2 0 0) as Hiff. rewrite !Nat.add_0_r in Hiff.
  rewrite <- Hiff.
  split; [intros [= H]; exact H | intros ->; reflexivity].
Qed.

Lemma identifiers_agree_iff_uuids_agree_witness :
  uuid4_int 0 <> uuid4_int 1 /\
  (generate_uuid (Fixtures.constant_world 0)).1
  = (generate_uuid (Fixtures.constant_world 1)).1.
Proof.
  split; [vm_compute; discriminate|].
  apply (proj2 (identifiers_agree_iff_uuids_agree
                  (Fixtures.constant_world 0) (Fixtures.constant_world 1))).
  vm_compute. reflexivity.
Defined.

End IdMore.
